(** * Smart-agri frontend: the telemetry client and the historical chart

    A shallow embedding of [src/services/ArduinoService.ts] and of the data
    pipeline of [src/components/HistoricalChart.tsx], with the properties of
    the specification proved (or refuted) against it.

    Conventions of the embedding.
    - A JavaScript number is an IEEE-754 binary64 value: Rocq's primitive
      [float].  Counters that the code only increments by one and compares
      ([reconnectAttempts], a bucket's [count], array lengths) are [nat];
      epoch milliseconds are [Z].
    - An [any]-typed payload is a [JSValue]; property reads, truthiness,
      [||], [===] and [Number(..)] follow ECMAScript.
    - The service is one mutable object: its methods are computations in a
      state monad over [Service] that also records the calls made to the
      outside (subscriber callbacks, socket, timers, HTTP) and may end in a
      JavaScript exception.
    - Built-ins whose result is not determined by the source (string to
      number conversion, number to string conversion, [Date] parsing and
      formatting) are [Variable]s of the sections that need them. *)

From Stdlib Require Import ZArith List String Ascii Bool Lia.
From Stdlib Require Import Sorting.Sorted Sorting.Permutation.
From Stdlib Require Import Floats.PrimFloat Numbers.Cyclic.Int63.Uint63.
From stdpp Require Import gmap strings pretty.
Import ListNotations.

Set Warnings "-register-all".
Local Open Scope string_scope.
Local Open Scope list_scope.

(* ===================================================================== *)
(** * Part I: the embedding                                                *)
(* ===================================================================== *)

(** ** JavaScript values *)

Module JS.

(** The values a decoded transport payload is made of. An object is the
    list of its own enumerable properties in creation order. *)
Inductive JSValue : Type :=
| VUndefined
| VNull
| VBool (b : bool)
| VNum (n : float)
| VStr (s : string)
| VArr (items : list JSValue)
| VObj (fields : list (string * JSValue)).

(** [isNaN(n)] on a number. *)
Definition isNaN (n : float) : bool := PrimFloat.is_nan n.


(** ToBoolean: the falsy values are [undefined], [null], [false], [0], [-0],
    [NaN] and the empty string. *)
Definition ToBoolean (v : JSValue) : bool :=
  match v with
  | VUndefined | VNull => false
  | VBool b => b
  | VNum n => negb (PrimFloat.eqb n 0 || isNaN n)
  | VStr s => negb (String.eqb s "")
  | VArr _ | VObj _ => true
  end.

(** [a || b]: the left operand when it is truthy, else the right one. *)
Definition js_or (a b : JSValue) : JSValue := if ToBoolean a then a else b.

(** [v === undefined], [v === null] and [v === 'literal']. *)
Definition is_undefined (v : JSValue) : bool :=
  match v with VUndefined => true | _ => false end.

Definition is_null (v : JSValue) : bool :=
  match v with VNull => true | _ => false end.

Definition strict_eq_str (v : JSValue) (lit : string) : bool :=
  match v with VStr s => String.eqb s lit | _ => false end.

Fixpoint assoc (k : string) (fields : list (string * JSValue)) : JSValue :=
  match fields with
  | [] => VUndefined
  | (k', v) :: rest => if String.eqb k k' then v else assoc k rest
  end.

Fixpoint indexed (i : nat) (items : list JSValue) : list (string * JSValue) :=
  match items with
  | [] => []
  | x :: rest => (pretty i, x) :: indexed (S i) rest
  end.

Fixpoint chars (i : nat) (s : string) : list (string * JSValue) :=
  match s with
  | EmptyString => []
  | String c rest => (pretty i, VStr (String c EmptyString)) :: chars (S i) rest
  end.

(** The own enumerable string-keyed properties of a value, in the order
    [Object.keys] lists them: the fields of an object, the indices of an
    array or of a string, nothing for the other primitives. *)
Definition own_entries (v : JSValue) : list (string * JSValue) :=
  match v with
  | VObj fields => fields
  | VArr items => indexed 0 items
  | VStr s => chars 0 s
  | _ => []
  end.

Definition Object_keys (v : JSValue) : list string := map fst (own_entries v).

(** [v?.k]: the property when [v] has it, [undefined] otherwise (also on
    [null] and [undefined]). The service reads no inherited property
    ([length], [toString], ...) of a payload. *)
Definition getProp (v : JSValue) (k : string) : JSValue := assoc k (own_entries v).

(** Whether the object with the properties [fields] has an own property
    [k]. *)
Definition hasOwn {V : Type} (k : string) (fields : list (string * V)) : bool :=
  existsb (fun entry => String.eqb k (fst entry)) fields.

(** The names of the members of [Object.prototype]. An object written as a
    literal or decoded from a payload inherits them: a read of one of these
    names on an object that has no own property of the name gives the
    member, a function (the prototype itself for [__proto__]). *)
Definition Object_prototype : list string :=
  ["constructor"; "hasOwnProperty"; "isPrototypeOf"; "propertyIsEnumerable";
   "toLocaleString"; "toString"; "valueOf"; "__proto__"; "__defineGetter__";
   "__defineSetter__"; "__lookupGetter__"; "__lookupSetter__"].

Definition inherited (k : string) : bool := existsb (String.eqb k) Object_prototype.

(** Whether [v.k] (without [?.]) raises a TypeError. *)
Definition nullish (v : JSValue) : bool := is_undefined v || is_null v.

(** [array.slice(-n)]: the last [n] elements. *)
Definition slice_last {A : Type} (n : nat) (l : list A) : list A :=
  skipn (length l - n) l.

(** [Math.pow(b, e)] for a natural exponent, by repeated multiplication
    (exact whenever the power is representable, as for the powers of 1.5 the
    service computes), and [Math.min(a, b)]. *)
Fixpoint Math_pow (b : float) (e : nat) : float :=
  match e with
  | O => 1%float
  | S e' => (b * Math_pow b e')%float
  end.

(** The number that holds a counter. *)
Definition of_nat (n : nat) : float := PrimFloat.of_uint63 (Uint63.of_Z (Z.of_nat n)).

Definition Math_min (a b : float) : float :=
  if isNaN a || isNaN b then PrimFloat.nan
  else if (a <? b)%float then a
  else if (b <? a)%float then b
  else if PrimFloat.get_sign a then a else b.

Section Conversions.

(** StringToNumber of ECMAScript (the numeric value of a string, [NaN] when
    it is no numeric literal) and Number::toString. *)
Variable StringToNumber : string -> float.
Variable NumberToString : float -> string.

(** ToString, which is also the conversion of a value used as a property
    name; [None] stands for the TypeError of ToPrimitive.

    The properties of a decoded object hold data, never functions. An
    object without an own [toString] is printed by
    [Object.prototype.toString], as [[object Object]]. An own [toString]
    shadows that method with a value that cannot be called, and [valueOf],
    own or inherited, gives no primitive: the conversion throws. An array
    joins its elements with commas, [null] and [undefined] printing as
    nothing and the other elements converted in turn. *)
Fixpoint ToString (v : JSValue) : option string :=
  match v with
  | VUndefined => Some "undefined"
  | VNull => Some "null"
  | VBool true => Some "true"
  | VBool false => Some "false"
  | VNum n => Some (NumberToString n)
  | VStr s => Some s
  | VArr items =>
      (fix join (l : list JSValue) : option string :=
         match l with
         | [] => Some ""
         | x :: rest =>
             match (match x with
                    | VUndefined | VNull => Some ""
                    | _ => ToString x
                    end) with
             | None => None
             | Some first =>
                 match rest with
                 | [] => Some first
                 | _ :: _ =>
                     match join rest with
                     | None => None
                     | Some others => Some (String.append first (String.append "," others))
                     end
                 end
             end
         end) items
  | VObj fields => if hasOwn "toString" fields then None else Some "[object Object]"
  end.

(** [Number(v)], that is ToNumber; [None] stands for the TypeError of
    ToPrimitive. An object that converts to a string gives [NaN], since
    [[object Object]] is no numeric literal; an array gives the number of
    the string it joins to. *)
Definition Number (v : JSValue) : option float :=
  match v with
  | VUndefined => Some PrimFloat.nan
  | VNull => Some 0%float
  | VBool true => Some 1%float
  | VBool false => Some 0%float
  | VNum n => Some n
  | VStr s => Some (StringToNumber s)
  | VArr _ =>
      match ToString v with
      | Some s => Some (StringToNumber s)
      | None => None
      end
  | VObj fields => if hasOwn "toString" fields then None else Some PrimFloat.nan
  end.

End Conversions.

End JS.

Import JS.

(** ** Shared types *)

Module Types.

(** Modelled from the spec: [PlantType] is declared in [src/types], which is
    not part of the sources; the spec gives it as [level1 | level2], and the
    service compares it with ['level1'] only. *)
Inductive PlantType : Type := level1 | level2.

Definition PlantType_str (t : PlantType) : string :=
  match t with level1 => "level1" | level2 => "level2" end.

(** Modelled from the spec: [ControlAction] is declared in [src/types]; the
    spec gives it as [water | light | nutrients]. *)
Inductive ControlAction : Type := water | light | nutrients.

Definition ControlAction_str (a : ControlAction) : string :=
  match a with water => "water" | light => "light" | nutrients => "nutrients" end.

(** [SensorData], with the fields [validateSensorData] returns. [timestamp]
    and [deviceId] are declared as strings and filled from [any]-typed
    payload values without conversion. *)
Record SensorData : Type := {
  temperature : float;
  humidity : float;
  moisture : float;
  sunlight : float;
  nitrogen : float;
  phosphorus : float;
  potassium : float;
  waterLevel : float;
  fertilizerLevel : float;
  timestamp : JSValue;
  deviceId : JSValue
}.

(** A thrown JavaScript value: an [Error] instance with its message, or
    anything else. *)
Inductive Exn : Type :=
| JSError (message : string)
| Thrown (v : JSValue).

(** How an evaluation ends. *)
Inductive Completion (A : Type) : Type :=
| Normal (a : A)
| Throw (e : Exn).
Arguments Normal {A} a.
Arguments Throw {A} e.

#[export] Instance Completion_ret : MRet Completion := fun A a => Normal a.

#[export] Instance Completion_bind : MBind Completion := fun A B k c =>
  match c with
  | Normal a => k a
  | Throw e => Throw e
  end.

(** The TypeError of a conversion that finds no primitive value, and the
    completion of a conversion. *)
Definition cannot_convert : Exn := JSError "Cannot convert object to primitive value".

Definition converted {A : Type} (o : option A) : Completion A :=
  match o with
  | Some a => Normal a
  | None => Throw cannot_convert
  end.

End Types.

Import Types.

(** ** The data normalizer ([safeNumber], [validateSensorData]) *)

Module Normalizer.
Section Normalizer.

Variable StringToNumber : string -> float.
Variable NumberToString : float -> string.

Local Abbreviation Number := (JS.Number StringToNumber NumberToString).

(** [safeNumber(value, defaultValue)]. [Number(value)] throws on a value
    that has no primitive value. *)
Definition safeNumber (value : JSValue) (defaultValue : float) : Completion float :=
  if is_null value || is_undefined value || strict_eq_str value "" then
    mret defaultValue
  else
    num ← converted (Number value);
    mret (if isNaN num then defaultValue else num).

(** [validateSensorData(data, deviceId, plantType)], with the instant read by
    [new Date().toISOString()] passed as [now]. The first property read,
    [data.npk], raises a TypeError on [null] and [undefined]; the
    conversions run in the order of the source. *)
Definition validateSensorData (data : JSValue) (deviceId : JSValue)
    (plantType : PlantType) (now : string) : Completion SensorData :=
  if nullish data then
    Throw (JSError "Cannot read properties of undefined (reading 'npk')")
  else
    let deviceId := if is_undefined deviceId then VStr "" else deviceId in
    let npk := getProp data "npk" in
    npkValues ←
      (if ToBoolean npk then
         nitrogen ← safeNumber (getProp npk "N") 0;
         phosphorus ← safeNumber (getProp npk "P") 0;
         potassium ← safeNumber (getProp npk "K") 0;
         mret (nitrogen, phosphorus, potassium)
       else
         nitrogen ← safeNumber (getProp data "nitrogen") 0;
         phosphorus ← safeNumber (getProp data "phosphorus") 0;
         potassium ← safeNumber (getProp data "potassium") 0;
         mret (nitrogen, phosphorus, potassium));
    let '(nitrogen, phosphorus, potassium) := npkValues in
    moisturePercent ←
      (if negb (is_undefined (getProp data "moisture_percent")) then
         safeNumber (getProp data "moisture_percent") 0
       else if negb (is_undefined (getProp data "soil_moisture_percent")) then
         safeNumber (getProp data "soil_moisture_percent") 0
       else
         safeNumber (getProp data "moisture") 0);
    sunlightValue ←
      (if negb (is_undefined (getProp data "lux")) then
         safeNumber (getProp data "lux") 0
       else if negb (is_undefined (getProp data "lightLevel")) then
         safeNumber (getProp data "lightLevel") 0
       else if negb (is_undefined (getProp data "ldr")) then
         safeNumber (getProp data "ldr") 0
       else mret 0%float);
    temperature ← safeNumber (getProp data "temperature") 20;
    humidity ← safeNumber (getProp data "humidity") 50;
    waterLevel ←
      safeNumber (js_or (getProp data "waterLevelPercent") (getProp data "waterLevel")) 0;
    fertilizerLevel ←
      safeNumber (js_or (getProp data "fertilizer_level") (getProp data "fertilizerLevel")) 0;
    mret {|
      temperature := temperature;
      humidity := humidity;
      moisture := moisturePercent;
      sunlight := sunlightValue;
      nitrogen := nitrogen;
      phosphorus := phosphorus;
      potassium := potassium;
      waterLevel := waterLevel;
      fertilizerLevel := fertilizerLevel;
      timestamp := js_or (getProp data "timestamp") (VStr now);
      deviceId := deviceId
    |}.

(** *** Vocabulary of the normalizer's properties *)

(** A source value that [Number] converts: a primitive, an object without
    an own [toString], or an array of such values. *)
Definition convertible (v : JSValue) : bool :=
  match Number v with Some _ => true | None => false end.

(** A source value the normalizer does not use: missing, [null], the empty
    string, or without a numeric value. *)
Definition unusable (v : JSValue) : bool :=
  is_undefined v || is_null v || strict_eq_str v ""
  || match Number v with Some num => isNaN num | None => false end.

(** [x] is what the normalizer makes of the source value [v] with the
    fallback [d]: the fallback when [v] is unusable, else the number [v]
    converts to, which is no [NaN]. *)
Definition normalizes (v : JSValue) (d : float) (x : float) : Prop :=
  isNaN x = false /\
  if unusable v then x = d else Number v = Some x.

(** The numeric fields of a reading. *)
Definition numeric_fields (r : SensorData) : list float :=
  [temperature r; humidity r; moisture r; sunlight r; nitrogen r; phosphorus r;
   potassium r; waterLevel r; fertilizerLevel r].

(** The source values of a payload that the normalizer may convert. *)
Definition sources (data : JSValue) : list JSValue :=
  [getProp (getProp data "npk") "N"; getProp (getProp data "npk") "P";
   getProp (getProp data "npk") "K"; getProp data "nitrogen"; getProp data "phosphorus";
   getProp data "potassium"; getProp data "moisture_percent";
   getProp data "soil_moisture_percent"; getProp data "moisture"; getProp data "lux";
   getProp data "lightLevel"; getProp data "ldr"; getProp data "temperature";
   getProp data "humidity"; getProp data "waterLevelPercent"; getProp data "waterLevel";
   getProp data "fertilizer_level"; getProp data "fertilizerLevel"].

(** The reading of a payload that has no usable field: every fallback, the
    instant of the call as timestamp, and the device as it was passed. *)
Definition fallbacks (deviceId : JSValue) (now : string) : SensorData :=
  {| temperature := 20; humidity := 50; moisture := 0; sunlight := 0;
     nitrogen := 0; phosphorus := 0; potassium := 0; waterLevel := 0;
     fertilizerLevel := 0; timestamp := VStr now;
     deviceId := if is_undefined deviceId then VStr "" else deviceId |}.

End Normalizer.
End Normalizer.

(** ** The service ([class ArduinoService]) *)

Module ArduinoService.

(** What [mapCommandToAction] returns: a value (an entry of its map, or the
    command itself), or, for a command that names a member of
    [Object.prototype], that member, which the map inherits. *)
Inductive Action : Type :=
| ActionValue (v : JSValue)
| InheritedMember (name : string).

(** What [emit] hands to a subscriber: the combined reading of the ['data']
    event, an object built or forwarded by the service, or the object the
    handlers of ['commandIssued'] and ['commandTimeout'] build, with its
    [action], [success], [message] and [timestamp]. *)
Inductive Payload : Type :=
| PSensor (d : SensorData)
| PJS (v : JSValue)
| PCommand (action : Action) (success : bool) (message : string) (timestamp : string).

(** A subscriber. It is code outside the service: what the methods of the
    service see of a call [callback(data)] is whether it returns or throws.
    [cb_id] is the identity of the function object ([indexOf] compares by
    reference).

    A subscriber can also call back into the service while it runs. The
    methods below are modelled for subscribers that do not; what [emit]
    does when they subscribe or unsubscribe during a delivery is modelled
    by [emit_live], which agrees with [emit] on the others. *)
Record Callback : Type := {
  cb_id : nat;
  cb_call : Payload -> option Exn
}.

(** The callbacks the service passes to [setTimeout]. *)
Inductive TimerTask : Type :=
| ConnectionWatchdog
| RetryConnect.

(** The calls the service makes to the outside, in order. *)
Inductive Effect : Type :=
| Published (event : string) (data : Payload)
| Delivered (cb : nat) (event : string) (data : Payload)
| SocketOpened (handle : nat) (url : string)
| SocketEmit (event : string) (data : JSValue)
| SocketDisconnect (handle : nat)
| SetTimeout (id : nat) (task : TimerTask) (delay : float)
| ClearTimeout (id : nat)
| Fetch (url : string) (body : JSValue)
| PromiseResolved (value : bool).

(** The private fields of the class. [socket] and [connectionTimeout] hold
    the handle of a socket and of a timer ([None] for [null]); [nextHandle]
    is the source of fresh handles, and the only field that is not in the
    class.

    [currentSensorData] and [historicalData] are plain objects; the maps
    hold their own properties. The members they inherit from
    [Object.prototype] show where the class reads a key it has not written,
    in the ['dataUpdate'] handler. The cache is read at the key just
    written and at [esp32_1] and [esp32_2] only, where a read finds the own
    property or nothing. *)
Record Service : Type := {
  socket : option nat;
  reconnectAttempts : nat;
  maxReconnectAttempts : nat;
  listeners : gmap string (list Callback);
  connected : bool;
  plantType : PlantType;
  wateringActive : bool;
  lightActive : bool;
  backendUrl : string;
  retryDelay : float;
  currentSensorData : gmap string SensorData;
  currentReservoirLevels : JSValue;
  connectionTimeout : option nat;
  historicalData : gmap string (list SensorData);
  nextHandle : nat
}.

Definition set_socket (v : option nat) (s : Service) : Service :=
  {| socket := v; reconnectAttempts := reconnectAttempts s;
     maxReconnectAttempts := maxReconnectAttempts s; listeners := listeners
     s; connected := connected s; plantType := plantType s; wateringActive
     := wateringActive s; lightActive := lightActive s; backendUrl :=
     backendUrl s; retryDelay := retryDelay s; currentSensorData :=
     currentSensorData s; currentReservoirLevels := currentReservoirLevels
     s; connectionTimeout := connectionTimeout s; historicalData :=
     historicalData s; nextHandle := nextHandle s |}.

Definition set_reconnectAttempts (v : nat) (s : Service) : Service :=
  {| socket := socket s; reconnectAttempts := v; maxReconnectAttempts :=
     maxReconnectAttempts s; listeners := listeners s; connected :=
     connected s; plantType := plantType s; wateringActive := wateringActive
     s; lightActive := lightActive s; backendUrl := backendUrl s; retryDelay
     := retryDelay s; currentSensorData := currentSensorData s;
     currentReservoirLevels := currentReservoirLevels s; connectionTimeout
     := connectionTimeout s; historicalData := historicalData s; nextHandle
     := nextHandle s |}.

Definition set_listeners (v : gmap string (list Callback)) (s : Service) : Service :=
  {| socket := socket s; reconnectAttempts := reconnectAttempts s;
     maxReconnectAttempts := maxReconnectAttempts s; listeners := v;
     connected := connected s; plantType := plantType s; wateringActive :=
     wateringActive s; lightActive := lightActive s; backendUrl :=
     backendUrl s; retryDelay := retryDelay s; currentSensorData :=
     currentSensorData s; currentReservoirLevels := currentReservoirLevels
     s; connectionTimeout := connectionTimeout s; historicalData :=
     historicalData s; nextHandle := nextHandle s |}.

Definition set_connected (v : bool) (s : Service) : Service :=
  {| socket := socket s; reconnectAttempts := reconnectAttempts s;
     maxReconnectAttempts := maxReconnectAttempts s; listeners := listeners
     s; connected := v; plantType := plantType s; wateringActive :=
     wateringActive s; lightActive := lightActive s; backendUrl :=
     backendUrl s; retryDelay := retryDelay s; currentSensorData :=
     currentSensorData s; currentReservoirLevels := currentReservoirLevels
     s; connectionTimeout := connectionTimeout s; historicalData :=
     historicalData s; nextHandle := nextHandle s |}.

Definition set_plantType (v : PlantType) (s : Service) : Service :=
  {| socket := socket s; reconnectAttempts := reconnectAttempts s;
     maxReconnectAttempts := maxReconnectAttempts s; listeners := listeners
     s; connected := connected s; plantType := v; wateringActive :=
     wateringActive s; lightActive := lightActive s; backendUrl :=
     backendUrl s; retryDelay := retryDelay s; currentSensorData :=
     currentSensorData s; currentReservoirLevels := currentReservoirLevels
     s; connectionTimeout := connectionTimeout s; historicalData :=
     historicalData s; nextHandle := nextHandle s |}.

Definition set_wateringActive (v : bool) (s : Service) : Service :=
  {| socket := socket s; reconnectAttempts := reconnectAttempts s;
     maxReconnectAttempts := maxReconnectAttempts s; listeners := listeners
     s; connected := connected s; plantType := plantType s; wateringActive
     := v; lightActive := lightActive s; backendUrl := backendUrl s;
     retryDelay := retryDelay s; currentSensorData := currentSensorData s;
     currentReservoirLevels := currentReservoirLevels s; connectionTimeout
     := connectionTimeout s; historicalData := historicalData s; nextHandle
     := nextHandle s |}.

Definition set_lightActive (v : bool) (s : Service) : Service :=
  {| socket := socket s; reconnectAttempts := reconnectAttempts s;
     maxReconnectAttempts := maxReconnectAttempts s; listeners := listeners
     s; connected := connected s; plantType := plantType s; wateringActive
     := wateringActive s; lightActive := v; backendUrl := backendUrl s;
     retryDelay := retryDelay s; currentSensorData := currentSensorData s;
     currentReservoirLevels := currentReservoirLevels s; connectionTimeout
     := connectionTimeout s; historicalData := historicalData s; nextHandle
     := nextHandle s |}.

Definition set_currentSensorData (v : gmap string SensorData) (s : Service) : Service :=
  {| socket := socket s; reconnectAttempts := reconnectAttempts s;
     maxReconnectAttempts := maxReconnectAttempts s; listeners := listeners
     s; connected := connected s; plantType := plantType s; wateringActive
     := wateringActive s; lightActive := lightActive s; backendUrl :=
     backendUrl s; retryDelay := retryDelay s; currentSensorData := v;
     currentReservoirLevels := currentReservoirLevels s; connectionTimeout
     := connectionTimeout s; historicalData := historicalData s; nextHandle
     := nextHandle s |}.

Definition set_currentReservoirLevels (v : JSValue) (s : Service) : Service :=
  {| socket := socket s; reconnectAttempts := reconnectAttempts s;
     maxReconnectAttempts := maxReconnectAttempts s; listeners := listeners
     s; connected := connected s; plantType := plantType s; wateringActive
     := wateringActive s; lightActive := lightActive s; backendUrl :=
     backendUrl s; retryDelay := retryDelay s; currentSensorData :=
     currentSensorData s; currentReservoirLevels := v; connectionTimeout :=
     connectionTimeout s; historicalData := historicalData s; nextHandle :=
     nextHandle s |}.

Definition set_connectionTimeout (v : option nat) (s : Service) : Service :=
  {| socket := socket s; reconnectAttempts := reconnectAttempts s;
     maxReconnectAttempts := maxReconnectAttempts s; listeners := listeners
     s; connected := connected s; plantType := plantType s; wateringActive
     := wateringActive s; lightActive := lightActive s; backendUrl :=
     backendUrl s; retryDelay := retryDelay s; currentSensorData :=
     currentSensorData s; currentReservoirLevels := currentReservoirLevels
     s; connectionTimeout := v; historicalData := historicalData s;
     nextHandle := nextHandle s |}.

Definition set_historicalData (v : gmap string (list SensorData)) (s : Service) : Service :=
  {| socket := socket s; reconnectAttempts := reconnectAttempts s;
     maxReconnectAttempts := maxReconnectAttempts s; listeners := listeners
     s; connected := connected s; plantType := plantType s; wateringActive
     := wateringActive s; lightActive := lightActive s; backendUrl :=
     backendUrl s; retryDelay := retryDelay s; currentSensorData :=
     currentSensorData s; currentReservoirLevels := currentReservoirLevels
     s; connectionTimeout := connectionTimeout s; historicalData := v;
     nextHandle := nextHandle s |}.

Definition set_nextHandle (v : nat) (s : Service) : Service :=
  {| socket := socket s; reconnectAttempts := reconnectAttempts s;
     maxReconnectAttempts := maxReconnectAttempts s; listeners := listeners
     s; connected := connected s; plantType := plantType s; wateringActive
     := wateringActive s; lightActive := lightActive s; backendUrl :=
     backendUrl s; retryDelay := retryDelay s; currentSensorData :=
     currentSensorData s; currentReservoirLevels := currentReservoirLevels
     s; connectionTimeout := connectionTimeout s; historicalData :=
     historicalData s; nextHandle := v |}.

(** The state of a freshly constructed service. *)
Definition initial (url : string) : Service :=
  {| socket := None;
     reconnectAttempts := 0;
     maxReconnectAttempts := 5;
     listeners := ∅;
     connected := false;
     plantType := level1;
     wateringActive := false;
     lightActive := false;
     backendUrl := url;
     retryDelay := 5000;
     currentSensorData := ∅;
     currentReservoirLevels :=
       VObj [("water", VNum 75); ("waterCm", VNum 15);
             ("fertilizer", VNum 60); ("fertilizerCm", VNum 12)];
     connectionTimeout := None;
     historicalData := <["level1" := []]> (<["level2" := []]> ∅);
     nextHandle := 1 |}.

(** *** The monad of the methods

    A method takes the object's state and gives how it completes, the state
    it leaves and the calls it made. A thrown exception leaves the state as
    it was when it was thrown. *)
Definition M (A : Type) : Type := Service -> Completion A * Service * list Effect.

#[export] Instance M_ret : MRet M := fun A a s => (Normal a, s, []).

#[export] Instance M_bind : MBind M := fun A B k m s =>
  match m s with
  | (Normal a, s1, t1) => let '(r, s2, t2) := k a s1 in (r, s2, t1 ++ t2)
  | (Throw e, s1, t1) => (Throw e, s1, t1)
  end.

Definition get : M Service := fun s => (Normal s, s, []).

Definition modify (f : Service -> Service) : M unit := fun s => (Normal tt, f s, []).

Definition tell (e : Effect) : M unit := fun s => (Normal tt, s, [e]).

Definition throw {A : Type} (e : Exn) : M A := fun s => (Throw e, s, []).

Definition lift {A : Type} (c : Completion A) : M A :=
  match c with Normal a => mret a | Throw e => throw e end.

(** [try { m } catch (e) { h e }]. *)
Definition try_catch {A : Type} (m : M A) (h : Exn -> M A) : M A := fun s =>
  match m s with
  | (Normal a, s1, t1) => (Normal a, s1, t1)
  | (Throw e, s1, t1) => let '(r, s2, t2) := h e s1 in (r, s2, t1 ++ t2)
  end.

(** [if (b) { m }]. *)
Definition when (b : bool) (m : M unit) : M unit := if b then m else mret tt.

(** [l.forEach(f)]: an exception thrown by [f] ends the loop. *)
Fixpoint forEach {A : Type} (l : list A) (f : A -> M unit) : M unit :=
  match l with
  | [] => mret tt
  | x :: rest => f x ;; forEach rest f
  end.

(** A fresh handle for a socket or a timer. *)
Definition fresh : M nat :=
  s ← get;
  modify (set_nextHandle (S (nextHandle s))) ;;
  mret (nextHandle s).

Section Methods.

(** The built-ins the methods call: ToNumber on strings, Number::toString,
    [Date.prototype.toISOString] on the instant read from the clock, and
    [JSON.stringify]. *)
Variable StringToNumber : string -> float.
Variable NumberToString : float -> string.
Variable toISOString : Z -> string.
Variable JSON_stringify : JSValue -> string.

Local Abbreviation ToString := (JS.ToString NumberToString).
Local Abbreviation validateSensorData :=
  (Normalizer.validateSensorData StringToNumber NumberToString).

(** *** The event hub ([on], [off], [emit]) *)

(** [on(event, callback)]. *)
Definition on (event : string) (callback : Callback) : M unit :=
  s ← get;
  when (negb (bool_decide (is_Some (listeners s !! event))))
       (modify (fun s => set_listeners (<[event := []]> (listeners s)) s)) ;;
  modify (fun s =>
    match listeners s !! event with
    | Some callbacks => set_listeners (<[event := callbacks ++ [callback]]> (listeners s)) s
    | None => s
    end).

(** [callbacks.splice(callbacks.indexOf(callback), 1)] when the index is not
    [-1]: the first occurrence is removed. *)
Fixpoint remove_first (id : nat) (callbacks : list Callback) : list Callback :=
  match callbacks with
  | [] => []
  | c :: rest => if Nat.eqb (cb_id c) id then rest else c :: remove_first id rest
  end.

(** [off(event, callback)]. *)
Definition off (event : string) (callback : Callback) : M unit :=
  modify (fun s =>
    match listeners s !! event with
    | None => s
    | Some callbacks =>
        set_listeners (<[event := remove_first (cb_id callback) callbacks]> (listeners s)) s
    end).

(** [callbacks.forEach(callback => callback(data))]: the callbacks are called
    in the order of the array; nothing catches what one of them throws. *)
Fixpoint call_each (callbacks : list Callback) (event : string) (data : Payload) : M unit :=
  match callbacks with
  | [] => mret tt
  | c :: rest =>
      tell (Delivered (cb_id c) event data) ;;
      match cb_call c data with
      | Some e => throw e
      | None => call_each rest event data
      end
  end.

(** [emit(event, data)]. [Published] records the call itself. *)
Definition emit (event : string) (data : Payload) : M unit :=
  tell (Published event data) ;;
  s ← get;
  match listeners s !! event with
  | None => mret tt
  | Some callbacks => call_each callbacks event data
  end.

(** *** Subscribers that call back into the hub

    [off] splices the array of the event and [on] pushes onto it: the very
    array that the [forEach] of [emit] is walking when a subscriber makes
    the call. [reentry c data] is the calls of [on] and [off] that the
    subscriber [c] makes while it runs on [data], before it returns or
    throws. *)
Inductive HubCall : Type :=
| Subscribe (event : string) (callback : Callback)
| Unsubscribe (event : string) (callback : Callback).

Definition hub_call (c : HubCall) : M unit :=
  match c with
  | Subscribe event callback => on event callback
  | Unsubscribe event callback => off event callback
  end.

(** [Array.prototype.forEach] on the array as it is at each step: the
    length is read once, before the first call; the indices below it are
    visited in order ([k] is the next one, [remaining] the number still to
    visit), and an index that the array no longer has is passed over. *)
Fixpoint forEach_live (reentry : Callback -> Payload -> list HubCall)
    (remaining k : nat) (event : string) (data : Payload) : M unit :=
  match remaining with
  | O => mret tt
  | S remaining' =>
      s ← get;
      match default [] (listeners s !! event) !! k with
      | Some c =>
          tell (Delivered (cb_id c) event data) ;;
          forEach (reentry c data) hub_call ;;
          match cb_call c data with
          | Some e => throw e
          | None => forEach_live reentry remaining' (S k) event data
          end
      | None => forEach_live reentry remaining' (S k) event data
      end
  end.

(** [emit(event, data)] with subscribers that call back. *)
Definition emit_live (reentry : Callback -> Payload -> list HubCall)
    (event : string) (data : Payload) : M unit :=
  tell (Published event data) ;;
  s ← get;
  match listeners s !! event with
  | None => mret tt
  | Some callbacks => forEach_live reentry (length callbacks) 0 event data
  end.

(** *** The device data combiner ([emitCurrentPlantData]) *)

(** [reading?.field || fallback] on a number field. *)
Definition field_or (reading : option SensorData) (field : SensorData -> float)
    (fallback : float) : float :=
  match reading with
  | Some r => if ToBoolean (VNum (field r)) then field r else fallback
  | None => fallback
  end.

(** The object literal [combinedData] of [emitCurrentPlantData], [None] when
    the method returns before building it. *)
Definition combinedData (esp32_1_data esp32_2_data : option SensorData)
    (plant : PlantType) (now : string) : option SensorData :=
  match esp32_1_data, esp32_2_data with
  | None, None => None
  | _, _ =>
      Some
        match plant with
        | level1 =>
            {| temperature := field_or esp32_1_data temperature 20;
               humidity := field_or esp32_1_data humidity 50;
               moisture := field_or esp32_1_data moisture 0;
               sunlight := field_or esp32_1_data sunlight 0;
               nitrogen := field_or esp32_1_data nitrogen 0;
               phosphorus := field_or esp32_1_data phosphorus 0;
               potassium := field_or esp32_1_data potassium 0;
               waterLevel := field_or esp32_1_data waterLevel 0;
               fertilizerLevel := field_or esp32_2_data fertilizerLevel 0;
               timestamp := VStr now;
               deviceId := VStr "esp32_1" |}
        | level2 =>
            {| temperature := field_or esp32_1_data temperature 20;
               humidity := field_or esp32_1_data humidity 50;
               moisture := field_or esp32_2_data moisture 0;
               sunlight := field_or esp32_2_data sunlight 0;
               nitrogen := field_or esp32_2_data nitrogen 0;
               phosphorus := field_or esp32_2_data phosphorus 0;
               potassium := field_or esp32_2_data potassium 0;
               waterLevel := field_or esp32_1_data waterLevel 0;
               fertilizerLevel := field_or esp32_2_data fertilizerLevel 0;
               timestamp := VStr now;
               deviceId := VStr "esp32_2" |}
        end
  end.

Definition emitCurrentPlantData (now : Z) : M unit :=
  s ← get;
  match combinedData (currentSensorData s !! "esp32_1") (currentSensorData s !! "esp32_2")
          (plantType s) (toISOString now) with
  | None => mret tt
  | Some combined => emit "data" (PSensor combined)
  end.

(** *** The connection manager *)

(** [error instanceof Error ? error.message : 'Unknown error']. *)
Definition errorMessage (error : Exn) : string :=
  match error with
  | JSError message => message
  | Thrown _ => "Unknown error"
  end.

(** [if (this.connectionTimeout) { clearTimeout(..); this.connectionTimeout = null }]. *)
Definition clearConnectionTimeout : M unit :=
  s ← get;
  match connectionTimeout s with
  | Some id => tell (ClearTimeout id) ;; modify (set_connectionTimeout None)
  | None => mret tt
  end.

(** The delay [handleConnectionError] computes once the counter is [attempts]. *)
Definition backoffDelay (retry : float) (attempts : nat) : float :=
  Math_min (retry * Math_pow 1.5 (attempts - 1)%nat)%float 20000.

(** [handleConnectionError(error)]. The retry is a timer whose callback
    calls [connect()]; its handle is not kept. *)
Definition handleConnectionError (error : Exn) : M unit :=
  modify (set_connected false) ;;
  emit "connection" (PJS (VObj [("connected", VBool false)])) ;;
  modify (fun s => set_reconnectAttempts (S (reconnectAttempts s)) s) ;;
  s ← get;
  if Nat.ltb (reconnectAttempts s) (maxReconnectAttempts s) then
    id ← fresh;
    tell (SetTimeout id RetryConnect (backoffDelay (retryDelay s) (reconnectAttempts s)))
  else
    emit "error" (PJS (VObj
      [("message", VStr ("Failed to connect to backend after "
                         +:+ pretty (maxReconnectAttempts s) +:+ " attempts: "
                         +:+ errorMessage error));
       ("details", VStr ("Backend URL: " +:+ backendUrl s
                         +:+ ". Please check if the server is running and accessible."))])).

(** What [io(url, options)] does: it returns a socket or throws. *)
Inductive IoOutcome : Type :=
| IoReturns
| IoThrows (error : Exn).

(** What the caller of [connect()] holds when the call returns: a promise
    already settled, or one still pending on the socket's events. *)
Inductive ConnectResult : Type :=
| Settled (value : bool)
| Pending.

(** [connect()], up to the point where it returns its promise. The handlers
    it installs on the socket are [on_connect], [on_connect_error], the
    watchdog [on_connection_timeout] and those of [setupSocketListeners]
    below; they run when the event loop delivers the event. *)
Definition connect (io : IoOutcome) : M ConnectResult :=
  clearConnectionTimeout ;;
  s ← get;
  if Nat.leb (maxReconnectAttempts s) (reconnectAttempts s) then
    emit "error" (PJS (VObj
      [("message", VStr ("Unable to connect to backend server after "
                         +:+ pretty (maxReconnectAttempts s)
                         +:+ " attempts. Please check if the server is running."));
       ("details", VStr ("Backend URL: " +:+ backendUrl s))])) ;;
    mret (Settled false)
  else
    match io with
    | IoThrows error =>
        handleConnectionError error ;;
        mret (Settled false)
    | IoReturns =>
        h ← fresh;
        tell (SocketOpened h (backendUrl s)) ;;
        modify (set_socket (Some h)) ;;
        id ← fresh;
        tell (SetTimeout id ConnectionWatchdog 20000) ;;
        modify (set_connectionTimeout (Some id)) ;;
        mret Pending
    end.

(** The socket's ['connect'] handler. *)
Definition on_connect (now : Z) : M unit :=
  modify (set_connected true) ;;
  modify (set_reconnectAttempts 0) ;;
  clearConnectionTimeout ;;
  emit "connection" (PJS (VObj [("connected", VBool true)])) ;;
  s ← get;
  when (bool_decide (is_Some (socket s)))
       (tell (SocketEmit "requestInitialData"
                (VObj [("plantType", VStr (PlantType_str (plantType s)));
                       ("deviceIds", VArr [VStr "esp32_1"; VStr "esp32_2"])]))) ;;
  emit "alert" (PJS (VObj
    [("id", VStr (pretty now));
     ("type", VStr "success");
     ("message", VStr "Successfully connected to backend server");
     ("timestamp", VStr (toISOString now));
     ("read", VBool false)])) ;;
  tell (PromiseResolved true).

(** The socket's ['connect_error'] handler. *)
Definition on_connect_error (error : Exn) : M unit :=
  clearConnectionTimeout ;;
  handleConnectionError error ;;
  tell (PromiseResolved false).

(** The callback of the 20 s connection timer. *)
Definition on_connection_timeout : M unit :=
  s ← get;
  match socket s with
  | Some h =>
      if negb (connected s) then
        tell (SocketDisconnect h) ;;
        handleConnectionError (JSError "Connection timeout") ;;
        tell (PromiseResolved false)
      else mret tt
  | None => mret tt
  end.

(** The socket's ['disconnect'] handler. *)
Definition on_disconnect (reason : JSValue) : M unit :=
  modify (set_connected false) ;;
  emit "connection" (PJS (VObj [("connected", VBool false)])) ;;
  when (strict_eq_str reason "io server disconnect")
       (handleConnectionError (JSError "Server disconnected")).

(** The socket's ['reconnect'] handler. *)
Definition on_reconnect (now : Z) : M unit :=
  modify (set_connected true) ;;
  modify (set_reconnectAttempts 0) ;;
  emit "connection" (PJS (VObj [("connected", VBool true)])) ;;
  emit "alert" (PJS (VObj
    [("id", VStr (pretty now));
     ("type", VStr "success");
     ("message", VStr "Reconnected to backend server");
     ("timestamp", VStr (toISOString now));
     ("read", VBool false)])).

(** The socket's ['reconnect_error'] handler. *)
Definition on_reconnect_error (error : Exn) : M unit :=
  handleConnectionError error.

(** [disconnect()]. *)
Definition disconnect : M unit :=
  modify (set_connected false) ;;
  modify (set_reconnectAttempts 0) ;;
  clearConnectionTimeout ;;
  s ← get;
  match socket s with
  | Some h => tell (SocketDisconnect h) ;; modify (set_socket None)
  | None => mret tt
  end ;;
  emit "connection" (PJS (VObj [("connected", VBool false)])).

(** [isConnected()]; [transport_connected] is the socket's own [connected] flag. *)
Definition isConnected (transport_connected : bool) (s : Service) : bool :=
  connected s && bool_decide (is_Some (socket s)) && transport_connected.

(** *** The handlers of [setupSocketListeners] *)

(** [v.k]: a TypeError when [v] is [null] or [undefined]. *)
Definition read (v : JSValue) (k : string) : M JSValue :=
  if nullish v then
    throw (JSError ("Cannot read properties of undefined (reading '" +:+ k +:+ "')"))
  else mret (getProp v k).

(** The ['initData'] handler. *)
Definition on_initData (now : Z) (data : JSValue) : M unit :=
  sensorData ← read data "sensorData";
  when (ToBoolean sensorData)
    (forEach (Object_keys sensorData) (fun deviceId =>
       let deviceData := getProp sensorData deviceId in
       when (ToBoolean deviceData)
         (s ← get;
          reading ← lift (validateSensorData deviceData (VStr deviceId) (plantType s)
                            (toISOString now));
          modify (fun s => set_currentSensorData (<[deviceId := reading]> (currentSensorData s)) s))) ;;
     emitCurrentPlantData now) ;;
  let reservoirLevels := getProp data "reservoirLevels" in
  when (ToBoolean reservoirLevels)
    (modify (set_currentReservoirLevels reservoirLevels) ;;
     emit "reservoir" (PJS reservoirLevels)) ;;
  let deviceStates := getProp data "deviceStates" in
  when (ToBoolean deviceStates)
    (forEach (Object_keys deviceStates) (fun deviceId =>
       let deviceState := getProp deviceStates deviceId in
       when (ToBoolean deviceState)
         (when (String.eqb deviceId "esp32_1")
            (modify (set_wateringActive (ToBoolean (getProp deviceState "waterPump")))) ;;
          s ← get;
          let currentDeviceId :=
            match plantType s with level1 => "esp32_1" | level2 => "esp32_2" end in
          when (String.eqb deviceId currentDeviceId)
            (modify (set_lightActive (ToBoolean (getProp deviceState "light"))))))).

(** The key under which the ['dataUpdate'] handler files a reading:
    [update.plantType || (update.deviceId === 'esp32_1' ? 'level1' : 'level2')],
    as a property name; [None] when the value has no primitive value. *)
Definition plant_key (update : JSValue) : option string :=
  ToString (js_or (getProp update "plantType")
              (if strict_eq_str (getProp update "deviceId") "esp32_1"
               then VStr "level1" else VStr "level2")).

(** The ['dataUpdate'] handler. The device and the plant are used as
    property names, which converts them. [this.historicalData[plantType]]
    finds the buffer of the key, or, for a key that names a member of
    [Object.prototype], that member: it is truthy, so no buffer is made, and
    it has no [push], so the call of [push] is a TypeError. *)
Definition on_dataUpdate (now : Z) (update : JSValue) : M unit :=
  deviceId ← read update "deviceId";
  let data := getProp update "data" in
  when (ToBoolean deviceId && ToBoolean data)
    (s ← get;
     reading ← lift (validateSensorData data deviceId (plantType s) (toISOString now));
     device ← lift (converted (ToString deviceId));
     modify (fun s =>
       set_currentSensorData (<[device := reading]> (currentSensorData s)) s) ;;
     plantType ← lift (converted (plant_key update));
     modify (fun s =>
       match historicalData s !! plantType with
       | None =>
           if inherited plantType then s
           else set_historicalData (<[plantType := []]> (historicalData s)) s
       | Some _ => s
       end) ;;
     s ← get;
     match historicalData s !! plantType with
     | Some records =>
         modify (fun s =>
           set_historicalData (<[plantType := records ++ [reading]]> (historicalData s)) s)
     | None => throw (JSError "this.historicalData[plantType].push is not a function")
     end ;;
     modify (fun s =>
       let records := default [] (historicalData s !! plantType) in
       if Nat.ltb 100 (length records) then
         set_historicalData (<[plantType := slice_last 100 records]> (historicalData s)) s
       else s) ;;
     emitCurrentPlantData now).

(** The ['reservoirUpdate'] handler. *)
Definition on_reservoirUpdate (levels : JSValue) : M unit :=
  modify (set_currentReservoirLevels levels) ;;
  emit "reservoir" (PJS levels).

(** The ['controlResponse'] handler. The flags are declared boolean; the
    model keeps the truth value of what [response.active || false] stores. *)
Definition on_controlResponse (response : JSValue) : M unit :=
  action ← read response "action";
  (if strict_eq_str action "water" then
     modify (set_wateringActive (ToBoolean (js_or (getProp response "active") (VBool false))))
   else if strict_eq_str action "light" then
     modify (set_lightActive (ToBoolean (js_or (getProp response "active") (VBool false))))
   else mret tt) ;;
  if ToBoolean (getProp response "success") then emit "controlSuccess" (PJS response)
  else emit "controlError" (PJS response).

(** [mapCommandToAction(command)]: [commandMap[command] || command]. The
    command is used as a property name, which converts it; the read finds
    an entry of the map, a member of [Object.prototype] (truthy), or
    nothing. *)
Definition mapCommandToAction (command : JSValue) : Completion Action :=
  let commandMap : list (string * JSValue) :=
    [("water_pump", VStr "water"); ("light_on", VStr "light"); ("light_off", VStr "light");
     ("add_nutrients", VStr "nutrients"); ("fert_pump", VStr "nutrients"); ("led", VStr "light")] in
  key ← converted (ToString command);
  mret (if hasOwn key commandMap then ActionValue (js_or (assoc key commandMap) command)
        else if inherited key then InheritedMember key
        else ActionValue command).

(** The ['commandIssued'] handler. The template literal of the message
    converts the command to a string. *)
Definition on_commandIssued (now : Z) (command : JSValue) : M unit :=
  name ← read command "command";
  (if strict_eq_str name "water_pump" then
     modify (set_wateringActive (ToBoolean (getProp command "value")))
   else if strict_eq_str name "light_on" || strict_eq_str name "light_off" then
     modify (set_lightActive (strict_eq_str name "light_on"))
   else mret tt) ;;
  action ← lift (mapCommandToAction name);
  text ← lift (converted (ToString name));
  emit "controlSuccess"
    (PCommand action true (text +:+ " command executed successfully") (toISOString now)).

(** The ['commandTimeout'] handler. *)
Definition on_commandTimeout (now : Z) (command : JSValue) : M unit :=
  name ← read command "command";
  action ← lift (mapCommandToAction name);
  text ← lift (converted (ToString name));
  emit "controlError"
    (PCommand action false (text +:+ " command timed out") (toISOString now)).

(** *** The public methods *)

(** [setActivePlant(type)]. *)
Definition setActivePlant (now : Z) (type : PlantType) : M unit :=
  modify (set_plantType type) ;;
  s ← get;
  when (bool_decide (is_Some (socket s)) && connected s)
       (tell (SocketEmit "setPlantType" (VObj [("plantType", VStr (PlantType_str type))]))) ;;
  emitCurrentPlantData now.

(** What the caller of [sendCommand] holds when the call first yields: the
    answer, or a promise waiting for the HTTP response. *)
Inductive SendResult : Type :=
| Answered (value : bool)
| Awaiting.

(** How the [fetch] of [sendCommand] ends: the request fails, or a response
    arrives with its [ok] flag and what [response.json()] gives. *)
Inductive FetchOutcome : Type :=
| FetchRejects (error : Exn)
| Responds (ok : bool) (json : Completion JSValue).

(** [sendCommand(action)] up to its first [await]. *)
Definition sendCommand (action : ControlAction) : M SendResult :=
  s ← get;
  if negb (connected s) || negb (bool_decide (is_Some (socket s))) then
    emit "controlError" (PJS (VObj
      [("action", VStr (ControlAction_str action));
       ("success", VBool false);
       ("message", VStr "Not connected to backend. Please check your connection.")])) ;;
    mret (Answered false)
  else
    let deviceId := match plantType s with level1 => "esp32_1" | level2 => "esp32_2" end in
    tell (Fetch (backendUrl s +:+ "/send-command")
            (VObj [("deviceId", VStr deviceId);
                   ("command", VStr (ControlAction_str action));
                   ("value", VNum 1);
                   ("duration", VNum 3000);
                   ("plantType", VStr (PlantType_str (plantType s)))])) ;;
    mret Awaiting.

(** The rest of [sendCommand(action)], run when the [fetch] has ended. *)
Definition sendCommand_settled (action : ControlAction) (outcome : FetchOutcome) : M bool :=
  try_catch
    (match outcome with
     | FetchRejects error => throw error
     | Responds ok json =>
         body ← lift json;
         if ok then
           match action with
           | water => modify (fun s => set_wateringActive (negb (wateringActive s)) s)
           | light => modify (fun s => set_lightActive (negb (lightActive s)) s)
           | nutrients => mret tt
           end ;;
           mret true
         else
           message ← read body "message";
           emit "controlError" (PJS (VObj
             [("action", VStr (ControlAction_str action));
              ("success", VBool false);
              ("message", js_or message
                            (VStr ("Failed to send command: " +:+ JSON_stringify body)))])) ;;
           mret false
     end)
    (fun error =>
       emit "controlError" (PJS (VObj
         [("action", VStr (ControlAction_str action));
          ("success", VBool false);
          ("message", VStr ("Failed to send command: " +:+ errorMessage error))])) ;;
       mret false).

Definition getReservoirLevels (s : Service) : JSValue := currentReservoirLevels s.

(** [getHistoricalData()]: [this.historicalData[this.plantType] || []]. *)
Definition getHistoricalData (s : Service) : list SensorData :=
  default [] (historicalData s !! PlantType_str (plantType s)).

Definition isWateringActive (s : Service) : bool := wateringActive s.

Definition isLightActive (s : Service) : bool := lightActive s.

(** *** The event loop

    One turn of the loop runs one of: a call of a public method by the
    application, a handler of a socket event, the callback of a timer, or
    the continuation of [sendCommand] after its [fetch]. [now] is the clock
    reading of the turn. *)
Inductive Turn : Type :=
| CallConnect (io : IoOutcome)
| CallDisconnect
| CallSetActivePlant (type : PlantType)
| CallSendCommand (action : ControlAction)
| CallOn (event : string) (callback : Callback)
| CallOff (event : string) (callback : Callback)
| FetchEnds (action : ControlAction) (outcome : FetchOutcome)
| SocketConnect
| SocketConnectError (error : Exn)
| SocketDisconnects (reason : JSValue)
| SocketReconnect
| SocketReconnectError (error : Exn)
| SocketInitData (data : JSValue)
| SocketDataUpdate (update : JSValue)
| SocketReservoirUpdate (levels : JSValue)
| SocketControlResponse (response : JSValue)
| SocketCommandIssued (command : JSValue)
| SocketCommandTimeout (command : JSValue)
| WatchdogFires
| RetryFires (io : IoOutcome).

Definition turn (now : Z) (t : Turn) : M unit :=
  match t with
  | CallConnect io => connect io ;; mret tt
  | CallDisconnect => disconnect
  | CallSetActivePlant type => setActivePlant now type
  | CallSendCommand action => sendCommand action ;; mret tt
  | CallOn event callback => on event callback
  | CallOff event callback => off event callback
  | FetchEnds action outcome => sendCommand_settled action outcome ;; mret tt
  | SocketConnect => on_connect now
  | SocketConnectError error => on_connect_error error
  | SocketDisconnects reason => on_disconnect reason
  | SocketReconnect => on_reconnect now
  | SocketReconnectError error => on_reconnect_error error
  | SocketInitData data => on_initData now data
  | SocketDataUpdate update => on_dataUpdate now update
  | SocketReservoirUpdate levels => on_reservoirUpdate levels
  | SocketControlResponse response => on_controlResponse response
  | SocketCommandIssued command => on_commandIssued now command
  | SocketCommandTimeout command => on_commandTimeout now command
  | WatchdogFires => on_connection_timeout
  | RetryFires io => connect io ;; mret tt
  end.

(** A run of the loop: the turns in order. An exception that escapes a turn
    ends that turn only; the state it left is where the next turn starts. *)
Fixpoint run (turns : list (Z * Turn)) (s : Service) : Service * list Effect :=
  match turns with
  | [] => (s, [])
  | (now, t) :: rest =>
      let '(_, s1, t1) := turn now t s in
      let '(s2, t2) := run rest s1 in
      (s2, t1 ++ t2)
  end.

(** *** Failed connection attempts

    How an attempt to connect fails: the socket reports ['connect_error'],
    the 20 s timer fires before any answer, or [io] itself throws. *)
Inductive Failure : Type :=
| ConnectError (error : Exn)
| WatchdogTimeout
| IoError (error : Exn).

(** The turns of one failed attempt. The first attempt is a call of
    [connect()] by the application, a later one the callback of the retry
    timer. *)
Definition failed_attempt (first : bool) (f : Failure) : list Turn :=
  let start io := if first then CallConnect io else RetryFires io in
  match f with
  | ConnectError error => [start IoReturns; SocketConnectError error]
  | WatchdogTimeout => [start IoReturns; WatchdogFires]
  | IoError error => [start (IoThrows error)]
  end.

(** The turns of a run of consecutive failed attempts. *)
Fixpoint attempts_from (first : bool) (fs : list Failure) : list Turn :=
  match fs with
  | [] => []
  | f :: rest => failed_attempt first f ++ attempts_from false rest
  end.

Definition failed_attempts (fs : list Failure) : list Turn := attempts_from true fs.

End Methods.

(** The configuration of a service: what no method changes besides the
    subscriptions. *)
Definition same_config (s s' : Service) : Prop :=
  listeners s' = listeners s /\
  maxReconnectAttempts s' = maxReconnectAttempts s /\
  retryDelay s' = retryDelay s /\
  backendUrl s' = backendUrl s.

(** The default configuration of the class. *)
Definition default_config (s : Service) : Prop :=
  maxReconnectAttempts s = 5 /\ retryDelay s = 5000%float.

(** What a failure does to the counter [n] it finds: it schedules the retry
    of attempt [n + 1], or, when the attempts are used up, publishes
    ['error']. Either way ['connection'] is published first. *)
Definition retry_of (s : Service) : list float :=
  if (S (reconnectAttempts s) <? maxReconnectAttempts s)%nat
  then [backoffDelay (retryDelay s) (S (reconnectAttempts s))] else [].

Definition events_of (s : Service) : list string :=
  "connection" :: (if (S (reconnectAttempts s) <? maxReconnectAttempts s)%nat
                   then [] else ["error"]).

(** The three parts of what a method gives. *)
Definition completion {A : Type} (o : Completion A * Service * list Effect) : Completion A :=
  fst (fst o).

Definition final {A : Type} (o : Completion A * Service * list Effect) : Service :=
  snd (fst o).

Definition trace {A : Type} (o : Completion A * Service * list Effect) : list Effect :=
  snd o.

(** A method keeps the invariant [I], also when it ends in an exception. *)
Definition preserves (I : Service -> Prop) {A : Type} (m : M A) : Prop :=
  forall s, I s -> I (final (m s)).




(** The three writes of the ['dataUpdate'] handler to the store, taken
    together: the buffer of the key becomes the last 100 of its readings and
    the new one; the other buffers stay. *)
Definition store_after (key : string) (reading : SensorData)
    (store : gmap string (list SensorData)) : gmap string (list SensorData) :=
  <[key := slice_last 100 (default [] (store !! key) ++ [reading])]> store.

(** No subscriber of the service throws. *)
Definition quiet (s : Service) : Prop :=
  forall event callbacks,
    listeners s !! event = Some callbacks ->
    Forall (fun c => forall data, cb_call c data = None) callbacks.

(** The calls [emit] makes to the subscribers [callbacks] of an event, all of
    them, in order. *)
Definition deliveries (event : string) (data : Payload) (callbacks : list Callback)
    : list Effect :=
  map (fun c => Delivered (cb_id c) event data) callbacks.

(** The subscribers of an event, in registration order. *)
Definition subscribers (s : Service) (event : string) : list Callback :=
  default [] (listeners s !! event).

(** The delays of the retries a trace schedules, in order. *)
Definition scheduled_retries (trace : list Effect) : list float :=
  omap (fun e => match e with SetTimeout _ RetryConnect delay => Some delay | _ => None end)
       trace.

(** The events a trace publishes, in order. *)
Definition published (trace : list Effect) : list string :=
  omap (fun e => match e with Published event _ => Some event | _ => None end) trace.

(** The HTTP requests of a trace. *)
Definition requests (trace : list Effect) : list (string * JSValue) :=
  omap (fun e => match e with Fetch url body => Some (url, body) | _ => None end) trace.

(** The sockets a trace opens. *)
Definition sockets_opened (trace : list Effect) : list nat :=
  omap (fun e => match e with SocketOpened h _ => Some h | _ => None end) trace.

(** The subscribers a trace calls, in order. *)
Definition delivered (trace : list Effect) : list nat :=
  omap (fun e => match e with Delivered cb _ _ => Some cb | _ => None end) trace.

(** Modelled from the spec: the class has no field for the spec's
    [ConnectionState]; it is read off the fields. [Failed] is a disconnected
    service whose attempts are used up, the state in which
    [handleConnectionError] schedules no retry. *)
Inductive ConnectionState : Type :=
| Disconnected | Connecting | Connected | Reconnecting | Failed.

Definition connectionState (s : Service) : ConnectionState :=
  if connected s then Connected
  else if Nat.leb (maxReconnectAttempts s) (reconnectAttempts s) then Failed
  else if Nat.ltb 0 (reconnectAttempts s) then Reconnecting
  else if bool_decide (is_Some (connectionTimeout s)) then Connecting
  else Disconnected.

(** The events a trace publishes, each with its payload. *)
Definition publications (trace : list Effect) : list (string * Payload) :=
  omap (fun e => match e with Published event data => Some (event, data) | _ => None end)
       trace.

(** The timers a trace clears. *)
Definition cleared (trace : list Effect) : list nat :=
  omap (fun e => match e with ClearTimeout id => Some id | _ => None end) trace.

(** What a trace sends on the socket. *)
Definition sent (trace : list Effect) : list (string * JSValue) :=
  omap (fun e => match e with SocketEmit event data => Some (event, data) | _ => None end)
       trace.

(** The sockets a trace disconnects. *)
Definition disconnected (trace : list Effect) : list nat :=
  omap (fun e => match e with SocketDisconnect h => Some h | _ => None end) trace.

(** The device that serves a plant:
    [plantType === 'level1' ? 'esp32_1' : 'esp32_2']. *)
Definition device_of (plant : PlantType) : string :=
  match plant with level1 => "esp32_1" | level2 => "esp32_2" end.

(** The command went through: a response came, it was [ok] and its body
    was read. *)
Definition succeeded (outcome : FetchOutcome) : bool :=
  match outcome with Responds true (Normal _) => true | _ => false end.

(** The names under which the class calls [emit]. *)
Definition events : list string :=
  ["connection"; "error"; "alert"; "data"; "reservoir"; "controlSuccess"; "controlError"].

(** A method publishes events of [names] only. *)
Definition publishes_only (names : list string) {A : Type} (m : M A) : Prop :=
  forall s, Forall (fun event => In event names) (published (trace (m s))).

(** The fields no method assigns. *)
Definition config (s : Service) : nat * float * string :=
  (maxReconnectAttempts s, retryDelay s, backendUrl s).

(** The turns that are calls of [on] or [off]. *)
Definition subscribes (t : Turn) : bool :=
  match t with CallOn _ _ | CallOff _ _ => true | _ => false end.

End ArduinoService.

(** ** The historical chart ([HistoricalChart.tsx]) *)

Module HistoricalChart.

(** [{ timestamp: string; value: number }]; the timestamp is whatever the
    reading carried. *)
Module RawPoint.
Record t : Type := { timestamp : JSValue; value : float }.
End RawPoint.

(** The accumulator of a bucket. *)
Module Bucket.
Record t : Type := { sum : float; count : nat; timestamp : string }.
End Bucket.

Module AveragedDataPoint.
Record t : Type := { timestamp : string; value : float; count : nat }.
End AveragedDataPoint.

Inductive DataType : Type := moisture | temperature | nutrients.

(** [const intervalMs = 5 * 60 * 1000]. *)
Definition intervalMs : Z := (5 * 60 * 1000)%Z.

(** [Math.floor(time / intervalMs) * intervalMs]. A time value is an integer
    of magnitude at most 8.64e15, on which the floating-point quotient has
    the floor of the exact one. *)
Definition bucketKey (time : Z) : Z := ((time / intervalMs) * intervalMs)%Z.

(** A [Map<number, V>] with integer keys: its entries in insertion order. *)
Fixpoint Map_has {V : Type} (k : Z) (m : list (Z * V)) : bool :=
  match m with
  | [] => false
  | (k', _) :: rest => Z.eqb k k' || Map_has k rest
  end.

Fixpoint Map_set {V : Type} (k : Z) (v : V) (m : list (Z * V)) : list (Z * V) :=
  match m with
  | [] => [(k, v)]
  | (k', v') :: rest => if Z.eqb k k' then (k', v) :: rest else (k', v') :: Map_set k v rest
  end.

Fixpoint Map_get {V : Type} (k : Z) (m : list (Z * V)) : option V :=
  match m with
  | [] => None
  | (k', v') :: rest => if Z.eqb k k' then Some v' else Map_get k rest
  end.

Section Component.

(** [new Date(v).getTime()], [None] when it is [NaN], and
    [new Date(t).toISOString()]. *)
Variable Date_getTime : JSValue -> option Z.
Variable toISOString : Z -> string.

(** The body of [rawData.forEach(point => ...)]. *)
Definition add_point (buckets : list (Z * Bucket.t)) (point : RawPoint.t)
    : list (Z * Bucket.t) :=
  match Date_getTime (RawPoint.timestamp point) with
  | None => buckets
  | Some time =>
      let key := bucketKey time in
      let buckets :=
        if negb (Map_has key buckets) then
          Map_set key {| Bucket.sum := 0; Bucket.count := 0;
                         Bucket.timestamp := toISOString key |} buckets
        else buckets in
      match Map_get key buckets with
      | Some bucket =>
          Map_set key {| Bucket.sum := (Bucket.sum bucket + RawPoint.value point)%float;
                         Bucket.count := (Bucket.count bucket + 1)%nat;
                         Bucket.timestamp := Bucket.timestamp bucket |} buckets
      | None => buckets
      end
  end.

(** The point of a bucket. *)
Definition averaged (bucket : Bucket.t) : AveragedDataPoint.t :=
  {| AveragedDataPoint.timestamp := Bucket.timestamp bucket;
     AveragedDataPoint.value :=
       if Nat.ltb 0 (Bucket.count bucket)
       then (Bucket.sum bucket / of_nat (Bucket.count bucket))%float
       else 0%float;
     AveragedDataPoint.count := Bucket.count bucket |}.

(** The comparator of the sort, [a.time - b.time]: its sign when both
    timestamps parse, [None] for [NaN]. *)
Definition compareFn (a b : AveragedDataPoint.t) : option Z :=
  match Date_getTime (VStr (AveragedDataPoint.timestamp a)),
        Date_getTime (VStr (AveragedDataPoint.timestamp b)) with
  | Some ta, Some tb => Some (ta - tb)%Z
  | _, _ => None
  end.

(** [a] may stand before [b]: the comparator is not positive (the sort
    reads [NaN] as [0]). *)
Definition before (a b : AveragedDataPoint.t) : bool :=
  match compareFn a b with
  | Some d => (d <=? 0)%Z
  | None => true
  end.

(** [Array.prototype.sort(compareFn)] as a stable insertion sort: with a
    consistent comparator every stable sort gives this list. *)
Fixpoint insert (x : AveragedDataPoint.t) (l : list AveragedDataPoint.t)
    : list AveragedDataPoint.t :=
  match l with
  | [] => [x]
  | y :: rest => if before x y then x :: y :: rest else y :: insert x rest
  end.

Definition sort (l : list AveragedDataPoint.t) : list AveragedDataPoint.t :=
  fold_right insert [] l.

(** [averageDataPoints(rawData)]. *)
Definition averageDataPoints (rawData : list RawPoint.t) : list AveragedDataPoint.t :=
  match rawData with
  | [] => []
  | _ :: _ =>
      let buckets := fold_left add_point rawData [] in
      slice_last 60 (sort (map (fun entry => averaged (snd entry)) buckets))
  end.

(** *** Vocabulary of the aggregator's properties *)

(** The input points whose timestamp parses to an instant of the bucket
    that starts at [key], in input order. *)
Definition in_bucket (key : Z) (point : RawPoint.t) : bool :=
  match Date_getTime (RawPoint.timestamp point) with
  | Some time => Z.eqb (bucketKey time) key
  | None => false
  end.

Definition points_of (key : Z) (rawData : list RawPoint.t) : list RawPoint.t :=
  List.filter (in_bucket key) rawData.

(** The sum of the values of points, added up from 0 in order, and their
    arithmetic mean, in the arithmetic of JavaScript numbers. *)
Definition total (points : list RawPoint.t) : float :=
  fold_left (fun acc point => (acc + RawPoint.value point)%float) points 0%float.

Definition mean (points : list RawPoint.t) : float :=
  (total points / of_nat (length points))%float.

(** The buckets after the loop over the input. *)
Definition buckets_of (rawData : list RawPoint.t) : list (Z * Bucket.t) :=
  fold_left add_point rawData [].

(** The accumulator of the bucket of [key] once [rawData] is read. *)
Definition bucket_of (key : Z) (rawData : list RawPoint.t) : Bucket.t :=
  {| Bucket.sum := total (points_of key rawData);
     Bucket.count := length (points_of key rawData);
     Bucket.timestamp := toISOString key |}.

(** The instant the sort reads off an output point. *)
Definition time_of (p : AveragedDataPoint.t) : option Z :=
  Date_getTime (VStr (AveragedDataPoint.timestamp p)).

(** [p] is the point of the bucket that starts at [key]: it carries the
    key as its timestamp, the number of input points of the bucket and the
    mean of their values. *)
Definition point_of_bucket (rawData : list RawPoint.t) (key : Z)
    (p : AveragedDataPoint.t) : Prop :=
  AveragedDataPoint.timestamp p = toISOString key /\
  time_of p = Some key /\
  bucketKey key = key /\
  AveragedDataPoint.count p = length (points_of key rawData) /\
  1 <= AveragedDataPoint.count p /\
  AveragedDataPoint.value p = mean (points_of key rawData).

(** The keys of the buckets that hold an input point. *)
Definition has_points (rawData : list RawPoint.t) (key : Z) : Prop :=
  exists point time,
    In point rawData /\ Date_getTime (RawPoint.timestamp point) = Some time /\
    bucketKey time = key.

(** The buckets in the words of the spec: an instant falls in the
    5-minute window that starts at [floor(epochMillis / 300000) * 300000],
    a multiple of 300000 ms, and the window holds the instants from its
    start up to 300000 ms later, the end excluded. *)
Definition window_start (epochMillis : Z) : Z := (epochMillis / 300000 * 300000)%Z.

Definition in_window (start : Z) (point : RawPoint.t) : bool :=
  match Date_getTime (RawPoint.timestamp point) with
  | Some time => (start <=? time)%Z && (time <? start + 300000)%Z
  | None => false
  end.

Definition window_points (start : Z) (rawData : list RawPoint.t) : list RawPoint.t :=
  List.filter (in_window start) rawData.

(** [p] is the point of the window that starts at [start]: it carries the
    start as its timestamp, the number of input points of the window and
    the mean of their values. *)
Definition point_of_window (rawData : list RawPoint.t) (start : Z)
    (p : AveragedDataPoint.t) : Prop :=
  AveragedDataPoint.timestamp p = toISOString start /\
  time_of p = Some start /\
  (start mod 300000 = 0)%Z /\
  AveragedDataPoint.count p = length (window_points start rawData) /\
  1 <= AveragedDataPoint.count p /\
  AveragedDataPoint.value p = mean (window_points start rawData).

(** Whether the timestamp of an input point parses. *)
Definition parses (point : RawPoint.t) : bool :=
  match Date_getTime (RawPoint.timestamp point) with Some _ => true | None => false end.

(** The value a reading contributes to the chart of [dataType]. *)
Definition chartValue (dataType : DataType) (item : SensorData) : float :=
  match dataType with
  | moisture => Types.moisture item
  | temperature => Types.temperature item
  | nutrients =>
      ((Types.nitrogen item + Types.phosphorus item + Types.potassium item) / 3)%float
  end.

(** *** The effect of the component: first load and debounced updates

    The component's state ([data], [error]), the variables of the effect's
    closure ([isMounted], [updateTimeout]) and the browser's timers: the
    clock, the timers set and neither fired nor cleared, and the source of
    timer handles. [recomputed] logs the runs of the timer's callback (when,
    and for which reading); it is the only field the code does not have. *)
Record Timer : Type := { id : nat; due : Z; newData : SensorData }.

Record Component : Type := {
  data : list AveragedDataPoint.t;
  error : option string;
  isMounted : bool;
  updateTimeout : option nat;
  clock : Z;
  pending : list Timer;
  nextTimer : nat;
  recomputed : list (Z * SensorData)
}.

Definition mounted (now : Z) : Component :=
  {| data := []; error := None; isMounted := true; updateTimeout := None;
     clock := now; pending := []; nextTimer := 1; recomputed := [] |}.

(** [clearTimeout(handle)]: a handle that is not pending is ignored. *)
Definition clearTimeout (handle : nat) (c : Component) : Component :=
  {| data := data c; error := error c; isMounted := isMounted c;
     updateTimeout := updateTimeout c; clock := clock c;
     pending := List.filter (fun tm => negb (Nat.eqb (id tm) handle)) (pending c);
     nextTimer := nextTimer c; recomputed := recomputed c |}.

(** [updateTimeout = setTimeout(callback, delay)], the callback closing over
    [reading]. *)
Definition setTimeout (reading : SensorData) (delay : Z) (c : Component) : Component :=
  {| data := data c; error := error c; isMounted := isMounted c;
     updateTimeout := Some (nextTimer c); clock := clock c;
     pending := pending c ++ [{| id := nextTimer c; due := (clock c + delay)%Z;
                                 newData := reading |}];
     nextTimer := S (nextTimer c); recomputed := recomputed c |}.

(** [handleDataUpdate(newData)]. *)
Definition handleDataUpdate (reading : SensorData) (c : Component) : Component :=
  let c :=
    match updateTimeout c with
    | Some handle => clearTimeout handle c
    | None => c
    end in
  setTimeout reading 30000 c.

(** [updatedRawData] of the timer's callback: the displayed points as raw
    points, and the new point of [reading]. *)
Definition updatedRawData (dataType : DataType) (displayed : list AveragedDataPoint.t)
    (reading : SensorData) : list RawPoint.t :=
  map (fun p => {| RawPoint.timestamp := VStr (AveragedDataPoint.timestamp p);
                   RawPoint.value := AveragedDataPoint.value p |}) displayed
  ++ [{| RawPoint.timestamp := Types.timestamp reading;
         RawPoint.value := chartValue dataType reading |}].

(** The callback of the timer: the recomputation. *)
Definition recompute (dataType : DataType) (tm : Timer) (c : Component) : Component :=
  {| data := averageDataPoints (updatedRawData dataType (data c) (newData tm));
     error := error c; isMounted := isMounted c; updateTimeout := updateTimeout c;
     clock := due tm; pending := pending c; nextTimer := nextTimer c;
     recomputed := recomputed c ++ [(due tm, newData tm)] |}.

(** The timers in the order they fire: by due time, and in the order they
    were set when due together. *)
Fixpoint insert_timer (tm : Timer) (l : list Timer) : list Timer :=
  match l with
  | [] => [tm]
  | y :: rest => if (due tm <=? due y)%Z then tm :: y :: rest else y :: insert_timer tm rest
  end.

(** Time passes until [now]: the timers due by then fire in order. (A
    callback of this component sets no timer.) *)
Definition advance (dataType : DataType) (now : Z) (c : Component) : Component :=
  let ready := List.filter (fun tm => (due tm <=? now)%Z) (pending c) in
  let later := List.filter (fun tm => negb (due tm <=? now)%Z) (pending c) in
  let c :=
    fold_left (fun c tm => recompute dataType tm c) (fold_right insert_timer [] ready)
      {| data := data c; error := error c; isMounted := isMounted c;
         updateTimeout := updateTimeout c; clock := clock c; pending := later;
         nextTimer := nextTimer c; recomputed := recomputed c |} in
  {| data := data c; error := error c; isMounted := isMounted c;
     updateTimeout := updateTimeout c; clock := Z.max now (clock c);
     pending := pending c; nextTimer := nextTimer c; recomputed := recomputed c |}.

(** The ['data'] events of a stretch of time, each with its instant: before
    an event is handled, the timers due by then have fired. *)
Fixpoint deliver (dataType : DataType) (events : list (Z * SensorData)) (c : Component)
    : Component :=
  match events with
  | [] => c
  | (now, reading) :: rest =>
      deliver dataType rest (handleDataUpdate reading (advance dataType now c))
  end.

(** A burst of ['data'] events after the instant [previous]: the instants
    do not go back, and each event comes less than 30 s after the one
    before it. *)
Fixpoint burst_after (previous : Z) (events : list (Z * SensorData)) : Prop :=
  match events with
  | [] => True
  | (now, _) :: rest => (previous <= now < previous + 30000)%Z /\ burst_after now rest
  end.

(** A burst that starts no earlier than [start]. *)
Definition burst (start : Z) (events : list (Z * SensorData)) : Prop :=
  match events with
  | [] => False
  | (now, _) :: rest => (start <= now)%Z /\ burst_after now rest
  end.

(** The one timer of the event [(now, reading)] is pending, and
    [updateTimeout] names it. *)
Definition armed (now : Z) (reading : SensorData) (c : Component) : Prop :=
  exists handle,
    pending c = [{| id := handle; due := (now + 30000)%Z; newData := reading |}] /\
    updateTimeout c = Some handle /\
    clock c = now.

(** What a step leaves of the component besides its timers. *)
Definition unchanged (c c' : Component) : Prop :=
  recomputed c' = recomputed c /\ data c' = data c.

(** [fetchHistoricalData()], from the point where the service has answered
    with [historicalData]. *)
Definition fetchHistoricalData (dataType : DataType) (historicalData : list SensorData)
    (c : Component) : Component :=
  if negb (isMounted c) then c
  else
    match historicalData with
    | [] =>
        {| data := []; error := Some "No data available from the server";
           isMounted := isMounted c; updateTimeout := updateTimeout c; clock := clock c;
           pending := pending c; nextTimer := nextTimer c; recomputed := recomputed c |}
    | _ :: _ =>
        let processedData :=
          map (fun item => {| RawPoint.timestamp := Types.timestamp item;
                              RawPoint.value := chartValue dataType item |}) historicalData in
        {| data := averageDataPoints processedData; error := None;
           isMounted := isMounted c; updateTimeout := updateTimeout c; clock := clock c;
           pending := pending c; nextTimer := nextTimer c; recomputed := recomputed c |}
    end.

(** The cleanup of the effect. *)
Definition cleanup (c : Component) : Component :=
  let c :=
    {| data := data c; error := error c; isMounted := false;
       updateTimeout := updateTimeout c; clock := clock c; pending := pending c;
       nextTimer := nextTimer c; recomputed := recomputed c |} in
  match updateTimeout c with
  | Some handle => clearTimeout handle c
  | None => c
  end.

(** *** The life of the component *)

(** The instants of a run of ['data'] events do not go back. *)
Fixpoint in_order (previous : Z) (events : list (Z * SensorData)) : Prop :=
  match events with
  | [] => True
  | (now, _) :: rest => (previous <= now)%Z /\ in_order now rest
  end.

(** The recomputations a run of ['data'] events leads to: one for each
    event that no other event follows within 30 s, at 30 s after it. *)
Fixpoint settled (events : list (Z * SensorData)) : list (Z * SensorData) :=
  match events with
  | [] => []
  | (now, reading) :: rest =>
      match rest with
      | [] => [((now + 30000)%Z, reading)]
      | (next, _) :: _ =>
          if (now + 30000 <=? next)%Z
          then ((now + 30000)%Z, reading) :: settled rest
          else settled rest
      end
  end.

(** The points on display after the recomputations [done], from the
    points [displayed] before them. *)
Definition shown (dataType : DataType) (displayed : list AveragedDataPoint.t)
    (done : list (Z * SensorData)) : list AveragedDataPoint.t :=
  fold_left
    (fun points recomputation =>
       averageDataPoints (updatedRawData dataType points (snd recomputation)))
    done displayed.

(** The timers of the component are one at most, the one [updateTimeout]
    names. *)
Definition tracked (c : Component) : Prop :=
  pending c = [] \/ exists tm, pending c = [tm] /\ updateTimeout c = Some (id tm).

(** What happens to a component: the service answers the first load, a
    ['data'] event arrives, time passes, or the effect is cleaned up. *)
Inductive Step : Type :=
| Fetched (historicalData : list SensorData)
| Data (now : Z) (reading : SensorData)
| Tick (now : Z)
| Unmount.

Definition step (dataType : DataType) (c : Component) (st : Step) : Component :=
  match st with
  | Fetched historicalData => fetchHistoricalData dataType historicalData c
  | Data now reading => handleDataUpdate reading (advance dataType now c)
  | Tick now => advance dataType now c
  | Unmount => cleanup c
  end.

End Component.

End HistoricalChart.

(** ** A reference [Date] for ISO-8601 instants

    The chart is stated over any [Date]; the examples run it on this one:
    [toISOString] of ECMAScript, and the parser of the strings it prints
    (the milliseconds may be left out). A value that is not such a string
    has no time here. *)

Module IsoDate.

Local Open Scope Z_scope.

(** Days since 1970-01-01 of a date of the proleptic Gregorian calendar, and
    back. *)
Definition days_from_civil (y m d : Z) : Z :=
  let y := if m <=? 2 then y - 1 else y in
  let era := y / 400 in
  let yoe := y - era * 400 in
  let doy := (153 * (if 2 <? m then m - 3 else m + 9) + 2) / 5 + d - 1 in
  let doe := yoe * 365 + yoe / 4 - yoe / 100 + doy in
  era * 146097 + doe - 719468.

Definition civil_from_days (z : Z) : Z * Z * Z :=
  let z := z + 719468 in
  let era := z / 146097 in
  let doe := z - era * 146097 in
  let yoe := (doe - doe / 1460 + doe / 36524 - doe / 146096) / 365 in
  let y := yoe + era * 400 in
  let doy := doe - (365 * yoe + yoe / 4 - yoe / 100) in
  let mp := (5 * doy + 2) / 153 in
  let d := doy - (153 * mp + 2) / 5 + 1 in
  let m := if mp <? 10 then mp + 3 else mp - 9 in
  (if m <=? 2 then y + 1 else y, m, d).

Definition msPerDay : Z := 86400000.

(** [n] in decimal, padded with zeros to [width] digits. *)
Definition pad (width : nat) (n : Z) : string :=
  let digits := pretty n in
  String.append (string_of_list_ascii (repeat "0"%char (width - String.length digits)))
                digits.

Definition toISOString (t : Z) : string :=
  let '(y, m, d) := civil_from_days (t / msPerDay) in
  let ms := t mod msPerDay in
  let year :=
    if (0 <=? y) && (y <=? 9999) then pad 4 y
    else String.append (if y <? 0 then "-" else "+") (pad 6 (Z.abs y)) in
  year +:+ "-" +:+ pad 2 m +:+ "-" +:+ pad 2 d
       +:+ "T" +:+ pad 2 (ms / 3600000) +:+ ":" +:+ pad 2 (ms / 60000 mod 60)
       +:+ ":" +:+ pad 2 (ms / 1000 mod 60) +:+ "." +:+ pad 3 (ms mod 1000) +:+ "Z".

Definition digit (c : ascii) : option Z :=
  let n := Z.of_nat (nat_of_ascii c) in
  if (48 <=? n) && (n <=? 57) then Some (n - 48) else None.

(** Reads [k] decimal digits. *)
Fixpoint number (k : nat) (acc : Z) (s : string) : option (Z * string) :=
  match k with
  | O => Some (acc, s)
  | S k' =>
      match s with
      | String c rest =>
          match digit c with
          | Some d => number k' (acc * 10 + d) rest
          | None => None
          end
      | EmptyString => None
      end
  end.

Definition expect (c : ascii) (s : string) : option string :=
  match s with
  | String c' rest => if Ascii.eqb c c' then Some rest else None
  | EmptyString => None
  end.

Definition year_of (s : string) : option (Z * string) :=
  match s with
  | String "+" rest => number 6 0 rest
  | String "-" rest => '(y, rest') ← number 6 0 rest; Some (- y, rest')
  | _ => number 4 0 s
  end.

Definition millis_of (s : string) : option (Z * string) :=
  match s with
  | String "." rest => number 3 0 rest
  | _ => Some (0, s)
  end.

Definition parse (s : string) : option Z :=
  '(y, s) ← year_of s;
  s ← expect "-" s;
  '(m, s) ← number 2 0 s;
  s ← expect "-" s;
  '(d, s) ← number 2 0 s;
  s ← expect "T" s;
  '(hh, s) ← number 2 0 s;
  s ← expect ":" s;
  '(mm, s) ← number 2 0 s;
  s ← expect ":" s;
  '(ss, s) ← number 2 0 s;
  '(ms, s) ← millis_of s;
  s ← expect "Z" s;
  let days := days_from_civil y m d in
  if String.eqb s ""
     && (1 <=? m) && (m <=? 12) && (1 <=? d)
     && (let '(y', m', d') := civil_from_days days in (y' =? y) && (m' =? m) && (d' =? d))
     && (hh <? 24) && (mm <? 60) && (ss <? 60)
  then Some (days * msPerDay + hh * 3600000 + mm * 60000 + ss * 1000 + ms)
  else None.

(** [new Date(v).getTime()] on the strings of the profile. *)
Definition Date_getTime (v : JSValue) : option Z :=
  match v with
  | VStr s => parse s
  | _ => None
  end.

End IsoDate.

(** ** Reference conversions for the examples

    The service is stated over any ToNumber, Number::toString and
    [JSON.stringify]; the examples run it on these. [StringToNumber] reads
    the empty string, decimal integer literals and [Infinity], and gives
    [NaN] for every other string; [NumberToString] prints a whole number as
    JavaScript does and any other finite number by its exact decimal
    expansion. *)

Module Reference.

Local Open Scope Z_scope.

Fixpoint decimal (acc : Z) (s : string) : option Z :=
  match s with
  | EmptyString => Some acc
  | String c rest =>
      match IsoDate.digit c with
      | Some d => decimal (acc * 10 + d) rest
      | None => None
      end
  end.

(** The float nearest to an integer: exact below [2^53], and built from two
    exactly converted halves above. *)
Definition of_Z (z : Z) : float :=
  let magnitude (n : Z) : float :=
    (PrimFloat.of_uint63 (Uint63.of_Z (n / 2 ^ 31)) * 2147483648
     + PrimFloat.of_uint63 (Uint63.of_Z (n mod 2 ^ 31)))%float in
  if z <? 0 then PrimFloat.opp (magnitude (Z.opp z)) else magnitude z.

Definition unsigned (s : string) : float :=
  match s with
  | EmptyString => PrimFloat.nan
  | _ =>
      if String.eqb s "Infinity" then PrimFloat.infinity
      else match decimal 0 s with
           | Some z => if z <? 2 ^ 62 then of_Z z else PrimFloat.nan
           | None => PrimFloat.nan
           end
  end.

Definition StringToNumber (s : string) : float :=
  match s with
  | EmptyString => 0%float
  | String "-" rest => PrimFloat.opp (unsigned rest)
  | String "+" rest => unsigned rest
  | _ => unsigned s
  end.

(** A finite float as [m * 2^e]; 2101 is the shift of [frshiftexp]. *)
Definition decompose (f : float) : Z * Z :=
  let '(fraction, exponent) := PrimFloat.frshiftexp (PrimFloat.abs f) in
  (Uint63.to_Z (PrimFloat.normfr_mantissa fraction),
   Uint63.to_Z exponent - 2101 - 53).

Fixpoint strip_zeros (fuel : nat) (digits : Z) (width : nat) : Z * nat :=
  match fuel with
  | O => (digits, width)
  | S fuel' =>
      if (digits mod 10 =? 0) && negb (Nat.eqb width 0)
      then strip_zeros fuel' (digits / 10) (Nat.pred width)
      else (digits, width)
  end.

Definition NumberToString (f : float) : string :=
  if PrimFloat.is_nan f then "NaN"
  else if PrimFloat.is_infinity f then
    (if PrimFloat.get_sign f then "-Infinity" else "Infinity")
  else if PrimFloat.is_zero f then "0"
  else
    let '(m, e) := decompose f in
    let sign := if PrimFloat.get_sign f then "-" else "" in
    if 0 <=? e then String.append sign (pretty (m * 2 ^ e))
    else
      let k := Z.to_nat (- e) in
      let whole := m / 2 ^ (- e) in
      let '(digits, width) := strip_zeros k ((m mod 2 ^ (- e)) * 5 ^ (- e)) k in
      if Nat.eqb width 0 then String.append sign (pretty whole)
      else String.append sign (pretty whole +:+ "." +:+ IsoDate.pad width digits).

(** [JSON.stringify] on payload values without characters that need an
    escape. A property whose value is [undefined] is left out; a number
    that is not finite prints as [null]. *)
Definition quote : string := String (ascii_of_nat 34) EmptyString.

Fixpoint JSON_stringify (v : JSValue) : string :=
  match v with
  | VUndefined => "undefined"
  | VNull => "null"
  | VBool true => "true"
  | VBool false => "false"
  | VNum n => if PrimFloat.is_finite n then NumberToString n else "null"
  | VStr s => quote +:+ s +:+ quote
  | VArr items =>
      "[" +:+
      (fix join (l : list JSValue) : string :=
         match l with
         | [] => ""
         | x :: rest =>
             String.append
               (match x with
                | VUndefined => "null"
                | _ => JSON_stringify x
                end)
               (match rest with
                | [] => ""
                | _ :: _ => String.append "," (join rest)
                end)
         end) items +:+ "]"
  | VObj fields =>
      "{" +:+
      (fix join (l : list (string * JSValue)) (first : bool) : string :=
         match l with
         | [] => ""
         | (k, VUndefined) :: rest => join rest first
         | (k, x) :: rest =>
             String.append
               ((if first then "" else ",") +:+ quote +:+ k +:+ quote +:+ ":"
                +:+ JSON_stringify x)
               (join rest false)
         end) fields true +:+ "}"
  end.

End Reference.

(** ** Sample data of the examples *)

Module Samples.

Import ArduinoService.

(** A reading of device esp32_1 taken at the freezing point in dry air. *)
Definition freezing : SensorData :=
  {| temperature := 0; humidity := 0; moisture := 35; sunlight := 800;
     nitrogen := 5; phosphorus := 2; potassium := 1;
     waterLevel := 70; fertilizerLevel := 40;
     timestamp := VStr "2024-01-01T00:00:10Z"; deviceId := VStr "esp32_1" |}.

(** A payload whose percentage-named levels are zero and whose legacy-named
    levels are not. *)
Definition empty_tanks : JSValue :=
  VObj [("waterLevelPercent", VNum 0); ("waterLevel", VNum 80);
        ("fertilizer_level", VNum 0); ("fertilizerLevel", VNum 55)].

(** Three subscribers of ['data']: the second one throws. *)
Definition quiet_subscriber (n : nat) : Callback :=
  {| cb_id := n; cb_call := fun _ => None |}.

Definition throwing_subscriber (n : nat) : Callback :=
  {| cb_id := n; cb_call := fun _ => Some (JSError "boom") |}.

Definition three_subscribers : Service :=
  final (on "data" (quiet_subscriber 3)
    (final (on "data" (throwing_subscriber 2)
      (final (on "data" (quiet_subscriber 1) (initial "http://backend")))))).

(** Five attempts to connect, each answered by ['connect_error'], driven
    through the methods: [connect()], the handler, and four times the retry
    and the handler. *)
Definition refused : Exn := JSError "xhr poll error".

Definition one_failure (s : Service) : Service :=
  final (on_connect_error refused (final (connect IoReturns s))).

Definition after_five_failures : Service :=
  one_failure (one_failure (one_failure (one_failure (one_failure
    (initial "http://backend"))))).

(** The same five attempts as turns of the event loop, one per second. *)
Definition five_failures : list (Z * Turn) :=
  [(0, CallConnect IoReturns); (1000, SocketConnectError refused);
   (6000, RetryFires IoReturns); (7000, SocketConnectError refused);
   (14500, RetryFires IoReturns); (15500, SocketConnectError refused);
   (26750, RetryFires IoReturns); (27750, SocketConnectError refused);
   (44625, RetryFires IoReturns); (45625, SocketConnectError refused)]%Z.

(** The two points of one bucket of the spec's scenario. *)
Definition two_points : list HistoricalChart.RawPoint.t :=
  [{| HistoricalChart.RawPoint.timestamp := VStr "2024-01-01T00:00:10Z";
      HistoricalChart.RawPoint.value := 10 |};
   {| HistoricalChart.RawPoint.timestamp := VStr "2024-01-01T00:01:00Z";
      HistoricalChart.RawPoint.value := 20 |}].

(** Three readings that reach the chart 1 s, 11 s and 26 s after it was
    mounted. *)
Definition warmer (degrees : float) (at_ : string) : SensorData :=
  {| temperature := degrees; humidity := 50; moisture := 35; sunlight := 800;
     nitrogen := 5; phosphorus := 2; potassium := 1;
     waterLevel := 70; fertilizerLevel := 40;
     timestamp := VStr at_; deviceId := VStr "esp32_1" |}.

Definition three_updates : list (Z * SensorData) :=
  [(1000, warmer 21 "2024-01-01T00:00:01Z");
   (11000, warmer 22 "2024-01-01T00:00:11Z");
   (26000, warmer 23 "2024-01-01T00:00:26Z")]%Z.

(** A service whose socket has connected. *)
Definition connected_service : Service :=
  final (on_connect IsoDate.toISOString 2000
           (final (connect IoReturns (initial "http://backend")))).

(** A first update of device esp32_1, and a message that is no update. *)
Definition first_update : JSValue :=
  VObj [("deviceId", VStr "esp32_1");
        ("data", VObj [("temperature", VNum 21); ("moisture_percent", VNum 40)])].

Definition heartbeat : JSValue := VObj [("status", VStr "ok")].

(** Two updates 10 s apart and a third one 49 s later. *)
Definition spaced_updates : list (Z * SensorData) :=
  [(1000, warmer 21 "2024-01-01T00:00:01Z");
   (11000, warmer 22 "2024-01-01T00:00:11Z");
   (60000, warmer 23 "2024-01-01T00:01:00Z")]%Z.

(** A history whose one timestamp is no date. *)
Definition undated : list SensorData := [warmer 21 "yesterday"].

(** A snapshot that carries esp32_1 only. *)
Definition snapshot : JSValue :=
  VObj [("sensorData", VObj [("esp32_1", VObj [("temperature", VNum 21)])]);
        ("reservoirLevels", VObj [("water", VNum 80); ("fertilizer", VNum 55)]);
        ("deviceStates",
         VObj [("esp32_1", VObj [("waterPump", VBool true); ("light", VBool false)])])].

(** A service whose second subscriber of ['connection'] throws. *)
Definition failing_connection_subscriber : Service :=
  final (on "connection" (throwing_subscriber 2)
    (final (on "connection" (quiet_subscriber 1) (initial "http://backend")))).

(** A service, never connected, whose subscriber of ['controlError']
    throws. *)
Definition failing_control_subscriber : Service :=
  final (on "controlError" (throwing_subscriber 1) (initial "http://backend")).



(** Payloads with a value that has no primitive value: an object with an
    own [toString]. *)
Definition unprintable : JSValue := VObj [("toString", VNum 1)].

Definition unprintable_update : JSValue :=
  VObj [("deviceId", VStr "esp32_1"); ("data", VObj [("temperature", unprintable)])].

(** An update filed under a name that every object inherits. *)
Definition constructor_update : JSValue :=
  VObj [("deviceId", VStr "esp32_1"); ("plantType", VStr "constructor");
        ("data", VObj [("temperature", VNum 21)])].

End Samples.

(* ===================================================================== *)
(** * Part II: the properties                                              *)
(* ===================================================================== *)

(** ** The data normalizer *)

Section NormalizerProperties.

Variable StringToNumber : string -> float.
Variable NumberToString : float -> string.

Local Abbreviation Number := (JS.Number StringToNumber NumberToString).
Local Abbreviation safeNumber := (Normalizer.safeNumber StringToNumber NumberToString).
Local Abbreviation validateSensorData :=
  (Normalizer.validateSensorData StringToNumber NumberToString).
Local Abbreviation unusable := (Normalizer.unusable StringToNumber NumberToString).
Local Abbreviation normalizes := (Normalizer.normalizes StringToNumber NumberToString).

(** What [safeNumber] makes of a source value: its normalization, or the
    TypeError of a value that has no primitive value. *)
Lemma safeNumber_cases (v : JSValue) (d : float) :
  isNaN d = false ->
  match safeNumber v d with
  | Normal x => normalizes v d x
  | Throw e => e = cannot_convert /\ Normalizer.convertible StringToNumber NumberToString v = false
  end.
Proof.
  intros Hd.
  unfold Normalizer.normalizes, Normalizer.safeNumber, Normalizer.unusable,
    Normalizer.convertible.
  destruct (is_null v), (is_undefined v), (strict_eq_str v "");
    cbn [orb mret mbind Completion_ret Completion_bind]; auto.
  destruct (Number v) as [num|];
    cbn [converted mret mbind Completion_ret Completion_bind]; [|auto].
  destruct (isNaN num) eqn:Hnan; auto.
Qed.

(** A number passes through [safeNumber] unchanged unless it is [NaN]. *)
Lemma safeNumber_number (n d : float) :
  isNaN n = false -> safeNumber (VNum n) d = Normal n.
Proof.
  intros Hn. unfold Normalizer.safeNumber.
  cbn [is_null is_undefined strict_eq_str orb JS.Number converted mret mbind
       Completion_ret Completion_bind]. now rewrite Hn.
Qed.

Lemma getProp_object (fields : list (string * JSValue)) (k : string) :
  getProp (VObj fields) k = assoc k fields.
Proof. reflexivity. Qed.

Lemma js_or_cases (a b : JSValue) : js_or a b = a \/ js_or a b = b.
Proof. unfold js_or. destruct (ToBoolean a); auto. Qed.

(** One conversion of the normalizer: either it throws, and the goal is
    the TypeError of a source value, or it gives the normalization of that
    value. *)
Ltac convert_next :=
  match goal with
  | |- context [Normalizer.safeNumber ?S ?N ?v ?d] =>
      let H := fresh "Hfield" in
      pose proof (safeNumber_cases v d eq_refl) as H;
      destruct (Normalizer.safeNumber S N v d) as [?x|?e];
      cbn [mbind mret Completion_bind Completion_ret];
      [| destruct H as [-> H]; split; [reflexivity|];
         first [ exists v; split; [cbn [In]; tauto | exact H]
               | match goal with
                 | Hin : In v [?a; ?b] |- _ =>
                     destruct Hin as [<-|[<-|[]]];
                     eexists; (split; [|exact H]); cbn [In]; tauto
                 end ] ]
  end.

(** What the normalizer makes of a payload that is neither [null] nor
    [undefined]: a reading whose numeric fields are normalizations of
    source values, or the TypeError of a source value that has no primitive
    value. *)
Lemma validateSensorData_outcome
    (data deviceId : JSValue) (plantType : PlantType) (now : string) :
  nullish data = false ->
  match validateSensorData data deviceId plantType now with
  | Normal r =>
      Forall (fun x => isNaN x = false) (Normalizer.numeric_fields r) /\
      normalizes (getProp data "temperature") 20 (temperature r) /\
      normalizes (getProp data "humidity") 50 (humidity r) /\
      (exists v, In v [getProp data "moisture_percent"; getProp data "soil_moisture_percent";
                       getProp data "moisture"] /\ normalizes v 0 (moisture r)) /\
      (sunlight r = 0%float \/
       exists v, In v [getProp data "lux"; getProp data "lightLevel"; getProp data "ldr"]
                 /\ normalizes v 0 (sunlight r)) /\
      (exists v, In v [getProp (getProp data "npk") "N"; getProp data "nitrogen"]
                 /\ normalizes v 0 (nitrogen r)) /\
      (exists v, In v [getProp (getProp data "npk") "P"; getProp data "phosphorus"]
                 /\ normalizes v 0 (phosphorus r)) /\
      (exists v, In v [getProp (getProp data "npk") "K"; getProp data "potassium"]
                 /\ normalizes v 0 (potassium r)) /\
      (exists v, In v [getProp data "waterLevelPercent"; getProp data "waterLevel"]
                 /\ normalizes v 0 (waterLevel r)) /\
      (exists v, In v [getProp data "fertilizer_level"; getProp data "fertilizerLevel"]
                 /\ normalizes v 0 (fertilizerLevel r))
  | Throw e =>
      e = cannot_convert /\
      exists v, In v (Normalizer.sources data) /\
                Normalizer.convertible StringToNumber NumberToString v = false
  end.
Proof.
  intros Hnull.
  unfold Normalizer.validateSensorData, Normalizer.sources. rewrite Hnull.
  generalize (getProp data "temperature") (getProp data "humidity")
    (getProp data "moisture_percent") (getProp data "soil_moisture_percent")
    (getProp data "moisture") (getProp data "lux") (getProp data "lightLevel")
    (getProp data "ldr") (getProp data "nitrogen") (getProp data "phosphorus")
    (getProp data "potassium") (getProp data "waterLevelPercent")
    (getProp data "waterLevel") (getProp data "fertilizer_level")
    (getProp data "fertilizerLevel") (getProp data "npk").
  intros temp hum mp smp m lux ll ldr n ph k wlp wl fl fl' npk.
  generalize (getProp npk "N") (getProp npk "P") (getProp npk "K"). intros nN nP nK.
  assert (Hw : In (js_or wlp wl) [wlp; wl])
    by (destruct (js_or_cases wlp wl) as [->| ->]; cbn [In]; auto).
  assert (Hf : In (js_or fl fl') [fl; fl'])
    by (destruct (js_or_cases fl fl') as [->| ->]; cbn [In]; auto).
  revert Hw Hf. generalize (js_or wlp wl) (js_or fl fl'). intros w f Hw Hf.
  destruct (ToBoolean npk); cbv zeta iota beta.
  all: destruct (is_undefined mp); cbn [negb]; [destruct (is_undefined smp); cbn [negb]|].
  all: destruct (is_undefined lux); cbn [negb];
    [destruct (is_undefined ll); cbn [negb];
     [destruct (is_undefined ldr); cbn [negb]|]|].
  all: cbn [mbind mret Completion_bind Completion_ret].
  all: repeat convert_next.
  all: cbn [temperature humidity moisture sunlight nitrogen phosphorus potassium
            waterLevel fertilizerLevel Normalizer.numeric_fields].
  all: (split;
        [repeat constructor;
         first [reflexivity
               | match goal with H : normalizes _ _ ?x |- isNaN ?x = false => exact (proj1 H) end]
        |]).
  all: (split; [assumption|]).
  all: (split; [assumption|]).
  all: (split; [eexists; split; [|eassumption]; cbn [In]; auto|]).
  all: (split; [first [left; reflexivity | right; eexists; split; [|eassumption]; cbn [In]; auto] |]).
  all: do 3 (split; [eexists; split; [|eassumption]; cbn [In]; auto|]).
  all: (split; eexists; (split; [eassumption|assumption])).
Qed.

(** What the normalizer has made something of converts. *)
Lemma normalizes_convertible (v : JSValue) (d x : float) :
  normalizes v d x -> Normalizer.convertible StringToNumber NumberToString v = true.
Proof.
  unfold Normalizer.normalizes, Normalizer.unusable, Normalizer.convertible.
  intros [_ H].
  destruct v as [| |[|]| | |items|fields]; try reflexivity;
    cbn [is_null is_undefined strict_eq_str orb] in H;
    match goal with
    | |- match ?n with _ => _ end = true => destruct n; [reflexivity|discriminate H]
    end.
Qed.

(** A value without a primitive value makes [safeNumber] throw. *)
Lemma safeNumber_unconvertible (v : JSValue) (d : float) :
  Normalizer.convertible StringToNumber NumberToString v = false ->
  safeNumber v d = Throw cannot_convert.
Proof.
  intros H. unfold Normalizer.convertible in H. unfold Normalizer.safeNumber.
  destruct v as [| |[|]| | |items|fields]; try discriminate H;
    cbn [is_null is_undefined strict_eq_str orb];
    match goal with
    | |- context [converted ?x] => destruct x; [discriminate H|reflexivity]
    end.
Qed.



(** The moisture family resolves by presence: a [moisture_percent] that is
    there wins, zero included. *)
Lemma validateSensorData_moisture_order
    (fields : list (string * JSValue)) (deviceId : JSValue) (plantType : PlantType)
    (now : string) (r : SensorData) :
  let data := VObj fields in
  validateSensorData data deviceId plantType now = Normal r ->
  safeNumber
    (if negb (is_undefined (getProp data "moisture_percent"))
     then getProp data "moisture_percent"
     else if negb (is_undefined (getProp data "soil_moisture_percent"))
          then getProp data "soil_moisture_percent"
          else getProp data "moisture") 0
  = Normal (moisture r).
Proof.
  intros data. unfold Normalizer.validateSensorData. change (nullish data) with false.
  cbv iota zeta.
  destruct (negb (is_undefined (getProp data "moisture_percent")));
    [|destruct (negb (is_undefined (getProp data "soil_moisture_percent")))].
  all: match goal with
       | |- context [safeNumber ?v 0 ≫= _] =>
           match goal with |- _ -> safeNumber ?w 0 = _ => constr_eq v w end;
           generalize (safeNumber v 0)
       end.
  all: intros chosen;
    repeat match goal with
           | |- context [match ?c with Normal _ => _ | Throw _ => _ end] => fail
           | |- context [if ?b then _ else _] => destruct b
           end.
  all: cbn [mbind mret Completion_bind Completion_ret].
  all: repeat match goal with
              | |- context [Normalizer.safeNumber ?S ?N ?v ?d] =>
                  destruct (Normalizer.safeNumber S N v d);
                  cbn [mbind mret Completion_bind Completion_ret]; try discriminate
              end.
  all: destruct chosen; cbn [mbind mret Completion_bind Completion_ret]; try discriminate.
  all: repeat match goal with
              | |- context [Normalizer.safeNumber ?S ?N ?v ?d] =>
                  destruct (Normalizer.safeNumber S N v d);
                  cbn [mbind mret Completion_bind Completion_ret]; try discriminate
              end.
  all: intros [= <-]; reflexivity.
Qed.

(** C7, the code at the failing input: with a percentage-named level of 0
    and a legacy-named level beside it, the reading carries the legacy
    value, for the water level and for the fertilizer level. *)
Theorem validateSensorData_zero_percent_level
    (now : string) :
  exists r : SensorData,
    validateSensorData Samples.empty_tanks (VStr "esp32_1") level1 now = Normal r /\
    waterLevel r = 80%float /\ fertilizerLevel r = 55%float.
Proof.
  eexists. split; [reflexivity|]. split; reflexivity.
Qed.

End NormalizerProperties.

(** ** The device data combiner *)

Section CombinerProperties.

Import ArduinoService.

(** A field that is there and truthy (not zero) is taken as it is. *)
Lemma field_or_truthy (r : SensorData) (field : SensorData -> float) (fallback : float) :
  ToBoolean (VNum (field r)) = true -> field_or (Some r) field fallback = field r.
Proof. intros H. unfold field_or. now rewrite H. Qed.

(** Without a reading the fallback stands in. *)
Lemma field_or_absent (field : SensorData -> float) (fallback : float) :
  field_or None field fallback = fallback.
Proof. reflexivity. Qed.

(** With the fallback 0, a field that is no [NaN] keeps its numeric value:
    only the sign of a zero can change. *)
Lemma field_or_zero (r : SensorData) (field : SensorData -> float) :
  isNaN (field r) = false ->
  PrimFloat.eqb (field r) (field_or (Some r) field 0) = true.
Proof.
  intros Hnan. unfold field_or. cbn [ToBoolean].
  rewrite Hnan, orb_false_r.
  destruct (PrimFloat.eqb (field r) 0) eqn:E; cbn [negb]; [exact E|].
  unfold isNaN, PrimFloat.is_nan in Hnan. now apply negb_false_iff in Hnan.
Qed.

(** C4, the code at the failing input: plant level1, a reading of esp32_1
    with temperature 0 and humidity 0, no reading of esp32_2. The combined
    reading carries temperature 20 and humidity 50, not the zeros of
    esp32_1; its fertilizer level is 0 and its other fields are those of
    esp32_1. *)
Theorem combinedData_zero_temperature (now : string) :
  combinedData (Some Samples.freezing) None level1 now =
  Some {| temperature := 20; humidity := 50; moisture := 35; sunlight := 800;
          nitrogen := 5; phosphorus := 2; potassium := 1;
          waterLevel := 70; fertilizerLevel := 0;
          timestamp := VStr now; deviceId := VStr "esp32_1" |}.
Proof. reflexivity. Qed.

End CombinerProperties.

(** ** The event hub *)

Section HubProperties.

Import ArduinoService.

Lemma bind_run {A B : Type} (m : M A) (k : A -> M B) (s : Service) :
  (m ≫= k) s =
  match m s with
  | (Normal a, s1, t1) => let '(r, s2, t2) := k a s1 in (r, s2, t1 ++ t2)
  | (Throw e, s1, t1) => (Throw e, s1, t1)
  end.
Proof. reflexivity. Qed.

Lemma call_each_returns (callbacks : list Callback) (event : string) (data : Payload)
    (s : Service) :
  Forall (fun c => cb_call c data = None) callbacks ->
  call_each callbacks event data s = (Normal tt, s, deliveries event data callbacks).
Proof.
  induction 1 as [|c rest Hc _ IH]; [reflexivity|].
  cbn [call_each]. rewrite bind_run. cbn [tell]. rewrite Hc, IH. reflexivity.
Qed.

Lemma call_each_throws (before after : list Callback) (c : Callback) (e : Exn)
    (event : string) (data : Payload) (s : Service) :
  Forall (fun c => cb_call c data = None) before ->
  cb_call c data = Some e ->
  call_each (before ++ c :: after) event data s =
  (Throw e, s, deliveries event data (before ++ [c])).
Proof.
  intros Hb Hc. induction Hb as [|b rest Hb _ IH]; cbn [app call_each].
  - rewrite bind_run. cbn [tell]. rewrite Hc. reflexivity.
  - rewrite bind_run. cbn [tell]. rewrite Hb, IH. reflexivity.
Qed.



(** [emit] is the call of the subscribers of the event, after the record
    of the call itself. *)
Lemma emit_run (event : string) (data : Payload) (s : Service) :
  emit event data s =
  let '(r, s', t) := call_each (subscribers s event) event data s in
  (r, s', Published event data :: t).
Proof.
  unfold emit, subscribers. rewrite bind_run. cbn [tell]. rewrite bind_run. cbn [get].
  destruct (listeners s !! event) as [callbacks|]; cbn [default from_option id];
  [destruct (call_each callbacks event data s) as [[r s'] t]|]; reflexivity.
Qed.

Lemma quiet_subscribers (s : Service) (event : string) (data : Payload) :
  quiet s -> Forall (fun c => cb_call c data = None) (subscribers s event).
Proof.
  intros Hq. unfold subscribers.
  destruct (listeners s !! event) as [callbacks|] eqn:E; cbn [default from_option id];
    [|constructor].
  pose proof (Hq _ _ E) as HF. rewrite Forall_forall in HF.
  apply Forall_forall. intros c Hc. apply HF, Hc.
Qed.

(** With subscribers that do not throw, [emit] returns, leaves the state as
    it is and has called every subscriber of the event. *)
Lemma emit_quiet (event : string) (data : Payload) (s : Service) :
  quiet s ->
  emit event data s =
  (Normal tt, s, Published event data :: deliveries event data (subscribers s event)).
Proof.
  intros Hq. rewrite emit_run.
  rewrite (call_each_returns _ _ _ _ (quiet_subscribers s event data Hq)). reflexivity.
Qed.

Lemma delivered_deliveries (event : string) (data : Payload) (callbacks : list Callback) :
  delivered (deliveries event data callbacks) = map cb_id callbacks.
Proof.
  induction callbacks as [|c rest IH]; [reflexivity|].
  change (cb_id c :: delivered (deliveries event data rest) = cb_id c :: map cb_id rest).
  now rewrite IH.
Qed.

Lemma published_deliveries (event : string) (data : Payload) (callbacks : list Callback) :
  published (deliveries event data callbacks) = [].
Proof. induction callbacks as [|c rest IH]; [reflexivity|]. exact IH. Qed.

Lemma scheduled_retries_deliveries (event : string) (data : Payload)
    (callbacks : list Callback) :
  scheduled_retries (deliveries event data callbacks) = [].
Proof. induction callbacks as [|c rest IH]; [reflexivity|]. exact IH. Qed.

Lemma sockets_opened_deliveries (event : string) (data : Payload)
    (callbacks : list Callback) :
  sockets_opened (deliveries event data callbacks) = [].
Proof. induction callbacks as [|c rest IH]; [reflexivity|]. exact IH. Qed.

Lemma requests_deliveries (event : string) (data : Payload) (callbacks : list Callback) :
  requests (deliveries event data callbacks) = [].
Proof. induction callbacks as [|c rest IH]; [reflexivity|]. exact IH. Qed.

Lemma omap_append {A B : Type} (f : A -> option B) (l1 l2 : list A) :
  omap f (l1 ++ l2) = omap f l1 ++ omap f l2.
Proof.
  induction l1 as [|x l IH]; [reflexivity|].
  cbn [app omap list_omap]. destruct (f x); cbn [app]; now rewrite <- IH.
Qed.

Lemma quiet_same (s s' : Service) : listeners s' = listeners s -> quiet s -> quiet s'.
Proof. unfold quiet. intros ->. auto. Qed.

Lemma same_config_trans (s1 s2 s3 : Service) :
  same_config s1 s2 -> same_config s2 s3 -> same_config s1 s3.
Proof. unfold same_config. intuition congruence. Qed.

Lemma published_Published (event : string) (data : Payload) (t : list Effect) :
  published (Published event data :: t) = event :: published t.
Proof. reflexivity. Qed.

Lemma delivered_Published (event : string) (data : Payload) (t : list Effect) :
  delivered (Published event data :: t) = delivered t.
Proof. reflexivity. Qed.

(** *** Subscribers that call back *)

Lemma forEach_nil {A : Type} (f : A -> M unit) (s : Service) :
  forEach [] f s = (Normal tt, s, []).
Proof. reflexivity. Qed.


(** Past the end of the array [forEach] finds nothing to call. *)
Lemma forEach_live_past_end (reentry : Callback -> Payload -> list HubCall)
    (event : string) (data : Payload) (s : Service) (remaining : nat) :
  forall k,
    length (subscribers s event) <= k ->
    forEach_live reentry remaining k event data s = (Normal tt, s, []).
Proof.
  induction remaining as [|n IH]; intros k Hk; [reflexivity|].
  cbn [forEach_live]. rewrite bind_run. cbn [get].
  fold (subscribers s event).
  rewrite (lookup_ge_None_2 (subscribers s event) k) by exact Hk.
  rewrite IH by lia. reflexivity.
Qed.

(** On subscribers that do not call back, the walk of the live array is
    the walk of the list. *)
Lemma forEach_live_no_reentry (reentry : Callback -> Payload -> list HubCall)
    (event : string) (data : Payload) (s : Service) (extra : nat) :
  forall rest done,
    subscribers s event = done ++ rest ->
    (forall c, In c rest -> reentry c data = []) ->
    forEach_live reentry (length rest + extra) (length done) event data s
    = call_each rest event data s.
Proof.
  induction rest as [|c rest IH]; intros done Hsub Hquiet.
  - cbn [length Nat.add call_each]. apply forEach_live_past_end.
    rewrite Hsub, app_nil_r. lia.
  - cbn [length Nat.add forEach_live call_each]. rewrite bind_run. cbn [get].
    fold (subscribers s event). rewrite Hsub, list_lookup_middle by reflexivity.
    rewrite (Hquiet c (or_introl eq_refl)).
    rewrite !bind_run. cbn [tell]. rewrite bind_run, forEach_nil.
    destruct (cb_call c data) as [e|]; [reflexivity|].
    specialize (IH (done ++ [c])). rewrite length_app, Nat.add_1_r in IH.
    rewrite IH; [destruct (call_each rest event data s) as [[r s2] t2]; reflexivity| |].
    + now rewrite <- app_assoc.
    + intros c' Hc'. apply Hquiet. now right.
Qed.

(** With subscribers that do not call back, [emit_live] is [emit]. *)
Lemma emit_live_no_reentry (reentry : Callback -> Payload -> list HubCall)
    (event : string) (data : Payload) (s : Service) :
  (forall c, In c (subscribers s event) -> reentry c data = []) ->
  emit_live reentry event data s = emit event data s.
Proof.
  intros Hquiet. unfold emit_live, emit. rewrite !bind_run. cbn [tell].
  rewrite !bind_run. cbn [get]. unfold subscribers in Hquiet.
  destruct (listeners s !! event) as [callbacks|] eqn:E; [|reflexivity].
  cbn [default from_option id] in Hquiet.
  pose proof (forEach_live_no_reentry reentry event data s 0 callbacks []) as H.
  rewrite Nat.add_0_r in H. cbn [length] in H. rewrite H; [reflexivity| |exact Hquiet].
  unfold subscribers. now rewrite E.
Qed.






End HubProperties.


(** ** The connection manager *)

(** Symbolic evaluation of a method on a state: the binds are run in order,
    [emit] by [emit_quiet]. *)
Ltac quiet_tac :=
  first [assumption | eapply quiet_same; [reflexivity | eassumption]].

Ltac fields :=
  cbn beta iota delta
    [ArduinoService.socket ArduinoService.reconnectAttempts
     ArduinoService.maxReconnectAttempts ArduinoService.listeners
     ArduinoService.connected ArduinoService.plantType ArduinoService.wateringActive
     ArduinoService.lightActive ArduinoService.backendUrl ArduinoService.retryDelay
     ArduinoService.currentSensorData ArduinoService.currentReservoirLevels
     ArduinoService.connectionTimeout ArduinoService.historicalData
     ArduinoService.nextHandle
     ArduinoService.set_socket ArduinoService.set_reconnectAttempts
     ArduinoService.set_listeners ArduinoService.set_connected
     ArduinoService.set_plantType ArduinoService.set_wateringActive
     ArduinoService.set_lightActive ArduinoService.set_currentSensorData
     ArduinoService.set_currentReservoirLevels ArduinoService.set_connectionTimeout
     ArduinoService.set_historicalData ArduinoService.set_nextHandle
     ArduinoService.completion ArduinoService.final ArduinoService.trace fst snd].

Ltac mstep :=
  first
    [ rewrite emit_quiet by quiet_tac
    | rewrite bind_run
    | progress unfold ArduinoService.fresh, ArduinoService.clearConnectionTimeout
    | progress cbn beta iota zeta delta
        [ArduinoService.modify ArduinoService.get ArduinoService.tell
         ArduinoService.throw mret ArduinoService.M_ret ArduinoService.when
         ArduinoService.lift app negb] ].

Ltac meval := repeat mstep; unfold ArduinoService.subscribers; fields.

(** The projections of a trace, pushed through its appends. *)
Ltac traces :=
  unfold ArduinoService.scheduled_retries, ArduinoService.published,
    ArduinoService.sockets_opened, ArduinoService.requests;
  repeat first [rewrite omap_append | progress cbn [omap list_omap app]];
  fold ArduinoService.scheduled_retries ArduinoService.published
    ArduinoService.sockets_opened ArduinoService.requests;
  rewrite ?scheduled_retries_deliveries, ?published_deliveries,
    ?sockets_opened_deliveries, ?requests_deliveries;
  cbn [app].

Section ConnectionProperties.

Import ArduinoService.

Variable StringToNumber : string -> float.
Variable NumberToString : float -> string.
Variable toISOString : Z -> string.
Variable JSON_stringify : JSValue -> string.

Local Abbreviation run :=
  (ArduinoService.run StringToNumber NumberToString toISOString JSON_stringify).
Local Abbreviation turn :=
  (ArduinoService.turn StringToNumber NumberToString toISOString JSON_stringify).

Lemma handleConnectionError_quiet (e : Exn) (s : Service) :
  quiet s ->
  exists s1 t1,
    handleConnectionError e s = (Normal tt, s1, t1) /\
    same_config s s1 /\
    socket s1 = socket s /\
    connected s1 = false /\
    reconnectAttempts s1 = S (reconnectAttempts s) /\
    scheduled_retries t1 = retry_of s /\
    published t1 = events_of s /\
    sockets_opened t1 = [].
Proof.
  intros Hq. unfold handleConnectionError, same_config, retry_of, events_of. meval.
  destruct (S (reconnectAttempts s) <? maxReconnectAttempts s)%nat eqn:E; meval;
    do 2 eexists; (split; [reflexivity|]); fields; traces; repeat split.
Qed.

(** Below the bound, [connect()] opens a socket, starts the watchdog and
    returns a pending promise. *)
Lemma connect_starts (s : Service) :
  (reconnectAttempts s < maxReconnectAttempts s)%nat ->
  exists s1 t1 h,
    connect IoReturns s = (Normal Pending, s1, t1) /\
    same_config s s1 /\
    socket s1 = Some h /\
    connected s1 = connected s /\
    reconnectAttempts s1 = reconnectAttempts s /\
    scheduled_retries t1 = [] /\
    published t1 = [] /\
    sockets_opened t1 = [h].
Proof.
  intros Hlt.
  assert (Hle : (maxReconnectAttempts s <=? reconnectAttempts s)%nat = false)
    by (apply Nat.leb_gt; exact Hlt).
  unfold connect, same_config. meval.
  destruct (connectionTimeout s); meval; rewrite Hle; meval;
    do 3 eexists; (split; [reflexivity|]); fields; traces; repeat split.
Qed.

Lemma connect_io_throws (e : Exn) (s : Service) :
  quiet s ->
  (reconnectAttempts s < maxReconnectAttempts s)%nat ->
  exists s1 t1,
    connect (IoThrows e) s = (Normal (Settled false), s1, t1) /\
    same_config s s1 /\
    connected s1 = false /\
    reconnectAttempts s1 = S (reconnectAttempts s) /\
    scheduled_retries t1 = retry_of s /\
    published t1 = events_of s /\
    sockets_opened t1 = [].
Proof.
  intros Hq Hlt.
  assert (Hle : (maxReconnectAttempts s <=? reconnectAttempts s)%nat = false)
    by (apply Nat.leb_gt; exact Hlt).
  unfold connect, handleConnectionError, same_config, retry_of, events_of. meval.
  destruct (connectionTimeout s); meval; rewrite Hle; meval;
  destruct (S (reconnectAttempts s) <? maxReconnectAttempts s)%nat eqn:E; meval;
    do 2 eexists; (split; [reflexivity|]); fields; traces; repeat split.
Qed.

Lemma on_connect_error_quiet (e : Exn) (s : Service) :
  quiet s ->
  exists s1 t1,
    on_connect_error e s = (Normal tt, s1, t1) /\
    same_config s s1 /\
    connected s1 = false /\
    reconnectAttempts s1 = S (reconnectAttempts s) /\
    scheduled_retries t1 = retry_of s /\
    published t1 = events_of s /\
    sockets_opened t1 = [].
Proof.
  intros Hq.
  unfold on_connect_error, handleConnectionError, same_config, retry_of, events_of. meval.
  destruct (connectionTimeout s); meval;
  destruct (S (reconnectAttempts s) <? maxReconnectAttempts s)%nat eqn:E; meval;
    do 2 eexists; (split; [reflexivity|]); fields; traces; repeat split.
Qed.

Lemma on_connection_timeout_quiet (h : nat) (s : Service) :
  quiet s ->
  socket s = Some h ->
  connected s = false ->
  exists s1 t1,
    on_connection_timeout s = (Normal tt, s1, t1) /\
    same_config s s1 /\
    connected s1 = false /\
    reconnectAttempts s1 = S (reconnectAttempts s) /\
    scheduled_retries t1 = retry_of s /\
    published t1 = events_of s /\
    sockets_opened t1 = [].
Proof.
  intros Hq Hs Hc.
  unfold on_connection_timeout, handleConnectionError, same_config, retry_of, events_of.
  meval. rewrite Hs, Hc. meval.
  destruct (S (reconnectAttempts s) <? maxReconnectAttempts s)%nat eqn:E; meval;
    do 2 eexists; (split; [reflexivity|]); fields; traces; repeat split.
Qed.

Lemma run_app (l1 l2 : list (Z * Turn)) (s : Service) :
  run (l1 ++ l2) s =
  let '(s1, t1) := run l1 s in
  let '(s2, t2) := run l2 s1 in
  (s2, t1 ++ t2).
Proof.
  revert s. induction l1 as [|[now t] l1 IH]; intros s; cbn [app ArduinoService.run].
  - destruct (run l2 s). reflexivity.
  - destruct (turn now t s) as [[c s1] t1]. rewrite IH.
    destruct (run l1 s1) as [s2 t2]. destruct (run l2 s2) as [s3 t3].
    now rewrite app_assoc.
Qed.

Lemma scheduled_retries_app (t1 t2 : list Effect) :
  scheduled_retries (t1 ++ t2) = scheduled_retries t1 ++ scheduled_retries t2.
Proof. apply omap_append. Qed.

Lemma published_app (t1 t2 : list Effect) :
  published (t1 ++ t2) = published t1 ++ published t2.
Proof. apply omap_append. Qed.

(** One failed attempt, whatever its kind, from a disconnected service
    below the bound. *)
Lemma run_failed_attempt (first : bool) (f : Failure) (turns : list (Z * Turn))
    (s : Service) :
  quiet s ->
  connected s = false ->
  (reconnectAttempts s < maxReconnectAttempts s)%nat ->
  map snd turns = failed_attempt first f ->
  exists s1 t1,
    run turns s = (s1, t1) /\
    same_config s s1 /\
    connected s1 = false /\
    reconnectAttempts s1 = S (reconnectAttempts s) /\
    scheduled_retries t1 = retry_of s /\
    published t1 = events_of s.
Proof.
  intros Hq Hc Hlt Hturns.
  assert (Hstart : forall now io,
            turn now (if first then CallConnect io else RetryFires io) s =
            (connect io ≫= fun _ => mret tt) s) by (intros; destruct first; reflexivity).
  destruct f as [e| |e]; cbn [failed_attempt] in Hturns.
  - destruct turns as [|[n1 x1] [|[n2 x2] [|? ?]]]; try discriminate Hturns.
    injection Hturns as -> ->.
    destruct (connect_starts s Hlt)
      as (s1 & t1 & h & E1 & C1 & Hs1 & Hc1 & Ha1 & R1 & P1 & O1).
    assert (Hq1 : quiet s1) by (eapply quiet_same; [apply C1|exact Hq]).
    destruct (on_connect_error_quiet e s1 Hq1)
      as (s2 & t2 & E2 & C2 & Hc2 & Ha2 & R2 & P2 & O2).
    cbn [ArduinoService.run]. rewrite Hstart, bind_run, E1.
    cbn [ArduinoService.turn mret M_ret]. rewrite E2.
    do 2 eexists. split; [reflexivity|].
    rewrite !app_nil_r, scheduled_retries_app, published_app, R1, R2, P1, P2.
    unfold retry_of, events_of. destruct C1 as (? & Hm & Hr & ?).
    rewrite Ha2, Ha1, Hm, Hr.
    split; [eapply same_config_trans; [|exact C2]; repeat split; assumption|].
    repeat split; auto.
  - destruct turns as [|[n1 x1] [|[n2 x2] [|? ?]]]; try discriminate Hturns.
    injection Hturns as -> ->.
    destruct (connect_starts s Hlt)
      as (s1 & t1 & h & E1 & C1 & Hs1 & Hc1 & Ha1 & R1 & P1 & O1).
    assert (Hq1 : quiet s1) by (eapply quiet_same; [apply C1|exact Hq]).
    rewrite Hc in Hc1.
    destruct (on_connection_timeout_quiet h s1 Hq1 Hs1 Hc1)
      as (s2 & t2 & E2 & C2 & Hc2 & Ha2 & R2 & P2 & O2).
    cbn [ArduinoService.run]. rewrite Hstart, bind_run, E1.
    cbn [ArduinoService.turn mret M_ret]. rewrite E2.
    do 2 eexists. split; [reflexivity|].
    rewrite !app_nil_r, scheduled_retries_app, published_app, R1, R2, P1, P2.
    unfold retry_of, events_of. destruct C1 as (? & Hm & Hr & ?).
    rewrite Ha2, Ha1, Hm, Hr.
    split; [eapply same_config_trans; [|exact C2]; repeat split; assumption|].
    repeat split; auto.
  - destruct turns as [|[n1 x1] [|? ?]]; try discriminate Hturns.
    injection Hturns as ->.
    destruct (connect_io_throws e s Hq Hlt)
      as (s1 & t1 & E1 & C1 & Hc1 & Ha1 & R1 & P1 & O1).
    cbn [ArduinoService.run]. rewrite Hstart, bind_run, E1.
    cbn [mret M_ret].
    do 2 eexists. split; [reflexivity|].
    rewrite !app_nil_r, R1, P1. split; [exact C1|]. repeat split; auto.
Qed.

Lemma map_snd_app_inv {A B : Type} (l : list (A * B)) (l1 l2 : list B) :
  map snd l = l1 ++ l2 ->
  exists k1 k2, l = k1 ++ k2 /\ map snd k1 = l1 /\ map snd k2 = l2.
Proof.
  revert l. induction l1 as [|x l1 IH]; intros l H.
  - exists [], l. auto.
  - destruct l as [|p l]; [discriminate H|]. cbn in H. injection H as Hx Hl.
    destruct (IH _ Hl) as (k1 & k2 & -> & H1 & H2).
    exists (p :: k1), k2. cbn. rewrite Hx, H1. auto.
Qed.

(** A run of failed attempts that stays within the bound: the counter
    counts them, each one below the bound schedules the retry computed from
    the counter, and the one that reaches the bound publishes ['error']. *)
Lemma run_attempts_from (fs : list Failure) :
  forall (first : bool) (turns : list (Z * Turn)) (s : Service),
    quiet s ->
    connected s = false ->
    (reconnectAttempts s + length fs <= maxReconnectAttempts s)%nat ->
    map snd turns = attempts_from first fs ->
    exists s1 t1,
      run turns s = (s1, t1) /\
      same_config s s1 /\
      connected s1 = false /\
      reconnectAttempts s1 = (reconnectAttempts s + length fs)%nat /\
      scheduled_retries t1 =
        map (backoffDelay (retryDelay s))
            (List.filter (fun n => (n <? maxReconnectAttempts s)%nat)
                         (seq (S (reconnectAttempts s)) (length fs))) /\
      published t1 =
        flat_map (fun n => "connection" ::
                           (if (n <? maxReconnectAttempts s)%nat then [] else ["error"]))
                 (seq (S (reconnectAttempts s)) (length fs)).
Proof.
  induction fs as [|f rest IH]; intros first turns s Hq Hc Hle Hturns.
  - destruct turns; [|discriminate Hturns].
    exists s, []. cbn [length seq List.filter map flat_map ArduinoService.run].
    rewrite Nat.add_0_r. repeat split; auto.
  - cbn [attempts_from] in Hturns. cbn [length] in Hle.
    destruct (map_snd_app_inv _ _ _ Hturns) as (k1 & k2 & -> & H1 & H2).
    assert (Hlt : (reconnectAttempts s < maxReconnectAttempts s)%nat) by lia.
    destruct (run_failed_attempt first f k1 s Hq Hc Hlt H1)
      as (s1 & t1 & E1 & C1 & Hc1 & Ha1 & R1 & P1).
    assert (Hq1 : quiet s1) by (eapply quiet_same; [apply C1|exact Hq]).
    destruct C1 as (Hl & Hm & Hr & Hu).
    assert (Hle1 : (reconnectAttempts s1 + length rest <= maxReconnectAttempts s1)%nat)
      by (rewrite Ha1, Hm; lia).
    destruct (IH false k2 s1 Hq1 Hc1 Hle1 H2)
      as (s2 & t2 & E2 & C2 & Hc2 & Ha2 & R2 & P2).
    rewrite run_app, E1, E2. do 2 eexists. split; [reflexivity|].
    split; [eapply same_config_trans; [|exact C2]; repeat split; assumption|].
    split; [exact Hc2|]. split; [rewrite Ha2, Ha1; cbn [length]; lia|].
    rewrite scheduled_retries_app, published_app, R1, R2, P1, P2, Ha1, Hm, Hr.
    unfold retry_of, events_of. cbn [length seq List.filter flat_map].
    destruct (S (reconnectAttempts s) <? maxReconnectAttempts s)%nat;
      cbn [map app]; split; reflexivity.
Qed.

(** C1, as amended. A run of 5 consecutive failed connect attempts under the
    default configuration, from a disconnected service whose counter is 0
    and whose subscribers do not throw, schedules exactly the four backoff
    delays [5000, 7500, 11250, 16875] ms: the delay after attempt [k] is
    [min(5000 * 1.5^(k-1), 20000)] for [k] from 1 to 4, so they do not
    decrease and stay under the cap. The fifth failure schedules nothing
    (the cap of 20000 ms, which the formula gives for [k = 5], is never
    used): it publishes ['error'] and leaves the service [Failed]. *)
Theorem five_failed_attempts
    (f1 f2 f3 f4 f5 : Failure) (turns : list (Z * Turn)) (s : Service) :
  quiet s ->
  default_config s ->
  connected s = false ->
  reconnectAttempts s = 0%nat ->
  map snd turns = failed_attempts [f1; f2; f3; f4; f5] ->
  let s' := fst (run turns s) in
  let t := snd (run turns s) in
  scheduled_retries t = [5000; 7500; 11250; 16875]%float /\
  scheduled_retries t = map (backoffDelay 5000) [1; 2; 3; 4]%nat /\
  backoffDelay 5000 5 = 20000%float /\
  published t =
    ["connection"; "connection"; "connection"; "connection"; "connection"; "error"] /\
  reconnectAttempts s' = 5%nat /\
  connectionState s' = Failed.
Proof.
  intros Hq [Hmax Hdelay] Hc Hn Hturns. cbv zeta.
  assert (Hle : (reconnectAttempts s + length [f1; f2; f3; f4; f5]
                 <= maxReconnectAttempts s)%nat) by (rewrite Hn, Hmax; cbn; lia).
  destruct (run_attempts_from _ true turns s Hq Hc Hle Hturns)
    as (s1 & t1 & E & C & Hc1 & Ha & R & P).
  rewrite E. cbn [fst snd]. rewrite Hn, Hmax, Hdelay in *.
  destruct C as (_ & Hm & _ & _). rewrite Hmax in Hm.
  split; [exact R|]. split; [exact R|]. split; [reflexivity|].
  split; [exact P|]. split; [exact Ha|].
  unfold connectionState. rewrite Hc1, Hm, Ha. reflexivity.
Qed.

(** At the bound, [connect()] gives up at once. *)
Lemma connect_refuses (io : IoOutcome) (s : Service) :
  quiet s ->
  (maxReconnectAttempts s <= reconnectAttempts s)%nat ->
  exists s1 t1,
    connect io s = (Normal (Settled false), s1, t1) /\
    same_config s s1 /\
    socket s1 = socket s /\
    connected s1 = connected s /\
    reconnectAttempts s1 = reconnectAttempts s /\
    scheduled_retries t1 = [] /\
    published t1 = ["error"] /\
    sockets_opened t1 = [].
Proof.
  intros Hq Hge.
  assert (Hle : (maxReconnectAttempts s <=? reconnectAttempts s)%nat = true)
    by (apply Nat.leb_le; exact Hge).
  unfold connect, same_config. meval.
  destruct (connectionTimeout s); meval; rewrite Hle; meval;
    do 2 eexists; (split; [reflexivity|]); fields; traces; repeat split.
Qed.

(** [disconnect()] resets the counter. *)
Lemma disconnect_quiet (s : Service) :
  quiet s ->
  exists s1 t1,
    disconnect s = (Normal tt, s1, t1) /\
    same_config s s1 /\
    socket s1 = None /\
    connected s1 = false /\
    reconnectAttempts s1 = 0%nat /\
    published t1 = ["connection"] /\
    sockets_opened t1 = [].
Proof.
  intros Hq. unfold disconnect, same_config. meval.
  destruct (connectionTimeout s); meval; destruct (socket s) eqn:Es; meval;
    do 2 eexists; (split; [reflexivity|]); fields; traces; repeat split; auto.
Qed.

(** C2, as amended. Once the attempts are used up, on a service whose
    subscribers do not throw, a call of [connect()] fails at once: it
    returns [false], publishes ['error'], opens no socket, schedules no
    retry and leaves the counter where it is, so the service stays
    [Failed]. The counter is reset by [disconnect()]; a [connect()] after
    it starts a fresh attempt, with a new socket and the counter at 0. *)
Theorem connect_after_exhaustion (io : IoOutcome) (s : Service) :
  quiet s ->
  connected s = false ->
  (0 < maxReconnectAttempts s <= reconnectAttempts s)%nat ->
  (completion (connect io s) = Normal (Settled false) /\
   published (trace (connect io s)) = ["error"] /\
   sockets_opened (trace (connect io s)) = [] /\
   scheduled_retries (trace (connect io s)) = [] /\
   reconnectAttempts (final (connect io s)) = reconnectAttempts s /\
   connectionState (final (connect io s)) = Failed) /\
  (let reset := final (disconnect s) in
   reconnectAttempts reset = 0%nat /\
   completion (connect IoReturns reset) = Normal Pending /\
   length (sockets_opened (trace (connect IoReturns reset))) = 1%nat /\
   reconnectAttempts (final (connect IoReturns reset)) = 0%nat).
Proof.
  intros Hq Hc [Hpos Hge]. split.
  - destruct (connect_refuses io s Hq Hge)
      as (s1 & t1 & E & C & Hs & Hc1 & Ha & R & P & O).
    rewrite E. unfold completion, trace, final. cbn [fst snd].
    repeat split; auto.
    unfold connectionState. destruct C as (_ & Hm & _ & _).
    rewrite Hc1, Hc, Hm, Ha. now apply Nat.leb_le in Hge as ->.
  - cbv zeta. destruct (disconnect_quiet s Hq) as (s1 & t1 & E & C & Hs & Hc1 & Ha & P & O).
    assert (Hreset : final (disconnect s) = s1) by (rewrite E; reflexivity).
    rewrite Hreset.
    assert (Hlt : (reconnectAttempts s1 < maxReconnectAttempts s1)%nat).
    { destruct C as (_ & Hm & _ & _). rewrite Ha, Hm. exact Hpos. }
    destruct (connect_starts s1 Hlt) as (s2 & t2 & h & E2 & C2 & Hs2 & Hc2 & Ha2 & R2 & P2 & O2).
    rewrite E2. unfold completion, trace, final. cbn [fst snd].
    rewrite O2, Ha2. repeat split; auto.
Qed.

(** What [call_each] leaves in the trace is calls of subscribers only. *)
Lemma call_each_frame (callbacks : list Callback) (event : string) (data : Payload)
    (s : Service) :
  exists r t,
    call_each callbacks event data s = (r, s, t) /\ requests t = [] /\ published t = [].
Proof.
  induction callbacks as [|c rest IH]; [do 2 eexists; split; [reflexivity|auto]|].
  cbn [call_each]. rewrite bind_run. cbn [tell].
  destruct (cb_call c data) as [e|]; [do 2 eexists; split; [reflexivity|auto]|].
  destruct IH as (r & t & -> & Hr & Hp).
  do 2 eexists. split; [reflexivity|]. cbn [app].
  change (requests (Delivered (cb_id c) event data :: t)) with (requests t).
  change (published (Delivered (cb_id c) event data :: t)) with (published t). auto.
Qed.

Lemma call_each_publishes_nothing (callbacks : list Callback) (event : string)
    (data : Payload) (s : Service) :
  publications (trace (call_each callbacks event data s)) = [].
Proof.
  induction callbacks as [|c rest IH]; [reflexivity|].
  cbn [call_each]. rewrite bind_run. cbn [tell].
  destruct (cb_call c data) as [e|]; [reflexivity|].
  destruct (call_each rest event data s) as [[r s1] t1]. exact IH.
Qed.

(** C8, as amended. While the service is not connected ([connected] is
    false, or there is no socket), [sendCommand(action)] makes no HTTP
    request, publishes one ['controlError'] and leaves the whole state of
    the service, the actuator flags [wateringActive] and [lightActive] with
    it, as it was. It answers [false] when the subscribers of
    ['controlError'] return; when one of them throws, the call ends in that
    exception instead: the [emit] of the guard stands outside the [try]. *)
Theorem sendCommand_not_connected (action : ControlAction) (s : Service) :
  connected s = false \/ socket s = None ->
  let outcome := sendCommand action s in
  let notice :=
    PJS (VObj [("action", VStr (ControlAction_str action));
               ("success", VBool false);
               ("message", VStr "Not connected to backend. Please check your connection.")]) in
  requests (trace outcome) = [] /\
  published (trace outcome) = ["controlError"] /\
  publications (trace outcome) = [("controlError", notice)] /\
  final outcome = s /\
  wateringActive (final outcome) = wateringActive s /\
  lightActive (final outcome) = lightActive s /\
  (Forall (fun c => cb_call c notice = None) (subscribers s "controlError") ->
   completion outcome = Normal (Answered false)) /\
  (forall before c after e,
     subscribers s "controlError" = before ++ c :: after ->
     Forall (fun c => cb_call c notice = None) before ->
     cb_call c notice = Some e ->
     completion outcome = Throw e).
Proof.
  intros Hnot. cbv zeta.
  assert (Hcond : negb (connected s) || negb (bool_decide (is_Some (socket s))) = true).
  { destruct Hnot as [-> | ->]; [reflexivity|]. cbn. apply orb_true_r. }
  unfold sendCommand. rewrite bind_run. cbn [get]. rewrite Hcond.
  rewrite bind_run.
  match goal with |- context [emit ?e ?d s] =>
    set (ev := e); set (payload := d) end.
  rewrite emit_run.
  destruct (call_each_frame (subscribers s ev) ev payload s) as (r & t1 & E & Hr & Hp).
  assert (Hpubs : publications t1 = []).
  { pose proof (call_each_publishes_nothing (subscribers s ev) ev payload s) as H.
    rewrite E in H. exact H. }
  rewrite E. unfold final, trace, completion.
  assert (Hreq : requests (Published ev payload :: t1) = []) by exact Hr.
  assert (Hpub : published (Published ev payload :: t1) = ["controlError"])
    by (rewrite published_Published, Hp; reflexivity).
  assert (Hpubl : publications (Published ev payload :: t1) = [("controlError", payload)])
    by (change (publications (Published ev payload :: t1))
          with ((ev, payload) :: publications t1); now rewrite Hpubs).
  assert (Hdone : (Forall (fun c => cb_call c payload = None) (subscribers s ev) ->
                   r = Normal tt) /\
                  (forall before c after e,
                     subscribers s ev = before ++ c :: after ->
                     Forall (fun c => cb_call c payload = None) before ->
                     cb_call c payload = Some e -> r = Throw e)).
  { split.
    - intros Hall. rewrite (call_each_returns _ _ _ _ Hall) in E. now injection E as <- _.
    - intros before c after e Hsub Hb Hc. rewrite Hsub in E.
      rewrite (call_each_throws _ _ _ _ _ _ _ Hb Hc) in E. now injection E as <- _. }
  destruct Hdone as [Hret Hthrow].
  destruct r as [[]|e]; cbn [mret M_ret fst snd app]; rewrite ?app_nil_r, Hreq, Hpub, Hpubl;
    repeat split; auto.
  all: first
    [ intros Hall; discriminate (Hret Hall)
    | intros before c after e' Hsub Hb Hc;
      pose proof (Hthrow _ _ _ _ Hsub Hb Hc) as Hr';
      first [discriminate Hr' | now injection Hr' as ->] ].
Qed.

End ConnectionProperties.

(** A witness of [five_failed_attempts]: the fresh service and five refused
    connections. *)
Lemma quiet_initial (url : string) : ArduinoService.quiet (ArduinoService.initial url).
Proof.
  intros event callbacks H. unfold ArduinoService.initial in H.
  cbn [ArduinoService.listeners] in H. rewrite lookup_empty in H. discriminate H.
Qed.

Lemma quiet_after_five_failures : ArduinoService.quiet Samples.after_five_failures.
Proof.
  intros event callbacks H.
  change (ArduinoService.listeners Samples.after_five_failures) with
    (∅ : gmap string (list ArduinoService.Callback)) in H.
  rewrite lookup_empty in H. discriminate H.
Qed.

(** The fresh service and five refused connections, as an instance of
    [five_failed_attempts]. *)
Lemma five_failed_attempts_witness :
  ArduinoService.scheduled_retries
    (snd (ArduinoService.run Reference.StringToNumber Reference.NumberToString
            IsoDate.toISOString Reference.JSON_stringify
            Samples.five_failures (ArduinoService.initial "http://backend")))
  = [5000; 7500; 11250; 16875]%float /\
  ArduinoService.connectionState
    (fst (ArduinoService.run Reference.StringToNumber Reference.NumberToString
            IsoDate.toISOString Reference.JSON_stringify
            Samples.five_failures (ArduinoService.initial "http://backend")))
  = ArduinoService.Failed.
Proof.
  pose proof (five_failed_attempts
                Reference.StringToNumber Reference.NumberToString
                IsoDate.toISOString Reference.JSON_stringify
                (ArduinoService.ConnectError Samples.refused)
                (ArduinoService.ConnectError Samples.refused)
                (ArduinoService.ConnectError Samples.refused)
                (ArduinoService.ConnectError Samples.refused)
                (ArduinoService.ConnectError Samples.refused)
                Samples.five_failures (ArduinoService.initial "http://backend")
                (quiet_initial "http://backend") (conj eq_refl eq_refl)
                eq_refl eq_refl eq_refl) as H.
  cbv zeta in H. destruct H as (H1 & _ & _ & _ & _ & H6). split; [exact H1|exact H6].
Defined.

(** C1, the counterexample: five refused connections on a fresh service
    with the default configuration schedule four retries, not five; no
    retry of 20000 ms follows the fifth failure. *)
Lemma five_failures_schedule_four_retries :
  ArduinoService.scheduled_retries
    (snd (ArduinoService.run Reference.StringToNumber Reference.NumberToString
            IsoDate.toISOString Reference.JSON_stringify
            Samples.five_failures (ArduinoService.initial "http://backend")))
  = [5000; 7500; 11250; 16875]%float /\
  [5000; 7500; 11250; 16875]%float <> [5000; 7500; 11250; 16875; 20000]%float.
Proof. split; [vm_compute; reflexivity | discriminate]. Qed.

(** The service after five refused connections, as an instance of
    [connect_after_exhaustion]. *)
Lemma connect_after_exhaustion_witness :
  ArduinoService.completion
    (ArduinoService.connect ArduinoService.IoReturns Samples.after_five_failures)
  = Normal (ArduinoService.Settled false) /\
  ArduinoService.reconnectAttempts
    (ArduinoService.final (ArduinoService.disconnect Samples.after_five_failures)) = 0%nat.
Proof.
  pose proof (connect_after_exhaustion ArduinoService.IoReturns
                Samples.after_five_failures quiet_after_five_failures eq_refl
                (conj (le_S _ _ (le_S _ _ (le_S _ _ (le_S _ _ (le_n 1))))) (le_n 5))) as H.
  destruct H as [(H1 & _) (H2 & _)]. split; [exact H1|exact H2].
Defined.

(** C2, the counterexample: after five refused connections the service is
    [Failed]; the next call of [connect()] returns [false] at once, opens
    no socket and leaves the counter at 5. *)
Lemma connect_fails_when_exhausted :
  ArduinoService.connectionState Samples.after_five_failures = ArduinoService.Failed /\
  ArduinoService.completion
    (ArduinoService.connect ArduinoService.IoReturns Samples.after_five_failures)
  = Normal (ArduinoService.Settled false) /\
  ArduinoService.sockets_opened
    (ArduinoService.trace
       (ArduinoService.connect ArduinoService.IoReturns Samples.after_five_failures)) = [] /\
  ArduinoService.reconnectAttempts
    (ArduinoService.final
       (ArduinoService.connect ArduinoService.IoReturns Samples.after_five_failures)) = 5%nat.
Proof. vm_compute. auto. Qed.

(** A fresh service, never connected, as an instance of
    [sendCommand_not_connected]. *)
Lemma sendCommand_not_connected_witness :
  ArduinoService.requests
    (ArduinoService.trace
       (ArduinoService.sendCommand water (ArduinoService.initial "http://backend"))) = [] /\
  ArduinoService.completion
    (ArduinoService.sendCommand water (ArduinoService.initial "http://backend"))
  = Normal (ArduinoService.Answered false).
Proof.
  pose proof (sendCommand_not_connected water (ArduinoService.initial "http://backend")
                (or_introl eq_refl)) as H.
  cbv zeta in H. destruct H as (H1 & _ & _ & _ & _ & _ & H7 & _).
  split; [exact H1 | apply H7; constructor].
Defined.

(** C8, the counterexample: on a service that is not connected and has a
    subscriber of ['controlError'] that throws, [sendCommand('water')] does
    not answer [false]: it ends in the exception of the subscriber, after
    publishing ['controlError'] and without a request. *)
Lemma sendCommand_throws_with_subscriber :
  ArduinoService.connected Samples.failing_control_subscriber = false /\
  ArduinoService.completion
    (ArduinoService.sendCommand water Samples.failing_control_subscriber)
  = Throw (JSError "boom") /\
  ArduinoService.published
    (ArduinoService.trace
       (ArduinoService.sendCommand water Samples.failing_control_subscriber))
  = ["controlError"] /\
  ArduinoService.requests
    (ArduinoService.trace
       (ArduinoService.sendCommand water Samples.failing_control_subscriber)) = [].
Proof. vm_compute. auto. Qed.

(** ** The historical store *)

Section StoreProperties.

Import ArduinoService.

Variable StringToNumber : string -> float.
Variable NumberToString : float -> string.
Variable toISOString : Z -> string.
Variable JSON_stringify : JSValue -> string.

Local Abbreviation run :=
  (ArduinoService.run StringToNumber NumberToString toISOString JSON_stringify).
Local Abbreviation turn :=
  (ArduinoService.turn StringToNumber NumberToString toISOString JSON_stringify).
Local Abbreviation ToString := (JS.ToString NumberToString).
Local Abbreviation validateSensorData :=
  (Normalizer.validateSensorData StringToNumber NumberToString).
Local Abbreviation on_dataUpdate :=
  (ArduinoService.on_dataUpdate StringToNumber NumberToString toISOString).
Local Abbreviation plant_key := (ArduinoService.plant_key NumberToString).

(** *** Invariants of the methods, composed along their binds *)

Lemma preserves_ret (I : Service -> Prop) {A : Type} (a : A) : preserves I (mret a).
Proof. intros s H. exact H. Qed.

Lemma preserves_bind (I : Service -> Prop) {A B : Type} (m : M A) (k : A -> M B) :
  preserves I m -> (forall a, preserves I (k a)) -> preserves I (m ≫= k).
Proof.
  intros Hm Hk s H. rewrite bind_run. specialize (Hm s H).
  destruct (m s) as [[[a|e] s1] t1]; unfold final in *; cbn [fst snd] in *; [|exact Hm].
  specialize (Hk a s1 Hm). destruct (k a s1) as [[r s2] t2]. exact Hk.
Qed.

Lemma preserves_get (I : Service -> Prop) : preserves I get.
Proof. intros s H. exact H. Qed.

Lemma preserves_tell (I : Service -> Prop) (e : Effect) : preserves I (tell e).
Proof. intros s H. exact H. Qed.

Lemma preserves_throw (I : Service -> Prop) {A : Type} (e : Exn) :
  preserves I (throw e : M A).
Proof. intros s H. exact H. Qed.

Lemma preserves_lift (I : Service -> Prop) {A : Type} (c : Completion A) :
  preserves I (lift c).
Proof. destruct c; intros s H; exact H. Qed.

Lemma preserves_modify (I : Service -> Prop) (f : Service -> Service) :
  (forall s, I s -> I (f s)) -> preserves I (modify f).
Proof. intros Hf s H. exact (Hf s H). Qed.

Lemma preserves_when (I : Service -> Prop) (b : bool) (m : M unit) :
  preserves I m -> preserves I (when b m).
Proof. destruct b; [auto|]. intros _. apply preserves_ret. Qed.

Lemma preserves_forEach (I : Service -> Prop) {A : Type} (l : list A) (f : A -> M unit) :
  (forall x, preserves I (f x)) -> preserves I (forEach l f).
Proof.
  intros Hf. induction l as [|x rest IH]; cbn [forEach]; [apply preserves_ret|].
  apply preserves_bind; [apply Hf|intros _; exact IH].
Qed.

Lemma preserves_try_catch (I : Service -> Prop) {A : Type} (m : M A) (h : Exn -> M A) :
  preserves I m -> (forall e, preserves I (h e)) -> preserves I (try_catch m h).
Proof.
  intros Hm Hh s H. unfold try_catch. specialize (Hm s H).
  destruct (m s) as [[[a|e] s1] t1]; unfold final in *; cbn [fst snd] in *; [exact Hm|].
  specialize (Hh e s1 Hm). destruct (h e s1) as [[r s2] t2]. exact Hh.
Qed.

Lemma preserves_emit (I : Service -> Prop) (event : string) (data : Payload) :
  preserves I (emit event data).
Proof.
  intros s H. rewrite emit_run.
  destruct (call_each_frame (subscribers s event) event data s) as (r & t & -> & _).
  exact H.
Qed.

Lemma length_slice_last {A : Type} (n : nat) (l : list A) : length (slice_last n l) <= n.
Proof. unfold slice_last. rewrite length_skipn. lia. Qed.

Lemma slice_last_short {A : Type} (n : nat) (l : list A) :
  length l <= n -> slice_last n l = l.
Proof. intros H. unfold slice_last. now replace (length l - n) with 0 by lia. Qed.




Lemma truthy_not_nullish (v : JSValue) : ToBoolean v = true -> nullish v = false.
Proof. destruct v; cbn; auto; discriminate. Qed.

Lemma processed_not_nullish (update : JSValue) :
  ToBoolean (getProp update "deviceId") && ToBoolean (getProp update "data") = true ->
  nullish update = false.
Proof. destruct update; try reflexivity; discriminate. Qed.

(** The state a processed ['dataUpdate'] leaves, up to the publication of
    the fused reading: the reading is cached under its device and filed
    under its key, which is a buffer of the store already or a name that
    objects do not inherit. *)
Lemma on_dataUpdate_files (now : Z) (update : JSValue) (s : Service)
    (reading : SensorData) (device key : string) :
  ToBoolean (getProp update "deviceId") && ToBoolean (getProp update "data") = true ->
  validateSensorData (getProp update "data") (getProp update "deviceId")
    (plantType s) (toISOString now) = Normal reading ->
  ToString (getProp update "deviceId") = Some device ->
  plant_key update = Some key ->
  inherited key = false \/ is_Some (historicalData s !! key) ->
  exists s1,
    on_dataUpdate now update s = emitCurrentPlantData toISOString now s1 /\
    historicalData s1 = store_after key reading (historicalData s) /\
    currentSensorData s1 = <[device := reading]> (currentSensorData s) /\
    plantType s1 = plantType s /\
    listeners s1 = listeners s /\
    wateringActive s1 = wateringActive s /\
    lightActive s1 = lightActive s.
Proof.
  intros Hcond Hreading Hdevice Hkey Hfree.
  pose proof (processed_not_nullish update Hcond) as Hnull.
  unfold ArduinoService.on_dataUpdate, read. rewrite bind_run, Hnull.
  cbn [mret M_ret]. cbv zeta. rewrite Hcond. cbn [when].
  rewrite bind_run. cbn [get]. rewrite bind_run, Hreading. cbn [lift mret M_ret].
  rewrite bind_run, Hdevice. cbn [converted lift mret M_ret].
  rewrite bind_run. cbn [modify]. rewrite bind_run, Hkey. cbn [converted lift mret M_ret].
  rewrite bind_run. cbn [modify]. rewrite bind_run. cbn [get]. rewrite bind_run. fields.
  assert (Hthere : exists old,
            historicalData
              (match historicalData s !! key with
               | Some _ =>
                   set_currentSensorData (<[device := reading]> (currentSensorData s)) s
               | None =>
                   if inherited key
                   then set_currentSensorData (<[device := reading]> (currentSensorData s)) s
                   else set_historicalData (<[key := []]> (historicalData s))
                          (set_currentSensorData
                             (<[device := reading]> (currentSensorData s)) s)
               end) !! key = Some old /\
            old = default [] (historicalData s !! key)).
  { destruct (historicalData s !! key) as [old|] eqn:Hold; fields.
    - exists old. now rewrite Hold.
    - destruct Hfree as [->|[? [=]]]. fields. exists []. now rewrite lookup_insert_eq. }
  destruct Hthere as (old & Hthere & Hold). rewrite Hthere. cbn [modify].
  rewrite bind_run. cbn [modify].
  match goal with
  | |- context [emitCurrentPlantData _ _ ?s4] =>
      destruct (emitCurrentPlantData toISOString now s4) as [[r s5] t] eqn:E; exists s4
  end.
  cbn [app]. split; [now rewrite E|].
  unfold store_after. rewrite <- Hold. clear E Hthere.
  destruct (historicalData s !! key) as [old'|] eqn:Hold'; fields.
  - rewrite lookup_insert_eq. cbn [default from_option id].
    destruct (Nat.ltb 100 (length (old ++ [reading]))) eqn:Hlen; fields.
    + rewrite insert_insert_eq. repeat split.
    + apply Nat.ltb_ge in Hlen. rewrite slice_last_short by exact Hlen. repeat split.
  - destruct Hfree as [->|[? [=]]]. fields. rewrite insert_insert_eq, lookup_insert_eq.
    cbn [default from_option id]. subst old. cbn [app length Nat.ltb Nat.leb]. fields.
    repeat split.
Qed.









End StoreProperties.

(** ** The historical aggregator *)

Section MapProperties.

Import HistoricalChart.

Context {V : Type}.

Lemma Map_get_set (k k' : Z) (v : V) (m : list (Z * V)) :
  Map_get k (Map_set k' v m) = if Z.eqb k k' then Some v else Map_get k m.
Proof.
  induction m as [|[k0 v0] rest IH]; cbn [Map_set Map_get].
  - rewrite Z.eqb_sym. destruct (Z.eqb_spec k' k); reflexivity.
  - destruct (Z.eqb_spec k' k0) as [->|Hne]; cbn [Map_get].
    + destruct (Z.eqb_spec k k0); reflexivity.
    + rewrite IH. destruct (Z.eqb_spec k k0) as [->|]; [|reflexivity].
      destruct (Z.eqb_spec k0 k'); [congruence|reflexivity].
Qed.

Lemma Map_has_get (k : Z) (m : list (Z * V)) :
  Map_has k m = match Map_get k m with Some _ => true | None => false end.
Proof.
  induction m as [|[k0 v0] rest IH]; [reflexivity|]. cbn [Map_has Map_get].
  destruct (Z.eqb k k0); [reflexivity|exact IH].
Qed.

Lemma Map_get_In (k : Z) (v : V) (m : list (Z * V)) :
  Map_get k m = Some v -> In (k, v) m.
Proof.
  induction m as [|[k0 v0] rest IH]; [discriminate|]. cbn [Map_get].
  destruct (Z.eqb_spec k k0) as [->|_]; [intros [= ->]; now left|right; auto].
Qed.

Lemma In_Map_get (k : Z) (v : V) (m : list (Z * V)) :
  List.NoDup (map fst m) -> In (k, v) m -> Map_get k m = Some v.
Proof.
  induction m as [|[k0 v0] rest IH]; [contradiction|].
  cbn [map fst]. intros Hnd [Heq|Hin]; cbn [Map_get].
  - injection Heq as -> ->. now rewrite Z.eqb_refl.
  - apply List.NoDup_cons_iff in Hnd as [Hnot Hnd].
    destruct (Z.eqb_spec k k0) as [->|_]; [|auto].
    exfalso. apply Hnot. apply (in_map fst) in Hin. exact Hin.
Qed.

Lemma Map_set_keys (k : Z) (v : V) (m : list (Z * V)) :
  map fst (Map_set k v m) = if Map_has k m then map fst m else map fst m ++ [k].
Proof.
  induction m as [|[k0 v0] rest IH]; [reflexivity|]. cbn [Map_set Map_has].
  destruct (Z.eqb_spec k k0) as [->|Hne]; cbn [orb map fst]; [reflexivity|].
  rewrite IH. destruct (Map_has k rest); reflexivity.
Qed.

Lemma Map_has_keys (k : Z) (m : list (Z * V)) :
  Map_has k m = true <-> In k (map fst m).
Proof.
  induction m as [|[k0 v0] rest IH]; cbn [Map_has map fst In]; [split; [discriminate|tauto]|].
  rewrite orb_true_iff, IH, Z.eqb_eq. split; intros [H|H]; auto.
Qed.

Lemma Map_set_NoDup (k : Z) (v : V) (m : list (Z * V)) :
  List.NoDup (map fst m) -> List.NoDup (map fst (Map_set k v m)).
Proof.
  intros Hnd. rewrite Map_set_keys.
  destruct (Map_has k m) eqn:E; [exact Hnd|].
  apply List.NoDup_app; [exact Hnd|constructor; [intros []|constructor]|].
  intros x Hx [<-|[]]. apply Map_has_keys in Hx. congruence.
Qed.

End MapProperties.

Section AggregatorProperties.

Import HistoricalChart.

Variable Date_getTime : JSValue -> option Z.
Variable toISOString : Z -> string.

Local Abbreviation add_point := (HistoricalChart.add_point Date_getTime toISOString).
Local Abbreviation in_bucket := (HistoricalChart.in_bucket Date_getTime).
Local Abbreviation points_of := (HistoricalChart.points_of Date_getTime).
Local Abbreviation bucket_of := (HistoricalChart.bucket_of Date_getTime toISOString).
Local Abbreviation time_of := (HistoricalChart.time_of Date_getTime).
Local Abbreviation before := (HistoricalChart.before Date_getTime).
Local Abbreviation insert := (HistoricalChart.insert Date_getTime).
Local Abbreviation sort := (HistoricalChart.sort Date_getTime).
Local Abbreviation averageDataPoints :=
  (HistoricalChart.averageDataPoints Date_getTime toISOString).
Local Abbreviation point_of_bucket :=
  (HistoricalChart.point_of_bucket Date_getTime toISOString).
Local Abbreviation has_points := (HistoricalChart.has_points Date_getTime).
Local Abbreviation parses := (HistoricalChart.parses Date_getTime).
Local Abbreviation buckets_of := (HistoricalChart.buckets_of Date_getTime toISOString).

Lemma points_of_app (k : Z) (l1 l2 : list RawPoint.t) :
  points_of k (l1 ++ l2) = points_of k l1 ++ points_of k l2.
Proof. apply List.filter_app. Qed.

Lemma total_snoc (points : list RawPoint.t) (p : RawPoint.t) :
  total (points ++ [p]) = (total points + RawPoint.value p)%float.
Proof. unfold total. now rewrite fold_left_app. Qed.

Lemma points_of_snoc (k : Z) (l : list RawPoint.t) (p : RawPoint.t) :
  points_of k (l ++ [p]) = points_of k l ++ (if in_bucket k p then [p] else []).
Proof. rewrite points_of_app. cbn. now destruct (in_bucket k p). Qed.

(** The loop keeps one bucket for each key that has points, with the sum
    and the count of those points. *)
Lemma buckets_get (rawData : list RawPoint.t) (k : Z) :
  Map_get k (buckets_of rawData) =
  match points_of k rawData with
  | [] => None
  | _ :: _ => Some (bucket_of k rawData)
  end.
Proof.
  unfold HistoricalChart.buckets_of. revert k.
  induction rawData as [|p l IH] using rev_ind; intros k; [reflexivity|].
  rewrite fold_left_app. cbn [fold_left]. unfold HistoricalChart.add_point at 1.
  unfold HistoricalChart.bucket_of. rewrite points_of_snoc.
  assert (Hin : in_bucket k p =
                match Date_getTime (RawPoint.timestamp p) with
                | Some time => Z.eqb (bucketKey time) k
                | None => false
                end) by reflexivity.
  rewrite Hin. clear Hin.
  destruct (Date_getTime (RawPoint.timestamp p)) as [time|];
    [|rewrite !app_nil_r; apply IH].
  set (key := bucketKey time). set (B := fold_left add_point l []) in *.
  cbv zeta.
  destruct (Z.eqb_spec key k) as [<-|Hne].
  - rewrite Map_has_get, IH.
    destruct (points_of key l) as [|q qs] eqn:Epts; cbn [negb].
    + rewrite Map_get_set, Z.eqb_refl, Map_get_set, Z.eqb_refl. reflexivity.
    + rewrite IH, Epts, Map_get_set, Z.eqb_refl.
      unfold HistoricalChart.bucket_of. rewrite Epts.
      cbn [Bucket.sum Bucket.count Bucket.timestamp].
      rewrite total_snoc, length_app. reflexivity.
  - rewrite app_nil_r.
    assert (Hk : Z.eqb k key = false) by (apply Z.eqb_neq; congruence).
    destruct (negb (Map_has key B)).
    + rewrite Map_get_set, Z.eqb_refl, Map_get_set, Hk, Map_get_set, Hk. apply IH.
    + destruct (Map_get key B); [rewrite Map_get_set, Hk|]; apply IH.
Qed.

Lemma buckets_NoDup (rawData : list RawPoint.t) :
  List.NoDup (map fst (buckets_of rawData)).
Proof.
  unfold HistoricalChart.buckets_of. induction rawData as [|p l IH] using rev_ind; [constructor|].
  rewrite fold_left_app. cbn [fold_left]. unfold HistoricalChart.add_point at 1.
  destruct (Date_getTime (RawPoint.timestamp p)) as [time|]; [|exact IH].
  cbv zeta. set (B := fold_left add_point l []) in *.
  assert (H1 : List.NoDup (map fst
            (if negb (Map_has (bucketKey time) B)
             then Map_set (bucketKey time)
                    {| Bucket.sum := 0; Bucket.count := 0;
                       Bucket.timestamp := toISOString (bucketKey time) |} B
             else B)))
    by (destruct (negb _); [apply Map_set_NoDup|]; exact IH).
  destruct (Map_get _ _); [apply Map_set_NoDup|]; exact H1.
Qed.

Lemma buckets_skip_unparsed (rawData : list RawPoint.t) :
  buckets_of (List.filter parses rawData) = buckets_of rawData.
Proof.
  unfold HistoricalChart.buckets_of. generalize (@nil (Z * Bucket.t)).
  induction rawData as [|p l IH]; intros B; [reflexivity|].
  cbn [List.filter fold_left]. unfold HistoricalChart.parses at 1.
  unfold HistoricalChart.add_point at 3.
  destruct (Date_getTime (RawPoint.timestamp p)) as [time|] eqn:Ep; [|apply IH].
  cbn [fold_left]. rewrite IH. unfold HistoricalChart.add_point at 2. now rewrite Ep.
Qed.

Lemma averageDataPoints_unfold (rawData : list RawPoint.t) :
  averageDataPoints rawData =
  slice_last 60 (sort (map (fun entry => averaged (snd entry)) (buckets_of rawData))).
Proof. destruct rawData; reflexivity. Qed.

(** *** The sort *)

Lemma In_insert (x p : AveragedDataPoint.t) (l : list AveragedDataPoint.t) :
  In p (insert x l) <-> p = x \/ In p l.
Proof.
  induction l as [|y rest IH]; cbn [HistoricalChart.insert In]; [intuition|].
  destruct (before x y); cbn [In]; [intuition|]. rewrite IH. intuition.
Qed.

Lemma In_sort (p : AveragedDataPoint.t) (l : list AveragedDataPoint.t) :
  In p (sort l) <-> In p l.
Proof.
  unfold HistoricalChart.sort.
  induction l as [|x rest IH]; cbn [fold_right In]; [reflexivity|].
  rewrite In_insert, IH. intuition.
Qed.

Lemma length_insert_point (x : AveragedDataPoint.t) (l : list AveragedDataPoint.t) :
  length (insert x l) = S (length l).
Proof.
  induction l as [|y rest IH]; cbn [HistoricalChart.insert length]; [reflexivity|].
  destruct (before x y); cbn [length]; [reflexivity|]. now rewrite IH.
Qed.

(** Inserting a point with a fresh key into a list sorted by key keeps it
    sorted by key. *)
Lemma insert_sorted (x : AveragedDataPoint.t) (kx : Z) :
  time_of x = Some kx ->
  forall (l : list AveragedDataPoint.t) (ks : list Z),
    map time_of l = map Some ks ->
    StronglySorted Z.lt ks ->
    ~ In kx ks ->
    exists ks',
      map time_of (insert x l) = map Some ks' /\
      StronglySorted Z.lt ks' /\
      (forall k, In k ks' <-> k = kx \/ In k ks).
Proof.
  intros Hx. induction l as [|y rest IH]; intros ks Hks Hsorted Hfresh.
  - destruct ks; [|discriminate Hks]. exists [kx]. cbn [HistoricalChart.insert map].
    rewrite Hx. repeat split; [repeat constructor| |]; cbn; intuition.
  - destruct ks as [|ky kr]; [discriminate Hks|]. cbn [map] in Hks.
    injection Hks as Hy Hrest.
    apply StronglySorted_inv in Hsorted as [Hsorted Hky].
    cbn [HistoricalChart.insert]. unfold HistoricalChart.before, HistoricalChart.compareFn.
    fold (time_of x) (time_of y). rewrite Hx, Hy.
    destruct (Z.leb_spec (kx - ky) 0) as [Hle|Hgt].
    + exists (kx :: ky :: kr). cbn [map]. rewrite Hx, Hy, Hrest.
      split; [reflexivity|]. split; [|cbn; intuition].
      assert (Hlt : (kx < ky)%Z) by (cbn in Hfresh; lia).
      constructor; [constructor; assumption|].
      constructor; [exact Hlt|].
      rewrite List.Forall_forall in *. intros k Hk. specialize (Hky k Hk). lia.
    + destruct (IH kr Hrest Hsorted) as (ks' & Hmap & Hs' & Hin');
        [cbn in Hfresh; intuition|].
      exists (ky :: ks'). cbn [map]. rewrite Hy, Hmap.
      split; [reflexivity|]. split.
      * constructor; [exact Hs'|]. rewrite List.Forall_forall in *.
        intros k Hk. apply Hin' in Hk as [->|Hk]; [lia|auto].
      * intros k. cbn [In]. rewrite Hin'. intuition.
Qed.

(** The sort puts points with distinct keys in ascending order of key. *)
Lemma sort_sorted (l : list AveragedDataPoint.t) (ks : list Z) :
  map time_of l = map Some ks ->
  List.NoDup ks ->
  exists ks',
    map time_of (sort l) = map Some ks' /\
    StronglySorted Z.lt ks' /\
    (forall k, In k ks' <-> In k ks).
Proof.
  revert ks. induction l as [|x rest IH]; intros ks Hks Hnd.
  - destruct ks; [|discriminate Hks]. exists []. repeat split; auto; constructor.
  - destruct ks as [|kx kr]; [discriminate Hks|]. cbn [map] in Hks.
    injection Hks as Hx Hrest. apply List.NoDup_cons_iff in Hnd as [Hfresh Hnd].
    destruct (IH kr Hrest Hnd) as (ks1 & Hmap & Hs1 & Hin1).
    destruct (insert_sorted x kx Hx (sort rest) ks1 Hmap Hs1) as (ks' & Hmap' & Hs' & Hin');
      [now rewrite Hin1|].
    exists ks'. split; [exact Hmap'|]. split; [exact Hs'|].
    intros k. rewrite Hin', Hin1. cbn [In]. intuition.
Qed.

Lemma StronglySorted_skipn {A : Type} (R : A -> A -> Prop) (n : nat) (l : list A) :
  StronglySorted R l -> StronglySorted R (skipn n l).
Proof.
  revert l. induction n as [|n IH]; intros l H; [exact H|].
  destruct l as [|x rest]; [constructor|]. cbn [skipn].
  apply IH. now apply StronglySorted_inv in H.
Qed.

Lemma In_skipn {A : Type} (n : nat) (l : list A) (x : A) : In x (skipn n l) -> In x l.
Proof.
  revert l. induction n as [|n IH]; intros l H; [exact H|].
  destruct l as [|y rest]; [exact H|]. right. now apply IH.
Qed.

(** *** The output *)

Lemma has_points_iff (rawData : list RawPoint.t) (k : Z) :
  has_points rawData k <-> points_of k rawData <> [].
Proof.
  unfold HistoricalChart.has_points, HistoricalChart.points_of. split.
  - intros (p & time & Hin & Hp & Hk) Hnil.
    assert (H : In p (List.filter (in_bucket k) rawData)).
    { apply List.filter_In. split; [exact Hin|].
      unfold HistoricalChart.in_bucket. rewrite Hp. now apply Z.eqb_eq. }
    rewrite Hnil in H. exact H.
  - destruct (List.filter (in_bucket k) rawData) as [|q qs] eqn:E; [congruence|]. intros _.
    assert (H : In q (List.filter (in_bucket k) rawData)) by (rewrite E; now left).
    apply List.filter_In in H as [Hin Hq]. unfold HistoricalChart.in_bucket in Hq.
    destruct (Date_getTime (RawPoint.timestamp q)) as [time|] eqn:Et; [|discriminate].
    exists q, time. repeat split; auto. now apply Z.eqb_eq.
Qed.

Lemma bucketKey_idempotent (time : Z) : bucketKey (bucketKey time) = bucketKey time.
Proof. unfold bucketKey, intervalMs. now rewrite Z.div_mul. Qed.

Lemma bucket_entries (rawData : list RawPoint.t) (k : Z) (b : Bucket.t) :
  In (k, b) (buckets_of rawData) <->
  points_of k rawData <> [] /\ b = bucket_of k rawData.
Proof.
  split.
  - intros Hin. apply (In_Map_get _ _ _ (buckets_NoDup rawData)) in Hin.
    rewrite buckets_get in Hin.
    destruct (points_of k rawData); [discriminate|]. injection Hin as <-. split; congruence.
  - intros [Hne ->]. apply Map_get_In. rewrite buckets_get.
    destruct (points_of k rawData); congruence.
Qed.

(** The point the code makes of a bucket that has points. *)
Lemma averaged_bucket (rawData : list RawPoint.t) (k : Z) :
  Date_getTime (VStr (toISOString k)) = Some k ->
  has_points rawData k ->
  point_of_bucket rawData k (averaged (bucket_of k rawData)).
Proof.
  intros Hrt Hk. unfold HistoricalChart.point_of_bucket, averaged, HistoricalChart.time_of.
  cbn [AveragedDataPoint.timestamp AveragedDataPoint.count AveragedDataPoint.value
       HistoricalChart.bucket_of Bucket.sum Bucket.count Bucket.timestamp].
  assert (Hpos : 1 <= length (points_of k rawData)).
  { apply has_points_iff in Hk. destruct (points_of k rawData); [congruence|cbn; lia]. }
  repeat split; auto.
  - destruct Hk as (p & time & _ & _ & <-). apply bucketKey_idempotent.
  - destruct (Nat.ltb_spec 0 (length (points_of k rawData))); [reflexivity|lia].
Qed.

Lemma points_by_key (rawData : list RawPoint.t) (keys : list Z)
    (out : list AveragedDataPoint.t) :
  map time_of out = map Some keys ->
  (forall p, In p out -> exists k, point_of_bucket rawData k p) ->
  Forall2 (fun k p => point_of_bucket rawData k p) keys out.
Proof.
  revert keys. induction out as [|p rest IH]; intros keys Hmap Hall.
  - destruct keys; [constructor|discriminate Hmap].
  - destruct keys as [|k kr]; [discriminate Hmap|]. cbn [map] in Hmap.
    injection Hmap as Hp Hrest. constructor.
    + destruct (Hall p (or_introl eq_refl)) as (k' & Hk').
      assert (k' = k) by (destruct Hk' as (_ & Ht & _); congruence). now subst k'.
    + apply IH; [exact Hrest|]. intros q Hq. apply Hall. now right.
Qed.

(** The output by the keys of the code: the points of the last 60 keys
    that hold an input point, in strictly ascending order of key. *)
Lemma averageDataPoints_keyed (rawData : list RawPoint.t) :
  (forall point time,
     In point rawData ->
     Date_getTime (RawPoint.timestamp point) = Some time ->
     Date_getTime (VStr (toISOString (bucketKey time))) = Some (bucketKey time)) ->
  exists all_keys : list Z,
    StronglySorted Z.lt all_keys /\
    (forall k, In k all_keys <-> has_points rawData k) /\
    StronglySorted Z.lt (slice_last 60 all_keys) /\
    Forall2 (fun k p => point_of_bucket rawData k p)
            (slice_last 60 all_keys) (averageDataPoints rawData) /\
    length (averageDataPoints rawData) <= 60 /\
    averageDataPoints [] = [] /\
    averageDataPoints rawData = averageDataPoints (List.filter parses rawData).
Proof.
  intros Hrt.
  assert (Hkey : forall k, has_points rawData k -> Date_getTime (VStr (toISOString k)) = Some k).
  { intros k (p & time & Hin & Hp & <-). eapply Hrt; eassumption. }
  set (B := buckets_of rawData).
  set (L := map (fun entry => averaged (snd entry)) B).
  assert (HB : forall k b, In (k, b) B ->
                 has_points rawData k /\ point_of_bucket rawData k (averaged b)).
  { intros k b Hin. apply bucket_entries in Hin as [Hne ->].
    apply has_points_iff in Hne. split; [exact Hne|].
    apply averaged_bucket; auto. }
  assert (Htimes : map time_of L = map Some (map fst B)).
  { unfold L. rewrite !map_map. apply map_ext_in. intros [k b] Hin.
    destruct (HB k b Hin) as [_ (_ & Ht & _)]. exact Ht. }
  destruct (sort_sorted L (map fst B) Htimes (buckets_NoDup rawData))
    as (all_keys & Hmap & Hsorted & Hin).
  assert (Hlen : length (sort L) = length all_keys).
  { apply (f_equal (@length _)) in Hmap. now rewrite !length_map in Hmap. }
  exists all_keys. split; [exact Hsorted|]. split; [|split; [|split; [|split; [|split]]]].
  - intros k. rewrite Hin. split.
    + intros Hk. apply in_map_iff in Hk as ([k' b] & <- & Hk). apply (HB _ _ Hk).
    + intros Hk. apply in_map_iff. exists (k, bucket_of k rawData). split; [reflexivity|].
      apply bucket_entries. split; [now apply has_points_iff|reflexivity].
  - now apply StronglySorted_skipn.
  - rewrite averageDataPoints_unfold. fold B. fold L. apply points_by_key.
    + unfold slice_last. rewrite <- !skipn_map, Hmap, Hlen. reflexivity.
    + intros p Hp. apply In_skipn in Hp. apply (proj1 (In_sort _ _)) in Hp.
      apply in_map_iff in Hp as ([k b] & <- & Hp). exists k. apply (HB _ _ Hp).
  - rewrite averageDataPoints_unfold. apply length_slice_last.
  - reflexivity.
  - rewrite !averageDataPoints_unfold. now rewrite buckets_skip_unparsed.
Qed.

(** The key the code computes is the start of the window of the spec. *)
Lemma bucketKey_window (time : Z) : bucketKey time = window_start time.
Proof. reflexivity. Qed.

(** An instant has the key [start] exactly when [start] is a multiple of
    300000 and the instant lies in the 300000 ms from it. *)
Lemma window_start_iff (time start : Z) :
  window_start time = start <->
  (start mod 300000 = 0 /\ start <= time < start + 300000)%Z.
Proof.
  unfold window_start. split.
  - intros <-. split; [apply Z.mod_mul; lia|].
    pose proof (Z.div_mod time 300000 ltac:(lia)).
    pose proof (Z.mod_pos_bound time 300000 ltac:(lia)). lia.
  - intros [Hmod Hin].
    apply Z.mod_divide in Hmod as [q Hq]; [|lia]. subst start.
    f_equal. symmetry. apply (Z.div_unique time 300000 q (time - q * 300000)); lia.
Qed.

Lemma in_bucket_window (start : Z) (point : RawPoint.t) :
  (start mod 300000 = 0)%Z ->
  in_bucket start point = HistoricalChart.in_window Date_getTime start point.
Proof.
  intros Hmod. unfold HistoricalChart.in_bucket, HistoricalChart.in_window.
  destruct (Date_getTime (RawPoint.timestamp point)) as [time|]; [|reflexivity].
  rewrite bucketKey_window.
  destruct (Z.eqb_spec (window_start time) start) as [E|E].
  - apply window_start_iff in E as [_ [H1 H2]].
    symmetry. apply andb_true_intro. split; [now apply Z.leb_le|now apply Z.ltb_lt].
  - symmetry. apply not_true_is_false. intros H. apply E.
    apply andb_prop in H as [H1 H2]. apply Z.leb_le in H1. apply Z.ltb_lt in H2.
    apply window_start_iff. auto.
Qed.

Lemma points_of_window (start : Z) (rawData : list RawPoint.t) :
  (start mod 300000 = 0)%Z ->
  points_of start rawData = HistoricalChart.window_points Date_getTime start rawData.
Proof.
  intros Hmod. unfold HistoricalChart.points_of, HistoricalChart.window_points.
  apply List.filter_ext. intros point. now apply in_bucket_window.
Qed.

Lemma point_of_bucket_window (rawData : list RawPoint.t) (start : Z)
    (p : AveragedDataPoint.t) :
  point_of_bucket rawData start p ->
  HistoricalChart.point_of_window Date_getTime toISOString rawData start p.
Proof.
  intros (Hts & Htime & Hkey & Hcount & Hpos & Hvalue).
  assert (Hmod : (start mod 300000 = 0)%Z).
  { rewrite bucketKey_window in Hkey. now apply window_start_iff in Hkey as [Hmod _]. }
  unfold HistoricalChart.point_of_window.
  rewrite <- (points_of_window start rawData Hmod). repeat split; assumption.
Qed.

(** C5. For every finite input, provided the instants of the window starts
    read back from their ISO strings, the output of [averageDataPoints] is
    the points of the last 60 of the 5-minute windows that hold an input
    point, in strictly ascending order of their starts. The windows that
    hold a point are those that start at [floor(t / 300000) * 300000] for
    the instant [t] of an input point. Each output point carries the start
    of its window, a multiple of 300000 ms, as timestamp; as count the
    number of input points whose timestamp parses to an instant from that
    start up to 300000 ms later, the end excluded; and as value the mean of
    their values (their sum from 0 in input order, divided by the count).
    There are at most 60 points; the empty input gives the empty output;
    and input points whose timestamp does not parse are skipped. *)
Theorem averageDataPoints_buckets (rawData : list RawPoint.t) :
  (forall point time,
     In point rawData ->
     Date_getTime (RawPoint.timestamp point) = Some time ->
     Date_getTime (VStr (toISOString (time / 300000 * 300000)%Z))
     = Some (time / 300000 * 300000)%Z) ->
  exists starts : list Z,
    StronglySorted Z.lt starts /\
    (forall start,
       In start starts <->
       exists point time,
         In point rawData /\ Date_getTime (RawPoint.timestamp point) = Some time /\
         start = (time / 300000 * 300000)%Z) /\
    Forall2 (fun start p =>
               HistoricalChart.point_of_window Date_getTime toISOString rawData start p)
            (slice_last 60 starts) (averageDataPoints rawData) /\
    length (averageDataPoints rawData) <= 60 /\
    averageDataPoints [] = [] /\
    averageDataPoints rawData = averageDataPoints (List.filter parses rawData).
Proof.
  intros Hrt.
  destruct (averageDataPoints_keyed rawData Hrt)
    as (starts & Hsorted & Hkeys & _ & Hpoints & Hlen & Hnil & Hskip).
  exists starts. split; [exact Hsorted|]. split; [|split; [|auto]].
  - intros start. rewrite Hkeys. unfold HistoricalChart.has_points.
    split; intros (point & time & Hin & Ht & Hk); exists point, time;
      (split; [exact Hin|split; [exact Ht|]]).
    + now rewrite bucketKey_window in Hk.
    + now rewrite bucketKey_window.
  - clear - Hpoints. induction Hpoints as [|k p ks ps Hp _ IH]; constructor; [|exact IH].
    now apply point_of_bucket_window.
Qed.

End AggregatorProperties.

(** The spec's scenario as an instance of [averageDataPoints_buckets]. *)
Lemma averageDataPoints_buckets_witness :
  exists starts : list Z,
    StronglySorted Z.lt starts /\
    Forall2 (fun start p =>
               HistoricalChart.point_of_window IsoDate.Date_getTime IsoDate.toISOString
                 Samples.two_points start p)
            (slice_last 60 starts)
            (HistoricalChart.averageDataPoints IsoDate.Date_getTime IsoDate.toISOString
               Samples.two_points).
Proof.
  destruct (averageDataPoints_buckets IsoDate.Date_getTime IsoDate.toISOString
              Samples.two_points) as (starts & H1 & _ & H3 & _).
  - intros point time [<-|[<-|[]]] Ht; vm_compute in Ht;
      injection Ht as <-; vm_compute; reflexivity.
  - exists starts. split; assumption.
Defined.

(** The scenario of the spec, run: two points of one 5-minute bucket give
    one point, at the start of the bucket, with their mean and the count 2. *)
Example averageDataPoints_scenario :
  HistoricalChart.averageDataPoints IsoDate.Date_getTime IsoDate.toISOString
    Samples.two_points
  = [{| HistoricalChart.AveragedDataPoint.timestamp := "2024-01-01T00:00:00.000Z";
        HistoricalChart.AveragedDataPoint.value := 15;
        HistoricalChart.AveragedDataPoint.count := 2 |}].
Proof. vm_compute. reflexivity. Qed.

(** ** The debounce of the chart *)

Section DebounceProperties.

Import HistoricalChart.

Variable Date_getTime : JSValue -> option Z.
Variable toISOString : Z -> string.
Variable dataType : DataType.

Local Abbreviation averageDataPoints :=
  (HistoricalChart.averageDataPoints Date_getTime toISOString).
Local Abbreviation recompute := (HistoricalChart.recompute Date_getTime toISOString dataType).
Local Abbreviation advance := (HistoricalChart.advance Date_getTime toISOString dataType).
Local Abbreviation deliver := (HistoricalChart.deliver Date_getTime toISOString dataType).

Lemma advance_idle (now : Z) (c : Component) :
  pending c = [] ->
  (clock c <= now)%Z ->
  pending (advance now c) = [] /\ clock (advance now c) = now /\ unchanged c (advance now c).
Proof.
  intros Hp Hc. unfold HistoricalChart.advance, unchanged. rewrite Hp.
  cbn. repeat split; auto. lia.
Qed.

(** Before its timer is due, time passes without a recomputation. *)
Lemma advance_before_due (now t : Z) (reading : SensorData) (c : Component) :
  armed t reading c ->
  (t <= now < t + 30000)%Z ->
  pending (advance now c) = pending c /\
  updateTimeout (advance now c) = updateTimeout c /\
  clock (advance now c) = now /\
  unchanged c (advance now c).
Proof.
  intros (handle & Hp & Hu & Hc) Hnow. unfold HistoricalChart.advance, unchanged.
  rewrite Hp. cbn [List.filter due].
  destruct (Z.leb_spec (t + 30000) now) as [Hle|_]; [lia|].
  cbn. repeat split; auto. lia.
Qed.

(** Once its timer is due, the recomputation runs, once. *)
Lemma advance_fires (now t : Z) (reading : SensorData) (c : Component) :
  armed t reading c ->
  (t + 30000 <= now)%Z ->
  pending (advance now c) = [] /\
  recomputed (advance now c) = recomputed c ++ [((t + 30000)%Z, reading)] /\
  data (advance now c) = averageDataPoints (updatedRawData dataType (data c) reading).
Proof.
  intros (handle & Hp & Hu & Hc) Hnow. unfold HistoricalChart.advance.
  rewrite Hp. cbn [List.filter due].
  destruct (Z.leb_spec (t + 30000) now) as [_|Hgt]; [|lia].
  cbn. repeat split; auto.
Qed.

(** An event cancels the pending timer and sets its own. *)
Lemma handleDataUpdate_rearms (reading : SensorData) (c : Component) :
  pending c = [] \/
  (exists tm, pending c = [tm] /\ updateTimeout c = Some (id tm)) ->
  armed (clock c) reading (handleDataUpdate reading c) /\
  unchanged c (handleDataUpdate reading c).
Proof.
  intros H. unfold handleDataUpdate, armed, unchanged.
  assert (Hcleared :
            pending (match updateTimeout c with
                     | Some handle => clearTimeout handle c
                     | None => c
                     end) = []).
  { destruct H as [Hp|(tm & Hp & Hu)].
    - destruct (updateTimeout c); cbn [clearTimeout pending]; rewrite Hp; reflexivity.
    - rewrite Hu. cbn [clearTimeout pending]. rewrite Hp. cbn [List.filter].
      now rewrite Nat.eqb_refl. }
  destruct (updateTimeout c) as [handle|]; cbn [setTimeout clearTimeout pending
    updateTimeout clock recomputed data nextTimer] in *; rewrite Hcleared;
    (split; [eexists; repeat split; reflexivity | split; reflexivity]).
Qed.

Lemma last_cons {A : Type} (l : list A) (x d : A) :
  List.last (x :: l) d = List.last l x.
Proof.
  revert x d. induction l as [|y l IH]; intros x d; [reflexivity|].
  change (List.last (x :: y :: l) d) with (List.last (y :: l) d). now rewrite !IH.
Qed.

Lemma unchanged_trans (c1 c2 c3 : Component) :
  unchanged c1 c2 -> unchanged c2 c3 -> unchanged c1 c3.
Proof. unfold unchanged. intuition congruence. Qed.

(** Through the later events of a burst the recomputation stays pending:
    after them the timer of the last event is the one pending, and nothing
    was recomputed. *)
Lemma deliver_burst (events : list (Z * SensorData)) :
  forall (c : Component) (t : Z) (r : SensorData),
    armed t r c ->
    burst_after t events ->
    armed (fst (List.last events (t, r))) (snd (List.last events (t, r))) (deliver events c) /\
    unchanged c (deliver events c).
Proof.
  induction events as [|[now reading] rest IH]; intros c t r Harmed Hburst.
  - cbn. split; [exact Harmed|split; reflexivity].
  - destruct Hburst as [Hnow Hrest]. cbn [HistoricalChart.deliver].
    destruct (advance_before_due now t r c Harmed Hnow) as (Hp & Hu & Hc & Hsame).
    destruct (handleDataUpdate_rearms reading (advance now c)) as [Hre Hsame2].
    { right. destruct Harmed as (handle & Hp0 & Hu0 & _).
      eexists. rewrite Hp, Hu, Hp0, Hu0. split; reflexivity. }
    rewrite Hc in Hre.
    destruct (IH _ now reading Hre Hrest) as [Hlast Hsame3].
    split.
    + rewrite last_cons. exact Hlast.
    + eapply unchanged_trans; [|exact Hsame3]. eapply unchanged_trans; eassumption.
Qed.

(** The same from a component with no timer pending. *)
Lemma deliver_from_idle (events : list (Z * SensorData)) (c : Component)
    (d : Z * SensorData) :
  pending c = [] ->
  burst (clock c) events ->
  armed (fst (List.last events d)) (snd (List.last events d)) (deliver events c) /\
  unchanged c (deliver events c).
Proof.
  intros Hp Hburst. destruct events as [|[now reading] rest]; [contradiction|].
  destruct Hburst as [Hstart Hrest]. cbn [HistoricalChart.deliver].
  destruct (advance_idle now c Hp Hstart) as (Hp1 & Hc1 & Hsame1).
  destruct (handleDataUpdate_rearms reading (advance now c) (or_introl Hp1))
    as [Hre Hsame2].
  rewrite Hc1 in Hre.
  destruct (deliver_burst rest _ now reading Hre Hrest) as [Hlast Hsame3].
  split.
  - rewrite last_cons. exact Hlast.
  - eapply unchanged_trans; [|exact Hsame3]. eapply unchanged_trans; eassumption.
Qed.

Lemma burst_after_prefix (t : Z) (l1 l2 : list (Z * SensorData)) :
  burst_after t (l1 ++ l2) -> burst_after t l1.
Proof.
  revert t. induction l1 as [|[now r] l1 IH]; intros t H; [exact I|].
  destruct H as [Hnow H]. split; [exact Hnow|]. now apply IH.
Qed.

Lemma burst_prefix (start : Z) (l1 l2 : list (Z * SensorData)) (e : Z * SensorData) :
  burst start ((l1 ++ [e]) ++ l2) -> burst start (l1 ++ [e]).
Proof.
  destruct l1 as [|[now r] l1]; cbn [app burst].
  - destruct e as [now r]. intros [H _]. split; [exact H|exact I].
  - intros [H Hb]. split; [exact H|]. now apply burst_after_prefix in Hb.
Qed.

(** C9. A burst of one or more ['data'] events, each less than 30 s after
    the one before it, reaching a mounted chart with no recomputation
    pending, leads to exactly one recomputation: none runs during the
    burst, and once 30 s have passed after the last event the recomputation
    for the reading of that event has run, at 30 s after the event, and
    nothing is left pending. After each event of the burst exactly one
    timer is pending, the one of that event: the event has cancelled the
    timer of the event before it. *)
Theorem debounce_coalesces_burst
    (c : Component) (earlier : list (Z * SensorData)) (t_last : Z) (r_last : SensorData)
    (finish : Z) :
  pending c = [] ->
  burst (clock c) (earlier ++ [(t_last, r_last)]) ->
  (t_last + 30000 <= finish)%Z ->
  let events := earlier ++ [(t_last, r_last)] in
  let done := advance finish (deliver events c) in
  recomputed (deliver events c) = recomputed c /\
  recomputed done = recomputed c ++ [((t_last + 30000)%Z, r_last)] /\
  pending done = [] /\
  data done = averageDataPoints (updatedRawData dataType (data c) r_last) /\
  (forall before t r after,
     events = before ++ (t, r) :: after ->
     exists handle,
       pending (deliver (before ++ [(t, r)]) c)
       = [{| id := handle; due := (t + 30000)%Z; newData := r |}]).
Proof.
  intros Hp Hburst Hfinish. cbv zeta.
  destruct (deliver_from_idle _ c (t_last, r_last) Hp Hburst) as [Harmed [Hrec Hdata]].
  rewrite List.last_last in Harmed. cbn [fst snd] in Harmed.
  destruct (advance_fires finish t_last r_last _ Harmed Hfinish) as (Hp' & Hrec' & Hdata').
  split; [exact Hrec|]. split; [now rewrite Hrec', Hrec|]. split; [exact Hp'|].
  split; [now rewrite Hdata', Hdata|].
  intros before t r after Hsplit.
  assert (Hb : burst (clock c) (before ++ [(t, r)])).
  { apply (burst_prefix _ _ after). rewrite <- app_assoc. cbn [app]. now rewrite <- Hsplit. }
  destruct (deliver_from_idle _ c (t, r) Hp Hb) as [(handle & Hpending & _) _].
  rewrite List.last_last in Hpending. cbn [fst snd] in Hpending. eauto.
Qed.

End DebounceProperties.

(** Three updates within 25 s as an instance of [debounce_coalesces_burst]:
    one recomputation, 30 s after the third. *)
Lemma debounce_coalesces_burst_witness :
  HistoricalChart.recomputed
    (HistoricalChart.advance IsoDate.Date_getTime IsoDate.toISOString
       HistoricalChart.temperature 56000
       (HistoricalChart.deliver IsoDate.Date_getTime IsoDate.toISOString
          HistoricalChart.temperature Samples.three_updates (HistoricalChart.mounted 0)))
  = [(56000%Z, Samples.warmer 23 "2024-01-01T00:00:26Z")].
Proof.
  pose proof (debounce_coalesces_burst IsoDate.Date_getTime IsoDate.toISOString
                HistoricalChart.temperature (HistoricalChart.mounted 0)
                [(1000%Z, Samples.warmer 21 "2024-01-01T00:00:01Z");
                 (11000%Z, Samples.warmer 22 "2024-01-01T00:00:11Z")]
                26000%Z (Samples.warmer 23 "2024-01-01T00:00:26Z") 56000%Z) as H.
  cbv zeta in H. destruct H as (_ & H & _).
  - reflexivity.
  - cbn. lia.
  - lia.
  - exact H.
Defined.

(** ** Subscriptions ([on], [off]) *)

Section SubscriptionProperties.

Import ArduinoService.

Lemma on_run (event : string) (callback : Callback) (s : Service) :
  on event callback s =
  (Normal tt,
   set_listeners (<[event := subscribers s event ++ [callback]]> (listeners s)) s,
   []).
Proof.
  unfold on, subscribers. rewrite !bind_run. cbn [get].
  destruct (listeners s !! event) as [callbacks|] eqn:E.
  - cbn. repeat (rewrite bind_run; cbn [modify mret M_ret app]). rewrite E. reflexivity.
  - cbn. repeat (rewrite bind_run; cbn [modify mret M_ret app]). fields.
    rewrite lookup_insert_eq. fields. rewrite insert_insert_eq. reflexivity.
Qed.

Lemma subscribers_on (event other : string) (callback : Callback) (s : Service) :
  subscribers (final (on event callback s)) other =
  if String.eqb other event then subscribers s event ++ [callback]
  else subscribers s other.
Proof.
  rewrite on_run. unfold final, subscribers at 1. cbn [fst snd listeners set_listeners].
  destruct (String.eqb_spec other event) as [->|Hne].
  - now rewrite lookup_insert_eq.
  - rewrite lookup_insert_ne by congruence. reflexivity.
Qed.

(** X1. [on(event, callback)] adds the callback at the end of the list of
    the event, whether or not it is there already; the lists of the other
    events stay as they are and nothing outside the service is called. The
    next [emit] of the event calls the subscribers that were there, in
    their order, and then the new one, provided none of them throws or
    calls [on] or [off] during the delivery. *)
Theorem on_subscribes (event : string) (callback : Callback) (s : Service) :
  let outcome := on event callback s in
  completion outcome = Normal tt /\
  trace outcome = [] /\
  subscribers (final outcome) event = subscribers s event ++ [callback] /\
  (forall other, other <> event ->
     subscribers (final outcome) other = subscribers s other) /\
  (forall reentry data,
     (forall c, In c (subscribers s event ++ [callback]) ->
                reentry c data = [] /\ cb_call c data = None) ->
     delivered (trace (emit_live reentry event data (final outcome)))
     = map cb_id (subscribers s event) ++ [cb_id callback]).
Proof.
  cbv zeta.
  assert (Hsub : subscribers (final (on event callback s)) event
                 = subscribers s event ++ [callback])
    by (rewrite subscribers_on; now rewrite String.eqb_refl).
  split; [now rewrite on_run|]. split; [now rewrite on_run|]. split; [exact Hsub|]. split.
  - intros other Hne. rewrite subscribers_on.
    destruct (String.eqb_spec other event); [contradiction|reflexivity].
  - intros reentry data Hall.
    rewrite emit_live_no_reentry
      by (rewrite Hsub; intros c Hc; apply (Hall c Hc)).
    rewrite emit_run, Hsub.
    rewrite (call_each_returns (subscribers s event ++ [callback]) event data)
      by (apply List.Forall_forall; intros c Hc; apply (Hall c Hc)).
    cbn [trace snd].
    rewrite delivered_Published, delivered_deliveries, map_app. reflexivity.
Qed.

Lemma off_run (event : string) (callback : Callback) (s : Service) :
  off event callback s =
  (Normal tt,
   match listeners s !! event with
   | None => s
   | Some callbacks =>
       set_listeners (<[event := remove_first (cb_id callback) callbacks]> (listeners s)) s
   end,
   []).
Proof. reflexivity. Qed.

Lemma subscribers_off (event other : string) (callback : Callback) (s : Service) :
  subscribers (final (off event callback s)) other =
  if String.eqb other event then remove_first (cb_id callback) (subscribers s event)
  else subscribers s other.
Proof.
  rewrite off_run. unfold final, subscribers. cbn [fst snd].
  destruct (String.eqb_spec other event) as [->|Hne].
  - destruct (listeners s !! event) as [callbacks|] eqn:E; cbn [listeners set_listeners].
    + now rewrite lookup_insert_eq.
    + now rewrite E.
  - destruct (listeners s !! event) as [callbacks|] eqn:E; cbn [listeners set_listeners];
      [|reflexivity].
    rewrite lookup_insert_ne by congruence. reflexivity.
Qed.

Lemma remove_first_absent (id : nat) (callbacks : list Callback) :
  Forall (fun c => cb_id c <> id) callbacks -> remove_first id callbacks = callbacks.
Proof.
  induction 1 as [|c rest Hc _ IH]; [reflexivity|].
  cbn [remove_first]. apply Nat.eqb_neq in Hc. now rewrite Hc, IH.
Qed.

Lemma remove_first_split (id : nat) (before after : list Callback) (c : Callback) :
  Forall (fun c => cb_id c <> id) before ->
  cb_id c = id ->
  remove_first id (before ++ c :: after) = before ++ after.
Proof.
  intros Hb Hc. induction Hb as [|b rest Hb _ IH]; cbn [app remove_first].
  - now rewrite Hc, Nat.eqb_refl.
  - apply Nat.eqb_neq in Hb. now rewrite Hb, IH.
Qed.

Lemma remove_first_count (id i : nat) (callbacks : list Callback) :
  count_occ Nat.eq_dec (map cb_id (remove_first id callbacks)) i =
  (count_occ Nat.eq_dec (map cb_id callbacks) i - (if Nat.eqb i id then 1 else 0))%nat.
Proof.
  induction callbacks as [|c rest IH]; [reflexivity|].
  cbn [remove_first map]. destruct (Nat.eqb_spec (cb_id c) id) as [Hc|Hc].
  - cbn [count_occ]. destruct (Nat.eq_dec (cb_id c) i) as [E|E];
      destruct (Nat.eqb_spec i id); try congruence; lia.
  - cbn [map count_occ]. rewrite IH.
    destruct (Nat.eq_dec (cb_id c) i) as [E|E];
      destruct (Nat.eqb_spec i id); try congruence; try lia.
Qed.

(** X2. [off] undoes [on]: for a callback that is not yet subscribed to the
    event, [on(event, callback)] followed by [off(event, callback)] leaves
    every event with the subscribers it had, in their order. (For a
    callback subscribed already, [off] takes its earlier registration out
    and the one just added stays, at the end.) *)
Theorem off_undoes_on (event : string) (callback : Callback) (s : Service) :
  Forall (fun c => cb_id c <> cb_id callback) (subscribers s event) ->
  forall other,
    subscribers (final (off event callback (final (on event callback s)))) other
    = subscribers s other.
Proof.
  intros Hnew other. rewrite subscribers_off, !subscribers_on, String.eqb_refl.
  destruct (String.eqb_spec other event) as [->|Hne]; [|reflexivity].
  rewrite (remove_first_split _ _ [] callback Hnew eq_refl). apply app_nil_r.
Qed.

(** X3. [off(event, callback)] takes out one registration of the callback
    for the event, the earliest, and nothing else: the other registrations
    of the same callback and all those of other callbacks stay, in their
    order, as do the lists of the other events; a callback that is not
    subscribed, or an event that has no list, changes nothing. Nothing
    outside the service is called. *)
Theorem off_removes_one_registration (event : string) (callback : Callback) (s : Service) :
  let outcome := off event callback s in
  completion outcome = Normal tt /\
  trace outcome = [] /\
  (forall i,
     count_occ Nat.eq_dec (map cb_id (subscribers (final outcome) event)) i =
     (count_occ Nat.eq_dec (map cb_id (subscribers s event)) i
      - (if Nat.eqb i (cb_id callback) then 1 else 0))%nat) /\
  (forall before c after,
     subscribers s event = before ++ c :: after ->
     Forall (fun c => cb_id c <> cb_id callback) before ->
     cb_id c = cb_id callback ->
     subscribers (final outcome) event = before ++ after) /\
  (Forall (fun c => cb_id c <> cb_id callback) (subscribers s event) ->
   subscribers (final outcome) event = subscribers s event) /\
  (forall other, other <> event ->
     subscribers (final outcome) other = subscribers s other).
Proof.
  cbv zeta. split; [reflexivity|]. split; [reflexivity|].
  split; [|split; [|split]].
  - intros i. rewrite subscribers_off, String.eqb_refl. apply remove_first_count.
  - intros before c after Hs Hb Hc. rewrite subscribers_off, String.eqb_refl, Hs.
    now apply remove_first_split.
  - intros Hnone. rewrite subscribers_off, String.eqb_refl. now apply remove_first_absent.
  - intros other Hne. rewrite subscribers_off.
    destruct (String.eqb_spec other event); [contradiction|reflexivity].
Qed.

End SubscriptionProperties.

(** A fresh service and its first subscriber, as an instance of
    [off_undoes_on]. *)
Lemma off_undoes_on_witness :
  ArduinoService.subscribers
    (ArduinoService.final
       (ArduinoService.off "data" (Samples.quiet_subscriber 1)
          (ArduinoService.final
             (ArduinoService.on "data" (Samples.quiet_subscriber 1)
                (ArduinoService.initial "http://backend"))))) "data"
  = ArduinoService.subscribers (ArduinoService.initial "http://backend") "data".
Proof.
  apply (off_undoes_on "data" (Samples.quiet_subscriber 1)
           (ArduinoService.initial "http://backend")).
  unfold ArduinoService.subscribers, ArduinoService.initial.
  cbn [ArduinoService.listeners]. rewrite lookup_empty. constructor.
Defined.

(** ** The event loop: what no turn changes, and what turns publish *)

Section LoopProperties.

Import ArduinoService.

Variable StringToNumber : string -> float.
Variable NumberToString : float -> string.
Variable toISOString : Z -> string.
Variable JSON_stringify : JSValue -> string.

Local Abbreviation run :=
  (ArduinoService.run StringToNumber NumberToString toISOString JSON_stringify).
Local Abbreviation turn :=
  (ArduinoService.turn StringToNumber NumberToString toISOString JSON_stringify).

Ltac unfold_methods :=
  unfold connect, disconnect, setActivePlant, sendCommand, sendCommand_settled,
    on, off, on_connect, on_connect_error, on_disconnect, on_reconnect,
    on_reconnect_error, on_initData, on_dataUpdate, on_reservoirUpdate,
    on_controlResponse, on_commandIssued, on_commandTimeout, on_connection_timeout.

Ltac keep :=
  repeat
    match goal with
    | |- preserves _ (mret _) => apply preserves_ret
    | |- preserves _ (_ ≫= _) => apply preserves_bind; [|intros ?]
    | |- preserves _ get => apply preserves_get
    | |- preserves _ (tell _) => apply preserves_tell
    | |- preserves _ (throw _) => apply preserves_throw
    | |- preserves _ (lift _) => apply preserves_lift
    | |- preserves _ (emit _ _) => apply preserves_emit
    | |- preserves _ (when _ _) => apply preserves_when
    | |- preserves _ (forEach _ _) => apply preserves_forEach; intros ?
    | |- preserves _ (try_catch _ _) => apply preserves_try_catch; [|intros ?]
    | |- preserves _ (modify _) =>
        apply preserves_modify;
        let H := fresh in
        intros ? H;
        repeat match goal with
               | |- context [match ?x with _ => _ end] => destruct x
               end;
        exact H
    | |- preserves _ (match ?x with _ => _ end) => destruct x
    | |- preserves _ _ =>
        progress unfold fresh, clearConnectionTimeout, handleConnectionError,
          emitCurrentPlantData, read
    | |- preserves _ _ => progress cbv zeta
    end.

Lemma turn_keeps_config (now : Z) (t : Turn) (c : nat * float * string) :
  preserves (fun s => config s = c) (turn now t).
Proof.
  destruct t; cbn [ArduinoService.turn]; unfold_methods; keep.
Qed.

Lemma run_final (now : Z) (t : Turn) (rest : list (Z * Turn)) (s : Service) :
  fst (run ((now, t) :: rest) s) = fst (run rest (final (turn now t s))).
Proof.
  cbn [ArduinoService.run]. unfold final.
  destruct (turn now t s) as [[c s1] t1]. cbn [fst snd].
  destruct (run rest s1). reflexivity.
Qed.

(** X5. The fields that configure the connection are never assigned:
    whatever the event loop runs, [maxReconnectAttempts], [retryDelay] and
    [backendUrl] are what they were, so a service built by the class keeps
    5 attempts and a base delay of 5000 ms for its whole life. *)
Theorem run_keeps_config (turns : list (Z * Turn)) (s : Service) (url : string) :
  let s' := fst (run turns s) in
  maxReconnectAttempts s' = maxReconnectAttempts s /\
  retryDelay s' = retryDelay s /\
  backendUrl s' = backendUrl s /\
  default_config (fst (run turns (initial url))).
Proof.
  cbv zeta.
  assert (H : forall s0, config (fst (run turns s0)) = config s0).
  { induction turns as [|[now t] rest IH]; intros s0; [reflexivity|].
    rewrite run_final, IH. now apply turn_keeps_config. }
  pose proof (H s) as Hs. pose proof (H (initial url)) as Hi.
  unfold config in Hs, Hi. injection Hs as -> -> ->. injection Hi as Hm Hd _.
  unfold default_config. rewrite Hm, Hd. auto.
Qed.

Lemma turn_keeps_listeners (now : Z) (t : Turn) (l : gmap string (list Callback)) :
  subscribes t = false -> preserves (fun s => listeners s = l) (turn now t).
Proof.
  destruct t; try discriminate; intros _; cbn [ArduinoService.turn]; unfold_methods; keep.
Qed.

(** X6. The subscriptions belong to the subscribers: a run of the event
    loop without a call of [on] or [off] leaves every event with the
    subscribers it had. In particular [disconnect()], a failed or exhausted
    connection and a reconnection drop no subscriber. *)
Theorem run_keeps_subscriptions (turns : list (Z * Turn)) (s : Service) :
  Forall (fun step => subscribes (snd step) = false) turns ->
  listeners (fst (run turns s)) = listeners s /\
  forall event, subscribers (fst (run turns s)) event = subscribers s event.
Proof.
  intros Hturns.
  assert (H : listeners (fst (run turns s)) = listeners s).
  { revert s. induction Hturns as [|[now t] rest Ht _ IH]; intros s; [reflexivity|].
    rewrite run_final, IH. now apply turn_keeps_listeners. }
  split; [exact H|]. intros event. unfold subscribers. now rewrite H.
Qed.

(** *** The events a method publishes *)

Lemma publishes_ret (names : list string) {A : Type} (a : A) :
  publishes_only names (mret a : M A).
Proof. intros s. constructor. Qed.

Lemma publishes_bind (names : list string) {A B : Type} (m : M A) (k : A -> M B) :
  publishes_only names m -> (forall a, publishes_only names (k a)) ->
  publishes_only names (m ≫= k).
Proof.
  intros Hm Hk s. rewrite bind_run. specialize (Hm s).
  destruct (m s) as [[[a|e] s1] t1]; unfold trace in *; cbn [fst snd] in *; [|exact Hm].
  specialize (Hk a s1). destruct (k a s1) as [[r s2] t2]. cbn [snd] in *.
  rewrite published_app. apply Forall_app. auto.
Qed.

Lemma publishes_quiet (names : list string) {A : Type} (m : M A) :
  (forall s, published (trace (m s)) = []) -> publishes_only names m.
Proof. intros H s. rewrite H. constructor. Qed.

Lemma publishes_when (names : list string) (b : bool) (m : M unit) :
  publishes_only names m -> publishes_only names (when b m).
Proof. destruct b; [auto|]. intros _. apply publishes_ret. Qed.

Lemma publishes_forEach (names : list string) {A : Type} (l : list A) (f : A -> M unit) :
  (forall x, publishes_only names (f x)) -> publishes_only names (forEach l f).
Proof.
  intros Hf. induction l as [|x rest IH]; cbn [forEach]; [apply publishes_ret|].
  apply publishes_bind; [apply Hf|intros _; exact IH].
Qed.

Lemma publishes_try_catch (names : list string) {A : Type} (m : M A) (h : Exn -> M A) :
  publishes_only names m -> (forall e, publishes_only names (h e)) ->
  publishes_only names (try_catch m h).
Proof.
  intros Hm Hh s. unfold try_catch. specialize (Hm s).
  destruct (m s) as [[[a|e] s1] t1]; unfold trace in *; cbn [fst snd] in *; [exact Hm|].
  specialize (Hh e s1). destruct (h e s1) as [[r s2] t2]. cbn [snd] in *.
  rewrite published_app. apply Forall_app. auto.
Qed.

Lemma publishes_emit (names : list string) (event : string) (data : Payload) :
  In event names -> publishes_only names (emit event data).
Proof.
  intros Hin s. rewrite emit_run.
  destruct (call_each_frame (subscribers s event) event data s) as (r & t & -> & _ & Hp).
  unfold trace. cbn [snd]. rewrite published_Published, Hp. repeat constructor. exact Hin.
Qed.

Ltac publish :=
  repeat
    match goal with
    | |- publishes_only _ (mret _) => apply publishes_ret
    | |- publishes_only _ (_ ≫= _) => apply publishes_bind; [|intros ?]
    | |- publishes_only _ get => apply publishes_quiet; reflexivity
    | |- publishes_only _ (tell _) => apply publishes_quiet; reflexivity
    | |- publishes_only _ (throw _) => apply publishes_quiet; reflexivity
    | |- publishes_only _ (modify _) => apply publishes_quiet; reflexivity
    | |- publishes_only _ (lift ?c) => destruct c; apply publishes_quiet; reflexivity
    | |- publishes_only _ (emit _ _) => apply publishes_emit; cbn; tauto
    | |- publishes_only _ (when _ _) => apply publishes_when
    | |- publishes_only _ (forEach _ _) => apply publishes_forEach; intros ?
    | |- publishes_only _ (try_catch _ _) => apply publishes_try_catch; [|intros ?]
    | |- publishes_only _ (match ?x with _ => _ end) => destruct x
    | |- publishes_only _ _ =>
        progress unfold fresh, clearConnectionTimeout, handleConnectionError,
          emitCurrentPlantData, read
    | |- publishes_only _ _ => progress cbv zeta
    end.

Lemma turn_publishes (now : Z) (t : Turn) : publishes_only events (turn now t).
Proof.
  destruct t; cbn [ArduinoService.turn]; unfold_methods; publish.
Qed.

(** X4. Whatever the event loop runs, the service publishes under seven
    names only: ['connection'], ['error'], ['alert'], ['data'],
    ['reservoir'], ['controlSuccess'] and ['controlError']. *)
Theorem run_publishes_known_events (turns : list (Z * Turn)) (s : Service) :
  Forall (fun event => In event events) (published (snd (run turns s))).
Proof.
  revert s. induction turns as [|[now t] rest IH]; intros s; [constructor|].
  cbn [ArduinoService.run].
  pose proof (turn_publishes now t s) as H. unfold trace in H.
  destruct (turn now t s) as [[c s1] t1]. cbn [snd] in H.
  specialize (IH s1). destruct (run rest s1) as [s2 t2]. cbn [snd] in *.
  rewrite published_app. apply Forall_app. auto.
Qed.

End LoopProperties.

(** Five refused connections and a [disconnect()] on a service with three
    subscribers, as an instance of [run_keeps_subscriptions]. *)
Lemma run_keeps_subscriptions_witness :
  ArduinoService.listeners
    (fst (ArduinoService.run Reference.StringToNumber Reference.NumberToString
            IsoDate.toISOString Reference.JSON_stringify
            (Samples.five_failures ++ [(50000%Z, ArduinoService.CallDisconnect)])
            Samples.three_subscribers))
  = ArduinoService.listeners Samples.three_subscribers.
Proof.
  apply (run_keeps_subscriptions Reference.StringToNumber Reference.NumberToString
           IsoDate.toISOString Reference.JSON_stringify
           (Samples.five_failures ++ [(50000%Z, ArduinoService.CallDisconnect)])
           Samples.three_subscribers).
  repeat constructor.
Defined.

Lemma cleared_deliveries (event : string) (data : ArduinoService.Payload)
    (callbacks : list ArduinoService.Callback) :
  ArduinoService.cleared (ArduinoService.deliveries event data callbacks) = [].
Proof. induction callbacks as [|c rest IH]; [reflexivity|]. exact IH. Qed.

Lemma sent_deliveries (event : string) (data : ArduinoService.Payload)
    (callbacks : list ArduinoService.Callback) :
  ArduinoService.sent (ArduinoService.deliveries event data callbacks) = [].
Proof. induction callbacks as [|c rest IH]; [reflexivity|]. exact IH. Qed.

Lemma disconnected_deliveries (event : string) (data : ArduinoService.Payload)
    (callbacks : list ArduinoService.Callback) :
  ArduinoService.disconnected (ArduinoService.deliveries event data callbacks) = [].
Proof. induction callbacks as [|c rest IH]; [reflexivity|]. exact IH. Qed.

(** The projections of a trace, all of them, pushed through its appends. *)
Ltac calls :=
  unfold ArduinoService.scheduled_retries, ArduinoService.published,
    ArduinoService.sockets_opened, ArduinoService.requests,
    ArduinoService.cleared, ArduinoService.sent, ArduinoService.disconnected;
  repeat first [rewrite omap_append | progress cbn [omap list_omap app]];
  fold ArduinoService.scheduled_retries ArduinoService.published
    ArduinoService.sockets_opened ArduinoService.requests
    ArduinoService.cleared ArduinoService.sent ArduinoService.disconnected;
  rewrite ?scheduled_retries_deliveries, ?published_deliveries,
    ?sockets_opened_deliveries, ?requests_deliveries,
    ?cleared_deliveries, ?sent_deliveries, ?disconnected_deliveries;
  cbn [app].

Lemma is_Some_true {A : Type} (x : A) : bool_decide (is_Some (Some x)) = true.
Proof. apply bool_decide_eq_true_2. eauto. Qed.

Lemma is_Some_false {A : Type} : bool_decide (is_Some (@None A)) = false.
Proof. apply bool_decide_eq_false_2, is_Some_None. Qed.

(** ** The connection, attempt by attempt *)

Section SessionProperties.

Import ArduinoService.

Variable toISOString : Z -> string.

Local Abbreviation on_connect := (ArduinoService.on_connect toISOString).
Local Abbreviation on_reconnect := (ArduinoService.on_reconnect toISOString).

(** X7. When the socket connects, the service is [Connected]: the counter
    of failed attempts is back at 0 and the watchdog is cleared; it
    publishes ['connection'] and ['alert'], in this order, and asks the
    backend for the initial data of both devices. A failure after that is
    a first failure again: with more than one attempt allowed, its retry
    is scheduled after the base delay, [min(retryDelay * 1.5^0, 20000)]. *)
Theorem connect_success_resets_backoff (now : Z) (e : Exn) (s : Service) :
  quiet s ->
  (1 < maxReconnectAttempts s)%nat ->
  let opened := on_connect now s in
  let failed := on_reconnect_error e (final opened) in
  completion opened = Normal tt /\
  connected (final opened) = true /\
  reconnectAttempts (final opened) = 0%nat /\
  connectionTimeout (final opened) = None /\
  cleared (trace opened) = match connectionTimeout s with Some id => [id] | None => [] end /\
  published (trace opened) = ["connection"; "alert"] /\
  sent (trace opened) =
    match socket s with
    | Some _ => [("requestInitialData",
                  VObj [("plantType", VStr (PlantType_str (plantType s)));
                        ("deviceIds", VArr [VStr "esp32_1"; VStr "esp32_2"])])]
    | None => []
    end /\
  connectionState (final opened) = Connected /\
  reconnectAttempts (final failed) = 1%nat /\
  scheduled_retries (trace failed) = [backoffDelay (retryDelay s) 1] /\
  published (trace failed) = ["connection"].
Proof.
  intros Hq Hmax. cbv zeta.
  assert (E : exists s1 t1,
             on_connect now s = (Normal tt, s1, t1) /\
             same_config s s1 /\
             connected s1 = true /\ reconnectAttempts s1 = 0%nat /\
             connectionTimeout s1 = None /\
             cleared t1 = match connectionTimeout s with Some id => [id] | None => [] end /\
             published t1 = ["connection"; "alert"] /\
             sent t1 = match socket s with
                       | Some _ => [("requestInitialData",
                            VObj [("plantType", VStr (PlantType_str (plantType s)));
                                  ("deviceIds", VArr [VStr "esp32_1"; VStr "esp32_2"])])]
                       | None => []
                       end).
  { unfold ArduinoService.on_connect, same_config. meval.
    destruct (connectionTimeout s) eqn:Et; meval; destruct (socket s);
      rewrite ?is_Some_true, ?is_Some_false; meval;
      do 2 eexists; (split; [reflexivity|]); fields; calls; repeat split; auto. }
  destruct E as (s1 & t1 & E & C & Hc & Ha & Ht & Hcl & Hp & Hs).
  rewrite E. unfold completion, final, trace. cbn [fst snd].
  assert (Hq1 : quiet s1) by (eapply quiet_same; [apply C|exact Hq]).
  destruct (handleConnectionError_quiet e s1 Hq1)
    as (s2 & t2 & E2 & C2 & _ & _ & Ha2 & R2 & P2 & _).
  unfold on_reconnect_error. rewrite E2. cbn [fst snd].
  destruct C as (_ & Hm & Hd & _).
  unfold retry_of, events_of in *. rewrite Ha, Hm, Hd in *.
  assert (Hlt : (1 <? maxReconnectAttempts s)%nat = true) by now apply Nat.ltb_lt.
  rewrite Hlt in *.
  repeat split; auto.
  unfold connectionState. now rewrite Hc.
Qed.

(** X8. A ['disconnect'] of the socket always marks the service as not
    connected and publishes ['connection']. It counts as a failed attempt
    only when the reason is ['io server disconnect']: then the counter goes
    up, ['connection'] is published a second time, and a retry is
    scheduled or, the attempts used up, ['error'] is published. For every
    other reason the counter stays and the service schedules nothing. *)
Theorem on_disconnect_counts_server_disconnects (reason : JSValue) (s : Service) :
  quiet s ->
  let outcome := on_disconnect reason s in
  completion outcome = Normal tt /\
  connected (final outcome) = false /\
  if strict_eq_str reason "io server disconnect" then
    reconnectAttempts (final outcome) = S (reconnectAttempts s) /\
    scheduled_retries (trace outcome) = retry_of s /\
    published (trace outcome) = "connection" :: events_of s
  else
    reconnectAttempts (final outcome) = reconnectAttempts s /\
    scheduled_retries (trace outcome) = [] /\
    published (trace outcome) = ["connection"].
Proof.
  intros Hq. cbv zeta. unfold on_disconnect.
  destruct (strict_eq_str reason "io server disconnect").
  - unfold handleConnectionError, retry_of, events_of. meval.
    destruct (S (reconnectAttempts s) <? maxReconnectAttempts s)%nat; meval; calls;
      repeat split.
  - meval. calls. repeat split.
Qed.

(** X9. [disconnect()] does not cancel a scheduled retry. After a failed
    attempt that scheduled one, [disconnect()] clears no timer (the handle
    of the retry was not kept, and the watchdog was cleared by the
    failure); it resets the counter, so when the retry fires its
    [connect()] finds attempts left and opens a socket again. *)
Theorem disconnect_keeps_retry (e : Exn) (s : Service) :
  quiet s ->
  (S (reconnectAttempts s) < maxReconnectAttempts s)%nat ->
  let failed := on_connect_error e s in
  let stopped := disconnect (final failed) in
  let retried := connect IoReturns (final stopped) in
  scheduled_retries (trace failed)
  = [backoffDelay (retryDelay s) (S (reconnectAttempts s))] /\
  cleared (trace stopped) = [] /\
  reconnectAttempts (final stopped) = 0%nat /\
  completion retried = Normal Pending /\
  length (sockets_opened (trace retried)) = 1%nat /\
  is_Some (socket (final retried)).
Proof.
  intros Hq Hlt. cbv zeta.
  assert (Hb : (S (reconnectAttempts s) <? maxReconnectAttempts s)%nat = true)
    by now apply Nat.ltb_lt.
  assert (E1 : exists s1 t1,
             on_connect_error e s = (Normal tt, s1, t1) /\
             same_config s s1 /\ connectionTimeout s1 = None /\
             scheduled_retries t1
             = [backoffDelay (retryDelay s) (S (reconnectAttempts s))]).
  { unfold on_connect_error, handleConnectionError, same_config. meval.
    destruct (connectionTimeout s) eqn:Et; meval; rewrite Hb; meval;
      do 2 eexists; (split; [reflexivity|]); fields; calls; repeat split; auto. }
  destruct E1 as (s1 & t1 & E1 & C1 & Ht1 & R1).
  replace (final (on_connect_error e s)) with s1 by (rewrite E1; reflexivity).
  replace (trace (on_connect_error e s)) with t1 by (rewrite E1; reflexivity).
  assert (Hq1 : quiet s1) by (eapply quiet_same; [apply C1|exact Hq]).
  assert (E2 : exists s2 t2,
             disconnect s1 = (Normal tt, s2, t2) /\
             same_config s1 s2 /\ reconnectAttempts s2 = 0%nat /\ cleared t2 = []).
  { unfold disconnect, same_config. meval. rewrite Ht1. meval.
    destruct (socket s1) eqn:Es; meval;
      do 2 eexists; (split; [reflexivity|]); fields; calls; repeat split; auto. }
  destruct E2 as (s2 & t2 & E2 & C2 & Ha2 & Hcl).
  replace (final (disconnect s1)) with s2 by (rewrite E2; reflexivity).
  replace (trace (disconnect s1)) with t2 by (rewrite E2; reflexivity).
  assert (Hlt2 : (reconnectAttempts s2 < maxReconnectAttempts s2)%nat).
  { destruct C1 as (_ & Hm1 & _), C2 as (_ & Hm2 & _). rewrite Ha2, Hm2, Hm1. lia. }
  destruct (connect_starts s2 Hlt2) as (s3 & t3 & h & E3 & _ & Hs3 & _ & _ & _ & _ & O3).
  rewrite E3. unfold completion, final, trace. cbn [fst snd]. rewrite O3, Hs3.
  repeat split; auto.
Qed.

(** X10. [connect()] does not close the socket it replaces. With attempts
    left it opens one socket and holds it, clears the watchdog that was
    pending and starts a new one of 20 s, and disconnects nothing: the
    socket the service held before, if any, is dropped as it is. *)
Theorem connect_leaves_old_socket (s : Service) :
  (reconnectAttempts s < maxReconnectAttempts s)%nat ->
  let outcome := connect IoReturns s in
  completion outcome = Normal Pending /\
  disconnected (trace outcome) = [] /\
  cleared (trace outcome) = match connectionTimeout s with Some id => [id] | None => [] end /\
  exists h id,
    sockets_opened (trace outcome) = [h] /\
    socket (final outcome) = Some h /\
    connectionTimeout (final outcome) = Some id /\
    In (SetTimeout id ConnectionWatchdog 20000) (trace outcome).
Proof.
  intros Hlt. cbv zeta.
  assert (Hle : (maxReconnectAttempts s <=? reconnectAttempts s)%nat = false)
    by (apply Nat.leb_gt; exact Hlt).
  unfold connect. meval.
  destruct (connectionTimeout s); meval; rewrite Hle; meval; calls;
    (repeat split; [do 2 eexists; repeat split; cbn [In]; auto 10]).
Qed.

(** X11. The socket's own ['reconnect'] takes the service out of any
    state, [Failed] included: it is [Connected] with the counter at 0, and
    has published ['connection'] and ['alert'], without a call of
    [connect()], a new socket or a request for the initial data. The
    handler does not clear the watchdog; a watchdog left pending does
    nothing when it fires, as the service is connected. *)
Theorem reconnect_recovers (now : Z) (s : Service) :
  quiet s ->
  let outcome := on_reconnect now s in
  completion outcome = Normal tt /\
  connectionState (final outcome) = Connected /\
  reconnectAttempts (final outcome) = 0%nat /\
  published (trace outcome) = ["connection"; "alert"] /\
  sockets_opened (trace outcome) = [] /\
  sent (trace outcome) = [] /\
  cleared (trace outcome) = [] /\
  connectionTimeout (final outcome) = connectionTimeout s /\
  on_connection_timeout (final outcome) = (Normal tt, final outcome, []).
Proof.
  intros Hq. cbv zeta.
  assert (E : exists s1 t1,
             on_reconnect now s = (Normal tt, s1, t1) /\
             connected s1 = true /\ reconnectAttempts s1 = 0%nat /\
             connectionTimeout s1 = connectionTimeout s /\
             published t1 = ["connection"; "alert"] /\
             sockets_opened t1 = [] /\ sent t1 = [] /\ cleared t1 = []).
  { unfold ArduinoService.on_reconnect. meval.
    do 2 eexists; (split; [reflexivity|]); fields; calls; repeat split. }
  destruct E as (s1 & t1 & E & Hc & Ha & Ht & Hp & Ho & Hs & Hcl).
  rewrite E. unfold completion, final, trace. cbn [fst snd].
  repeat split; auto.
  - unfold connectionState. now rewrite Hc.
  - unfold on_connection_timeout. rewrite bind_run. cbn [get].
    destruct (socket s1); [rewrite Hc|]; reflexivity.
Qed.

End SessionProperties.

(** The fresh service, as an instance of [connect_success_resets_backoff]. *)
Lemma connect_success_resets_backoff_witness :
  ArduinoService.scheduled_retries
    (ArduinoService.trace
       (ArduinoService.on_reconnect_error Samples.refused
          (ArduinoService.final
             (ArduinoService.on_connect IsoDate.toISOString 2000
                (ArduinoService.initial "http://backend")))))
  = [ArduinoService.backoffDelay 5000 1].
Proof.
  pose proof (connect_success_resets_backoff IsoDate.toISOString 2000 Samples.refused
                (ArduinoService.initial "http://backend")
                (quiet_initial "http://backend")
                (le_S _ _ (le_S _ _ (le_S _ _ (le_n 2))))) as H.
  cbv zeta in H. exact (proj1 (proj2 (proj2 (proj2 (proj2 (proj2 (proj2 (proj2 (proj2
    (proj2 H)))))))))).
Defined.

(** The fresh service and a disconnection by the server, as an instance of
    [on_disconnect_counts_server_disconnects]. *)
Lemma on_disconnect_counts_server_disconnects_witness :
  ArduinoService.connected
    (ArduinoService.final
       (ArduinoService.on_disconnect (VStr "io server disconnect")
          (ArduinoService.initial "http://backend"))) = false.
Proof.
  pose proof (on_disconnect_counts_server_disconnects (VStr "io server disconnect")
                (ArduinoService.initial "http://backend")
                (quiet_initial "http://backend")) as H.
  cbv zeta in H. exact (proj1 (proj2 H)).
Defined.

(** A refused connection of the fresh service, as an instance of
    [disconnect_keeps_retry]. *)
Lemma disconnect_keeps_retry_witness :
  ArduinoService.cleared
    (ArduinoService.trace
       (ArduinoService.disconnect
          (ArduinoService.final
             (ArduinoService.on_connect_error Samples.refused
                (ArduinoService.initial "http://backend"))))) = [] /\
  ArduinoService.completion
    (ArduinoService.connect ArduinoService.IoReturns
       (ArduinoService.final
          (ArduinoService.disconnect
             (ArduinoService.final
                (ArduinoService.on_connect_error Samples.refused
                   (ArduinoService.initial "http://backend"))))))
  = Normal ArduinoService.Pending.
Proof.
  pose proof (disconnect_keeps_retry Samples.refused
                (ArduinoService.initial "http://backend")
                (quiet_initial "http://backend")
                (le_S _ _ (le_S _ _ (le_S _ _ (le_n 2))))) as H.
  cbv zeta in H. destruct H as (_ & H2 & _ & H4 & _). split; [exact H2|exact H4].
Defined.

(** A second [connect()] on the service that holds a socket, as an instance
    of [connect_leaves_old_socket]. *)
Lemma connect_leaves_old_socket_witness :
  ArduinoService.disconnected
    (ArduinoService.trace
       (ArduinoService.connect ArduinoService.IoReturns Samples.connected_service)) = [].
Proof.
  pose proof (connect_leaves_old_socket Samples.connected_service
                (le_S _ _ (le_S _ _ (le_S _ _ (le_S _ _ (le_n 1)))))) as H.
  cbv zeta in H. exact (proj1 (proj2 H)).
Defined.

(** The service after five refused connections, as an instance of
    [reconnect_recovers]: it was [Failed] and is [Connected]. *)
Lemma reconnect_recovers_witness :
  ArduinoService.connectionState Samples.after_five_failures = ArduinoService.Failed /\
  ArduinoService.connectionState
    (ArduinoService.final
       (ArduinoService.on_reconnect IsoDate.toISOString 50000 Samples.after_five_failures))
  = ArduinoService.Connected.
Proof.
  pose proof (reconnect_recovers IsoDate.toISOString 50000 Samples.after_five_failures
                quiet_after_five_failures) as H.
  cbv zeta in H. split; [reflexivity|exact (proj1 (proj2 H))].
Defined.

(** ** The active plant and the commands *)

Section CommandProperties.

Import ArduinoService.

Variable NumberToString : float -> string.
Variable toISOString : Z -> string.
Variable JSON_stringify : JSValue -> string.

Local Abbreviation setActivePlant := (ArduinoService.setActivePlant toISOString).
Local Abbreviation on_commandIssued :=
  (ArduinoService.on_commandIssued NumberToString toISOString).
Local Abbreviation on_commandTimeout :=
  (ArduinoService.on_commandTimeout NumberToString toISOString).
Local Abbreviation sendCommand_settled :=
  (ArduinoService.sendCommand_settled JSON_stringify).

Lemma call_each_publications (callbacks : list Callback) (event : string) (data : Payload)
    (s : Service) :
  publications (trace (call_each callbacks event data s)) = [] /\
  sent (trace (call_each callbacks event data s)) = [] /\
  requests (trace (call_each callbacks event data s)) = [].
Proof.
  induction callbacks as [|c rest IH]; [repeat split|].
  cbn [call_each]. rewrite bind_run. cbn [tell].
  destruct (cb_call c data) as [e|]; [repeat split|].
  destruct (call_each rest event data s) as [[r s1] t1]. exact IH.
Qed.

(** What [emit] adds to a trace, whatever the subscribers do. *)
Lemma emit_publication (event : string) (data : Payload) (s : Service) :
  exists r t,
    emit event data s = (r, s, Published event data :: t) /\
    publications t = [] /\ sent t = [] /\ requests t = [].
Proof.
  rewrite emit_run.
  pose proof (call_each_publications (subscribers s event) event data s) as H.
  destruct (call_each_frame (subscribers s event) event data s) as (r & t & E & _).
  rewrite E in *. unfold trace in H. cbn [snd] in H. do 2 eexists. split; [reflexivity|exact H].
Qed.

Lemma emitCurrentPlantData_run (now : Z) (s : Service) :
  exists r t,
    emitCurrentPlantData toISOString now s =
    (r, s,
     match combinedData (currentSensorData s !! "esp32_1") (currentSensorData s !! "esp32_2")
             (plantType s) (toISOString now) with
     | Some combined => Published "data" (PSensor combined) :: t
     | None => []
     end) /\
    publications t = [] /\ sent t = [] /\ requests t = [].
Proof.
  unfold emitCurrentPlantData. rewrite bind_run. cbn [get].
  destruct (combinedData _ _ _ _) as [combined|].
  - destruct (emit_publication "data" (PSensor combined) s) as (r & t & -> & H).
    exists r, t. split; [reflexivity|exact H].
  - exists (Normal tt), []. repeat split.
Qed.

Lemma setActivePlant_run (now : Z) (type : PlantType) (s : Service) :
  exists r t,
    setActivePlant now type s =
    (r, set_plantType type s,
     (if bool_decide (is_Some (socket s)) && connected s
      then [SocketEmit "setPlantType" (VObj [("plantType", VStr (PlantType_str type))])]
      else [])
     ++ match combinedData (currentSensorData s !! "esp32_1")
                (currentSensorData s !! "esp32_2") type (toISOString now) with
        | Some combined => Published "data" (PSensor combined) :: t
        | None => []
        end) /\
    publications t = [] /\ sent t = [] /\ requests t = [].
Proof.
  unfold ArduinoService.setActivePlant.
  rewrite bind_run. cbn [modify]. rewrite bind_run. cbn [get]. rewrite bind_run. fields.
  destruct (emitCurrentPlantData_run now (set_plantType type s)) as (r & t & E & H).
  exists r, t. split; [|exact H].
  destruct (bool_decide (is_Some (socket s)) && connected s);
    cbn [when tell mret M_ret]; rewrite E; reflexivity.
Qed.

(** X12. [setActivePlant(type)] assigns the plant and nothing else: the
    cache, the store and the actuator flags stay, so [getHistoricalData()]
    then gives the buffer of the new plant. It tells the backend
    (['setPlantType']) only when the service is connected and holds a
    socket, and it publishes ['data'] once, with the reading combined for
    the new plant, when a reading of esp32_1 or esp32_2 is cached, and not
    at all when none is. *)
Theorem setActivePlant_switches (now : Z) (type : PlantType) (s : Service) :
  let outcome := setActivePlant now type s in
  final outcome = set_plantType type s /\
  getHistoricalData (final outcome) = default [] (historicalData s !! PlantType_str type) /\
  sent (trace outcome) =
    (if bool_decide (is_Some (socket s)) && connected s
     then [("setPlantType", VObj [("plantType", VStr (PlantType_str type))])] else []) /\
  publications (trace outcome) =
    match combinedData (currentSensorData s !! "esp32_1") (currentSensorData s !! "esp32_2")
            type (toISOString now) with
    | Some combined => [("data", PSensor combined)]
    | None => []
    end.
Proof.
  cbv zeta. destruct (setActivePlant_run now type s) as (r & t & -> & Hp & Hs & _).
  unfold final, trace. cbn [fst snd]. split; [reflexivity|]. split; [reflexivity|].
  unfold publications, sent in *. rewrite !omap_append.
  destruct (bool_decide (is_Some (socket s)) && connected s),
    (combinedData _ _ type _); cbn [omap list_omap app]; rewrite ?Hp, ?Hs; auto.
Qed.

(** X13. A command goes to the device of the active plant. On a connected
    service, [sendCommand(action)] after [setActivePlant(type)] makes one
    POST to [backendUrl + '/send-command'] whose body names esp32_1 for
    level1 and esp32_2 for level2, the action as command, value 1,
    duration 3000 and the plant; it publishes nothing and changes nothing
    before the response. *)
Theorem sendCommand_targets_active_plant
    (now : Z) (type : PlantType) (action : ControlAction) (s : Service) :
  connected s = true ->
  is_Some (socket s) ->
  let outcome := sendCommand action (final (setActivePlant now type s)) in
  completion outcome = Normal Awaiting /\
  final outcome = set_plantType type s /\
  publications (trace outcome) = [] /\
  requests (trace outcome) =
    [(backendUrl s +:+ "/send-command",
      VObj [("deviceId", VStr (device_of type));
            ("command", VStr (ControlAction_str action));
            ("value", VNum 1);
            ("duration", VNum 3000);
            ("plantType", VStr (PlantType_str type))])].
Proof.
  intros Hc [h Hs]. cbv zeta.
  replace (final (setActivePlant now type s)) with (set_plantType type s)
    by (destruct (setActivePlant_run now type s) as (r & t & -> & _); reflexivity).
  assert (E : sendCommand action (set_plantType type s) =
              (Normal Awaiting, set_plantType type s,
               [Fetch (backendUrl s +:+ "/send-command")
                  (VObj [("deviceId", VStr (device_of type));
                         ("command", VStr (ControlAction_str action));
                         ("value", VNum 1);
                         ("duration", VNum 3000);
                         ("plantType", VStr (PlantType_str type))])])).
  { unfold sendCommand. rewrite bind_run. cbn [get]. fields.
    rewrite Hc, Hs, is_Some_true. cbn [negb orb]. rewrite bind_run. cbn [tell mret M_ret].
    destruct type; reflexivity. }
  rewrite E. repeat split.
Qed.

(** X14. How [sendCommand] ends once the request has ended, with
    subscribers that do not throw. It returns [true] exactly when a
    response came, was [ok] and its body was read; then it publishes
    nothing and flips [wateringActive] for ['water'], [lightActive] for
    ['light'], and neither for ['nutrients']. In every other case (the
    request failed, the response was not [ok], or a body could not be read)
    it returns [false], publishes ['controlError'] once and leaves both
    flags. It never ends in an exception and makes no further request. *)
Theorem sendCommand_settled_outcome
    (action : ControlAction) (outcome : FetchOutcome) (s : Service) :
  quiet s ->
  let result := sendCommand_settled action outcome s in
  completion result = Normal (succeeded outcome) /\
  published (trace result) = (if succeeded outcome then [] else ["controlError"]) /\
  requests (trace result) = [] /\
  wateringActive (final result) =
    (if succeeded outcome
     then match action with water => negb (wateringActive s) | _ => wateringActive s end
     else wateringActive s) /\
  lightActive (final result) =
    (if succeeded outcome
     then match action with light => negb (lightActive s) | _ => lightActive s end
     else lightActive s).
Proof.
  intros Hq. cbv zeta. unfold ArduinoService.sendCommand_settled, try_catch, succeeded.
  destruct outcome as [error|[|] [body|error]]; cbn [lift throw].
  - meval. calls. repeat split.
  - destruct action; meval; repeat split.
  - meval. calls. repeat split.
  - rewrite bind_run. cbn [mret M_ret]. unfold read.
    destruct (nullish body); meval; calls; repeat split.
  - meval. calls. repeat split.
Qed.

Lemma ToBoolean_or_false (v : JSValue) : ToBoolean (js_or v (VBool false)) = ToBoolean v.
Proof. unfold js_or. destruct (ToBoolean v) eqn:E; [exact E|reflexivity]. Qed.

Lemma strict_eq_str_inj (v : JSValue) (a b : string) :
  strict_eq_str v a = true -> a <> b -> strict_eq_str v b = false.
Proof.
  destruct v; try discriminate. cbn [strict_eq_str]. intros Ha Hne.
  apply String.eqb_eq in Ha as ->. now apply String.eqb_neq.
Qed.

(** X15. The ['controlResponse'] handler takes the actuator state from
    the response before it looks at [success]: for the action ['water']
    [wateringActive] becomes the truth value of [response.active], for
    ['light'] [lightActive] does, also when the response reports a failure;
    other actions leave both flags. It then publishes the response itself,
    once, as ['controlSuccess'] when [response.success] is truthy and as
    ['controlError'] otherwise. A [null] or [undefined] response ends the
    handler in a TypeError with nothing changed and nothing published. *)
Theorem on_controlResponse_updates_flags (response : JSValue) (s : Service) :
  let outcome := on_controlResponse response s in
  let action := getProp response "action" in
  let active := ToBoolean (getProp response "active") in
  if nullish response then
    (exists message, completion outcome = Throw (JSError message)) /\
    final outcome = s /\ trace outcome = []
  else
    wateringActive (final outcome) =
      (if strict_eq_str action "water" then active else wateringActive s) /\
    lightActive (final outcome) =
      (if strict_eq_str action "light" then active else lightActive s) /\
    publications (trace outcome) =
      [(if ToBoolean (getProp response "success") then "controlSuccess" else "controlError",
        PJS response)].
Proof.
  cbv zeta. unfold on_controlResponse, read. rewrite bind_run.
  destruct (nullish response); [cbn; eauto|].
  cbn [mret M_ret]. rewrite bind_run.
  assert (E : forall s0,
             exists r t,
               (if ToBoolean (getProp response "success")
                then emit "controlSuccess" (PJS response)
                else emit "controlError" (PJS response)) s0
               = (r, s0,
                  Published (if ToBoolean (getProp response "success")
                             then "controlSuccess" else "controlError") (PJS response) :: t)
               /\ publications t = []).
  { intros s0. destruct (ToBoolean (getProp response "success"));
      [destruct (emit_publication "controlSuccess" (PJS response) s0) as (r & t & E & H & _)
      |destruct (emit_publication "controlError" (PJS response) s0) as (r & t & E & H & _)];
      eauto. }
  destruct (strict_eq_str (getProp response "action") "water") eqn:Hw.
  - rewrite (strict_eq_str_inj _ _ "light" Hw) by discriminate.
    cbn [modify]. rewrite ToBoolean_or_false.
    match goal with |- context [_ ?s1] =>
      match s1 with set_wateringActive _ _ =>
        destruct (E s1) as (r & t & -> & Hp) end end.
    unfold final, trace, publications in *. cbn [fst snd app omap list_omap].
    rewrite Hp. repeat split.
  - destruct (strict_eq_str (getProp response "action") "light") eqn:Hl.
    + cbn [modify]. rewrite ToBoolean_or_false.
      match goal with |- context [_ ?s1] =>
        match s1 with set_lightActive _ _ =>
          destruct (E s1) as (r & t & -> & Hp) end end.
      unfold final, trace, publications in *. cbn [fst snd app omap list_omap].
      rewrite Hp. repeat split.
    + cbn [mret M_ret]. destruct (E s) as (r & t & -> & Hp).
      unfold final, trace, publications in *. cbn [fst snd app omap list_omap].
      rewrite Hp. repeat split.
Qed.

(** A value that no string conversion prints is no string. *)
Lemma unprintable_not_string (v : JSValue) (lit : string) :
  JS.ToString NumberToString v = None -> strict_eq_str v lit = false.
Proof. destruct v; try discriminate; reflexivity. Qed.

(** X16. The handlers of the backend's command events, on a command whose
    name converts to a string (any primitive, or an object without an own
    [toString]). ['commandIssued'] sets [wateringActive] to the truth value
    of [command.value] for the command ['water_pump'], sets [lightActive]
    for ['light_on'] and clears it for ['light_off'], leaves both flags for
    any other command, and publishes ['controlSuccess'] once, with the
    action [mapCommandToAction] gives and the name in the message.
    ['commandTimeout'] changes nothing and publishes ['controlError'] once.
    A name without a primitive value ends either handler in the TypeError
    of the conversion, and a [null] or [undefined] command in the TypeError
    of the property read, with nothing changed and nothing published. *)
Theorem command_events_update_flags (now : Z) (command : JSValue) (s : Service) :
  let issued := on_commandIssued now command s in
  let timed_out := on_commandTimeout now command s in
  let name := getProp command "command" in
  if nullish command then
    (exists message, completion issued = Throw (JSError message)) /\
    final issued = s /\ trace issued = [] /\
    (exists message, completion timed_out = Throw (JSError message)) /\
    final timed_out = s /\ trace timed_out = []
  else
    match JS.ToString NumberToString name with
    | None =>
        completion issued = Throw cannot_convert /\
        final issued = s /\ trace issued = [] /\
        completion timed_out = Throw cannot_convert /\
        final timed_out = s /\ trace timed_out = []
    | Some text =>
        exists action,
          mapCommandToAction NumberToString name = Normal action /\
          wateringActive (final issued) =
            (if strict_eq_str name "water_pump" then ToBoolean (getProp command "value")
             else wateringActive s) /\
          lightActive (final issued) =
            (if strict_eq_str name "light_on" then true
             else if strict_eq_str name "light_off" then false
             else lightActive s) /\
          publications (trace issued) =
            [("controlSuccess",
              PCommand action true (text +:+ " command executed successfully")
                (toISOString now))] /\
          final timed_out = s /\
          publications (trace timed_out) =
            [("controlError",
              PCommand action false (text +:+ " command timed out") (toISOString now))]
    end.
Proof.
  cbv zeta. unfold ArduinoService.on_commandIssued, ArduinoService.on_commandTimeout, read.
  rewrite !bind_run.
  destruct (nullish command); [cbn; eauto 10|].
  cbn [mret M_ret]. rewrite !bind_run.
  set (name := getProp command "command").
  destruct (JS.ToString NumberToString name) as [text|] eqn:Etext.
  - assert (Hmap : exists action, mapCommandToAction NumberToString name = Normal action).
    { unfold mapCommandToAction. rewrite Etext. cbn [converted mbind Completion_bind].
      eexists. reflexivity. }
    destruct Hmap as (action & Hmap). exists action. split; [exact Hmap|].
    assert (P : forall event data s0, exists r t,
              emit event data s0 = (r, s0, Published event data :: t) /\
              publications t = []).
    { intros event data s0.
      destruct (emit_publication event data s0) as (r & t & E & Hp & _). eauto. }
    assert (Hissued : forall s0 : Service, exists r t,
              (lift (mapCommandToAction NumberToString name) ≫= fun action =>
                 lift (converted (Some text)) ≫= fun text =>
                   emit "controlSuccess"
                     (PCommand action true (text +:+ " command executed successfully")
                        (toISOString now))) s0
              = (r, s0,
                 Published "controlSuccess"
                   (PCommand action true (text +:+ " command executed successfully")
                      (toISOString now)) :: t) /\
              publications t = []).
    { intros s0. rewrite bind_run, Hmap. cbn [lift mret M_ret]. rewrite bind_run.
      cbn [converted lift mret M_ret].
      match goal with |- context [emit ?e ?d ?s1] =>
        destruct (P e d s1) as (r & t & -> & Hp) end.
      eauto. }
    split; [|split; [|split; [|split]]].
    + destruct (strict_eq_str name "water_pump") eqn:Hw; cbn [modify].
      * match goal with |- context [(_ ≫= _) ?s1] =>
          destruct (Hissued s1) as (r & t & E & _) end.
        rewrite E. reflexivity.
      * destruct (strict_eq_str name "light_on" || strict_eq_str name "light_off");
          cbn [modify mret M_ret];
          match goal with |- context [(_ ≫= _) ?s1] =>
            destruct (Hissued s1) as (r & t & E & _) end;
          rewrite E; reflexivity.
    + destruct (strict_eq_str name "water_pump") eqn:Hw; cbn [modify].
      * rewrite (strict_eq_str_inj _ _ "light_on" Hw) by discriminate.
        rewrite (strict_eq_str_inj _ _ "light_off" Hw) by discriminate.
        match goal with |- context [(_ ≫= _) ?s1] =>
          destruct (Hissued s1) as (r & t & E & _) end.
        rewrite E. reflexivity.
      * destruct (strict_eq_str name "light_on") eqn:Hon; cbn [orb modify mret M_ret].
        -- match goal with |- context [(_ ≫= _) ?s1] =>
             destruct (Hissued s1) as (r & t & E & _) end.
           rewrite E. reflexivity.
        -- destruct (strict_eq_str name "light_off") eqn:Hoff; cbn [modify mret M_ret];
             match goal with |- context [(_ ≫= _) ?s1] =>
               destruct (Hissued s1) as (r & t & E & _) end;
             rewrite E; reflexivity.
    + destruct (strict_eq_str name "water_pump");
        [|destruct (strict_eq_str name "light_on" || strict_eq_str name "light_off")];
        cbn [modify mret M_ret];
        match goal with |- context [(_ ≫= _) ?s1] =>
          destruct (Hissued s1) as (r & t & E & Hp) end;
        rewrite E;
        unfold trace, publications in *; cbn [snd app omap list_omap]; now rewrite Hp.
    + rewrite Hmap. cbn [lift mret M_ret]. rewrite bind_run.
      cbn [converted lift mret M_ret].
      match goal with |- context [emit ?e ?d ?s1] => destruct (P e d s1) as (r & t & -> & _) end.
      reflexivity.
    + rewrite Hmap. cbn [lift mret M_ret]. rewrite bind_run.
      cbn [converted lift mret M_ret].
      match goal with |- context [emit ?e ?d ?s1] => destruct (P e d s1) as (r & t & -> & Hp) end.
      unfold trace, publications in *; cbn [snd app omap list_omap]; now rewrite Hp.
  - rewrite !(unprintable_not_string name _ Etext). cbn [orb mret M_ret].
    unfold mapCommandToAction. rewrite Etext.
    cbn [converted mbind Completion_bind lift throw]. repeat split.
Qed.

End CommandProperties.

(** A ['commandIssued'] whose command has no primitive value, run on the
    fresh service: the handler ends in the TypeError of the conversion and
    publishes nothing. *)
Example on_commandIssued_unprintable :
  ArduinoService.on_commandIssued Reference.NumberToString IsoDate.toISOString 1000
    (VObj [("command", Samples.unprintable)]) (ArduinoService.initial "http://backend")
  = (Throw cannot_convert, ArduinoService.initial "http://backend", []).
Proof. reflexivity. Qed.

(** A command named as a member that objects inherit: the action is that
    member, not the name. *)
Example mapCommandToAction_inherited :
  ArduinoService.mapCommandToAction Reference.NumberToString (VStr "constructor")
  = Normal (ArduinoService.InheritedMember "constructor") /\
  ArduinoService.mapCommandToAction Reference.NumberToString (VStr "led")
  = Normal (ArduinoService.ActionValue (VStr "light")) /\
  ArduinoService.mapCommandToAction Reference.NumberToString (VStr "fan")
  = Normal (ArduinoService.ActionValue (VStr "fan")).
Proof. repeat split. Qed.

(** The connected service switched to level2, as an instance of
    [sendCommand_targets_active_plant]. *)
Lemma sendCommand_targets_active_plant_witness :
  ArduinoService.requests
    (ArduinoService.trace
       (ArduinoService.sendCommand water
          (ArduinoService.final
             (ArduinoService.setActivePlant IsoDate.toISOString 3000 level2
                Samples.connected_service))))
  = [("http://backend/send-command",
      VObj [("deviceId", VStr "esp32_2"); ("command", VStr "water"); ("value", VNum 1);
            ("duration", VNum 3000); ("plantType", VStr "level2")])].
Proof.
  pose proof (sendCommand_targets_active_plant IsoDate.toISOString 3000 level2 water
                Samples.connected_service eq_refl (ex_intro _ 1%nat eq_refl)) as H.
  cbv zeta in H. exact (proj2 (proj2 (proj2 H))).
Defined.

(** A rejected request on the fresh service, as an instance of
    [sendCommand_settled_outcome]. *)
Lemma sendCommand_settled_outcome_witness :
  ArduinoService.completion
    (ArduinoService.sendCommand_settled Reference.JSON_stringify water
       (ArduinoService.FetchRejects (JSError "Failed to fetch"))
       (ArduinoService.initial "http://backend")) = Normal false.
Proof.
  pose proof (sendCommand_settled_outcome Reference.JSON_stringify water
                (ArduinoService.FetchRejects (JSError "Failed to fetch"))
                (ArduinoService.initial "http://backend")
                (quiet_initial "http://backend")) as H.
  cbv zeta in H. exact (proj1 H).
Defined.

(** ** The normalizer and the combiner at the edges *)

Section NormalizerEdges.

Variable StringToNumber : string -> float.
Variable NumberToString : float -> string.

Local Abbreviation safeNumber := (Normalizer.safeNumber StringToNumber NumberToString).
Local Abbreviation validateSensorData :=
  (Normalizer.validateSensorData StringToNumber NumberToString).
Local Abbreviation convertible := (Normalizer.convertible StringToNumber NumberToString).

(** X19. When the normalizer throws. On [null] and [undefined] its first
    read, [data.npk], is a TypeError. On any other payload it throws only
    the TypeError of a conversion, and only when one of the source values
    it may convert has no primitive value (an object with an own
    [toString], or an array that holds one); it returns a reading whenever
    all of them convert, and it does throw when the temperature or the
    humidity, which are always converted, has none. A payload without
    properties (the empty object or array, the empty string, a number, a
    boolean) gives the reading of all fallbacks: temperature 20, humidity
    50, zeros, the instant of the call as timestamp. *)
Theorem validateSensorData_edge_payloads
    (deviceId : JSValue) (plantType : PlantType) (now : string) :
  (forall data,
     nullish data = true ->
     exists message,
       validateSensorData data deviceId plantType now = Throw (JSError message) /\
       JSError message <> cannot_convert) /\
  (forall data e,
     nullish data = false ->
     validateSensorData data deviceId plantType now = Throw e ->
     e = cannot_convert /\
     exists v, In v (Normalizer.sources data) /\ convertible v = false) /\
  (forall data,
     nullish data = false ->
     Forall (fun v => convertible v = true) (Normalizer.sources data) ->
     exists r, validateSensorData data deviceId plantType now = Normal r) /\
  (forall data,
     nullish data = false ->
     convertible (getProp data "temperature") = false \/
     convertible (getProp data "humidity") = false ->
     validateSensorData data deviceId plantType now = Throw cannot_convert) /\
  (forall data,
     In data [VObj []; VArr []; VStr ""] \/ (exists n, data = VNum n) \/ (exists b, data = VBool b) ->
     validateSensorData data deviceId plantType now = Normal (Normalizer.fallbacks deviceId now)).
Proof.
  assert (Hthrow : forall data e,
            nullish data = false ->
            validateSensorData data deviceId plantType now = Throw e ->
            e = cannot_convert /\
            exists v, In v (Normalizer.sources data) /\ convertible v = false).
  { intros data e Hnull He.
    pose proof (validateSensorData_outcome StringToNumber NumberToString
                  data deviceId plantType now Hnull) as H.
    rewrite He in H. exact H. }
  split; [|split; [exact Hthrow|split; [|split]]].
  - intros data Hnull. unfold Normalizer.validateSensorData. rewrite Hnull.
    eexists. split; [reflexivity|discriminate].
  - intros data Hnull Hall.
    destruct (validateSensorData data deviceId plantType now) as [r|e] eqn:E; [eauto|].
    destruct (Hthrow data e Hnull E) as (_ & v & Hin & Hv).
    rewrite List.Forall_forall in Hall. rewrite (Hall v Hin) in Hv. discriminate Hv.
  - intros data Hnull Hbad.
    destruct (validateSensorData data deviceId plantType now) as [r|e] eqn:E.
    + exfalso.
      pose proof (validateSensorData_outcome StringToNumber NumberToString
                    data deviceId plantType now Hnull) as H.
      rewrite E in H. destruct H as (_ & Ht & Hh & _).
      apply normalizes_convertible in Ht, Hh.
      destruct Hbad as [Hbad|Hbad]; congruence.
    + now destruct (Hthrow data e Hnull E) as [-> _].
  - intros data [[<-|[<-|[<-|[]]]]|[[n ->]|[b ->]]]; reflexivity.
Qed.

End NormalizerEdges.

(** A payload whose temperature is an object with an own [toString], run:
    the normalizer throws the TypeError of the conversion. *)
Example validateSensorData_unprintable_temperature :
  Normalizer.validateSensorData Reference.StringToNumber Reference.NumberToString
    (VObj [("temperature", Samples.unprintable)]) (VStr "esp32_1") level1
    "2024-01-01T00:00:00.000Z"
  = Throw cannot_convert.
Proof. reflexivity. Qed.

Section CombinerEdges.

Import ArduinoService.

Lemma field_or_not_nan (reading : option SensorData) (field : SensorData -> float)
    (fallback : float) :
  isNaN fallback = false -> isNaN (field_or reading field fallback) = false.
Proof.
  intros Hf. unfold field_or. destruct reading as [r|]; [|exact Hf].
  destruct (ToBoolean (VNum (field r))) eqn:E; [|exact Hf].
  cbn [ToBoolean] in E. apply negb_true_iff, orb_false_iff in E. apply E.
Qed.

(** X20. The reading the combiner builds. There is none exactly when
    neither esp32_1 nor esp32_2 has a cached reading. Otherwise no numeric
    field of it is [NaN], whatever the cached readings hold (a field that
    is [NaN] or 0 gives way to the fallback of [||]); its timestamp is the
    instant of the combination, not that of a sample, and its device is
    the one of the active plant. *)
Theorem combinedData_fields
    (esp32_1_data esp32_2_data : option SensorData) (plant : PlantType) (now : string) :
  match combinedData esp32_1_data esp32_2_data plant now with
  | None => esp32_1_data = None /\ esp32_2_data = None
  | Some combined =>
      (is_Some esp32_1_data \/ is_Some esp32_2_data) /\
      Forall (fun x => isNaN x = false) (Normalizer.numeric_fields combined) /\
      timestamp combined = VStr now /\
      deviceId combined = VStr (ArduinoService.device_of plant)
  end.
Proof.
  assert (H0 : isNaN 0 = false) by reflexivity.
  assert (H20 : isNaN 20 = false) by reflexivity.
  assert (H50 : isNaN 50 = false) by reflexivity.
  unfold combinedData.
  destruct esp32_1_data as [r1|], esp32_2_data as [r2|]; [| | |auto];
    (split; [eauto|]);
    destruct plant;
    (split; [|split; reflexivity]);
    unfold Normalizer.numeric_fields;
    cbn [temperature humidity moisture sunlight nitrogen phosphorus potassium
         waterLevel fertilizerLevel];
    repeat constructor; apply field_or_not_nan; assumption.
Qed.

End CombinerEdges.

(** ** The ['dataUpdate'] handler *)

Section UpdateProperties.

Import ArduinoService.

Variable StringToNumber : string -> float.
Variable NumberToString : float -> string.
Variable toISOString : Z -> string.

Local Abbreviation ToString := (JS.ToString NumberToString).
Local Abbreviation validateSensorData :=
  (Normalizer.validateSensorData StringToNumber NumberToString).
Local Abbreviation on_dataUpdate :=
  (ArduinoService.on_dataUpdate StringToNumber NumberToString toISOString).
Local Abbreviation plant_key := (ArduinoService.plant_key NumberToString).

(** X21. An update without a truthy [deviceId] or without truthy [data]
    is dropped: the handler returns with the state as it was, nothing
    called and nothing published. An update that is [null] or [undefined]
    ends the handler in a TypeError, with the same nothing. *)
Theorem on_dataUpdate_skips (now : Z) (update : JSValue) (s : Service) :
  ToBoolean (getProp update "deviceId") && ToBoolean (getProp update "data") = false ->
  let outcome := on_dataUpdate now update s in
  final outcome = s /\
  trace outcome = [] /\
  if nullish update
  then exists message, completion outcome = Throw (JSError message)
  else completion outcome = Normal tt.
Proof.
  intros Hcond. cbv zeta. unfold ArduinoService.on_dataUpdate, read. rewrite bind_run.
  destruct (nullish update); [cbn; eauto|].
  cbn [mret M_ret]. cbv zeta. rewrite Hcond. cbn. auto.
Qed.

(** What a processed update leaves: the reading in the cache and in the
    store, the plant as it was, and the publication of the fused reading. *)
Lemma on_dataUpdate_run (now : Z) (update : JSValue) (s : Service)
    (reading : SensorData) (device key : string) :
  ToBoolean (getProp update "deviceId") && ToBoolean (getProp update "data") = true ->
  validateSensorData (getProp update "data") (getProp update "deviceId")
    (plantType s) (toISOString now) = Normal reading ->
  ToString (getProp update "deviceId") = Some device ->
  plant_key update = Some key ->
  inherited key = false \/ is_Some (historicalData s !! key) ->
  exists r s1 t,
    on_dataUpdate now update s =
    (r, s1,
     match combinedData (currentSensorData s1 !! "esp32_1") (currentSensorData s1 !! "esp32_2")
             (plantType s1) (toISOString now) with
     | Some combined => Published "data" (PSensor combined) :: t
     | None => []
     end) /\
    publications t = [] /\
    plantType s1 = plantType s /\
    currentSensorData s1 = <[device := reading]> (currentSensorData s) /\
    historicalData s1 = store_after key reading (historicalData s).
Proof.
  intros Hcond Hreading Hdevice Hkey Hfree.
  destruct (on_dataUpdate_files StringToNumber NumberToString toISOString
              now update s reading device key Hcond Hreading Hdevice Hkey Hfree)
    as (s1 & -> & Hstore & Hcache & Hplant & _).
  destruct (emitCurrentPlantData_run toISOString now s1) as (r & t & -> & Hp & _).
  exists r, s1, t. repeat split; assumption.
Qed.

(** What an update whose values do not convert leaves: nothing when the
    normalizer or the conversion of the device throws, the cached reading
    when the conversion of the plant does. *)
Lemma on_dataUpdate_unconverted (now : Z) (update : JSValue) (s : Service) :
  ToBoolean (getProp update "deviceId") && ToBoolean (getProp update "data") = true ->
  match validateSensorData (getProp update "data") (getProp update "deviceId")
          (plantType s) (toISOString now),
        ToString (getProp update "deviceId"), plant_key update with
  | Normal reading, Some device, Some key => True
  | Normal reading, Some device, None =>
      on_dataUpdate now update s =
      (Throw cannot_convert,
       set_currentSensorData (<[device := reading]> (currentSensorData s)) s, [])
  | Normal reading, None, _ => on_dataUpdate now update s = (Throw cannot_convert, s, [])
  | Throw e, _, _ => on_dataUpdate now update s = (Throw e, s, [])
  end.
Proof.
  intros Hcond.
  assert (Hnull : nullish update = false).
  { destruct update; try reflexivity; discriminate Hcond. }
  unfold ArduinoService.on_dataUpdate, read. rewrite bind_run, Hnull.
  cbn [mret M_ret]. cbv zeta. rewrite Hcond. cbn [when].
  rewrite bind_run. cbn [get]. rewrite bind_run.
  destruct (validateSensorData _ _ _ _) as [reading|e]; [|reflexivity].
  cbn [lift mret M_ret]. rewrite bind_run.
  destruct (ToString (getProp update "deviceId")) as [device|]; [|reflexivity].
  cbn [converted lift mret M_ret]. rewrite bind_run. cbn [modify]. rewrite bind_run.
  destruct (plant_key update) as [key|]; [exact I|reflexivity].
Qed.

(** X22. An update with a truthy [deviceId] and [data]. When its values
    convert (the normalizer returns a reading, the device and the plant
    convert to property names) and the plant's name is not one that
    objects inherit, its reading becomes the cached reading of its device,
    the cached reading of the other device of esp32_1 and esp32_2 staying;
    [getHistoricalData()] gains the reading at its end, the oldest reading
    going once there are more than 100, when the update is filed under the
    active plant, and is unchanged when it is filed under another one; and
    ['data'] is published once, with the reading combined from the cache
    after the update, unless neither esp32_1 nor esp32_2 is cached. When a
    value does not convert, the handler ends in the TypeError of the
    conversion: nothing is published and the store stays as it was. *)
Theorem dataUpdate_reaches_history (now : Z) (update : JSValue) (s : Service) :
  ToBoolean (getProp update "deviceId") && ToBoolean (getProp update "data") = true ->
  let outcome := on_dataUpdate now update s in
  let cache := currentSensorData (final outcome) in
  match validateSensorData (getProp update "data") (getProp update "deviceId")
          (plantType s) (toISOString now),
        ToString (getProp update "deviceId"), plant_key update with
  | Normal reading, Some device, Some key =>
      inherited key = false ->
      cache !! device = Some reading /\
      (forall other,
         In other ["esp32_1"; "esp32_2"] -> other <> device ->
         cache !! other = currentSensorData s !! other) /\
      getHistoricalData (final outcome) =
        (if String.eqb key (PlantType_str (plantType s))
         then slice_last 100 (getHistoricalData s ++ [reading])
         else getHistoricalData s) /\
      publications (trace outcome) =
        match combinedData (cache !! "esp32_1") (cache !! "esp32_2") (plantType s)
                (toISOString now) with
        | Some combined => [("data", PSensor combined)]
        | None => []
        end
  | _, _, _ =>
      (exists e, completion outcome = Throw e) /\
      trace outcome = [] /\
      historicalData (final outcome) = historicalData s
  end.
Proof.
  intros Hcond. cbv zeta.
  pose proof (on_dataUpdate_unconverted now update s Hcond) as Hun.
  destruct (validateSensorData _ _ _ _) as [reading|e] eqn:Hreading;
    [|rewrite Hun; repeat split; eauto].
  destruct (ToString (getProp update "deviceId")) as [device|] eqn:Hdevice;
    [|rewrite Hun; repeat split; eauto].
  destruct (plant_key update) as [key|] eqn:Hkey;
    [|rewrite Hun; repeat split; eauto].
  intros Hin.
  destruct (on_dataUpdate_run now update s reading device key Hcond Hreading Hdevice Hkey
              (or_introl Hin))
    as (r & s1 & t & -> & Hp & Hplant & Hcache & Hstore).
  unfold final, trace. cbn [fst snd].
  split; [rewrite Hcache; apply lookup_insert_eq|].
  split; [intros other _ Hne; rewrite Hcache; apply lookup_insert_ne; congruence|].
  split.
  - unfold getHistoricalData. rewrite Hstore, Hplant. unfold store_after.
    destruct (String.eqb_spec key (PlantType_str (plantType s))) as [->|Hne].
    + now rewrite lookup_insert_eq.
    + now rewrite lookup_insert_ne.
  - rewrite Hplant. destruct (combinedData _ _ _ _); [|reflexivity].
    unfold publications in *. cbn [omap list_omap]. now rewrite Hp.
Qed.

End UpdateProperties.

(** A message without device and data on the fresh service, as an instance
    of [on_dataUpdate_skips]. *)
Lemma on_dataUpdate_skips_witness :
  ArduinoService.final
    (ArduinoService.on_dataUpdate Reference.StringToNumber Reference.NumberToString
       IsoDate.toISOString 1000 Samples.heartbeat (ArduinoService.initial "http://backend"))
  = ArduinoService.initial "http://backend".
Proof.
  pose proof (on_dataUpdate_skips Reference.StringToNumber Reference.NumberToString
                IsoDate.toISOString 1000 Samples.heartbeat
                (ArduinoService.initial "http://backend") eq_refl) as H.
  cbv zeta in H. exact (proj1 H).
Defined.

(** The first update of esp32_1 on the fresh service, as an instance of
    [dataUpdate_reaches_history]: the history of level1 is the one reading. *)
Lemma dataUpdate_reaches_history_witness :
  exists reading,
    ArduinoService.getHistoricalData
      (ArduinoService.final
         (ArduinoService.on_dataUpdate Reference.StringToNumber Reference.NumberToString
            IsoDate.toISOString 1000 Samples.first_update
            (ArduinoService.initial "http://backend")))
    = [reading] /\
    temperature reading = 21%float /\ moisture reading = 40%float.
Proof.
  pose proof (dataUpdate_reaches_history Reference.StringToNumber Reference.NumberToString
                IsoDate.toISOString 1000 Samples.first_update
                (ArduinoService.initial "http://backend") eq_refl) as H.
  cbv zeta in H.
  destruct (Normalizer.validateSensorData Reference.StringToNumber Reference.NumberToString
              (getProp Samples.first_update "data") (getProp Samples.first_update "deviceId")
              (ArduinoService.plantType (ArduinoService.initial "http://backend"))
              (IsoDate.toISOString 1000)) as [reading|e] eqn:Hreading;
    [|discriminate Hreading].
  change (JS.ToString Reference.NumberToString (getProp Samples.first_update "deviceId"))
    with (Some "esp32_1") in H.
  change (ArduinoService.plant_key Reference.NumberToString Samples.first_update)
    with (Some "level1") in H.
  destruct (H eq_refl) as (_ & _ & Hhistory & _).
  exists reading. split; [exact Hhistory|].
  injection Hreading as <-. split; reflexivity.
Defined.

(** An update filed under [constructor], run on the fresh service: the
    reading is cached, the call of [push] on the inherited member is a
    TypeError, nothing is published and the store is as it was. *)
Example on_dataUpdate_constructor :
  let outcome :=
    ArduinoService.on_dataUpdate Reference.StringToNumber Reference.NumberToString
      IsoDate.toISOString 1000 Samples.constructor_update
      (ArduinoService.initial "http://backend") in
  ArduinoService.completion outcome
  = Throw (JSError "this.historicalData[plantType].push is not a function") /\
  ArduinoService.trace outcome = [] /\
  ArduinoService.historicalData (ArduinoService.final outcome)
  = ArduinoService.historicalData (ArduinoService.initial "http://backend") /\
  ArduinoService.getHistoricalData (ArduinoService.final outcome) = [].
Proof. cbv zeta. repeat split; vm_compute; reflexivity. Qed.

(** An update whose temperature has no primitive value, run on the fresh
    service: the handler ends in the TypeError of the conversion with
    nothing changed and nothing published. *)
Example on_dataUpdate_unprintable :
  ArduinoService.on_dataUpdate Reference.StringToNumber Reference.NumberToString
    IsoDate.toISOString 1000 Samples.unprintable_update
    (ArduinoService.initial "http://backend")
  = (Throw cannot_convert, ArduinoService.initial "http://backend", []).
Proof. reflexivity. Qed.

(** ** The ['initData'] handler *)

Section SnapshotProperties.

Import ArduinoService.

Variable StringToNumber : string -> float.
Variable NumberToString : float -> string.
Variable toISOString : Z -> string.

Local Abbreviation validateSensorData :=
  (Normalizer.validateSensorData StringToNumber NumberToString).
Local Abbreviation on_initData :=
  (ArduinoService.on_initData StringToNumber NumberToString toISOString).

Lemma assoc_truthy_key (k : string) (fields : list (string * JSValue)) :
  ToBoolean (assoc k fields) = true -> existsb (String.eqb k) (map fst fields) = true.
Proof.
  induction fields as [|[k' v] rest IH]; [discriminate|].
  cbn [assoc map fst existsb]. destruct (String.eqb k k'); [reflexivity|exact IH].
Qed.

Lemma getProp_truthy_key (v : JSValue) (k : string) :
  ToBoolean (getProp v k) = true -> existsb (String.eqb k) (Object_keys v) = true.
Proof. apply assoc_truthy_key. Qed.

Lemma set_currentSensorData_same (s : Service) :
  set_currentSensorData (currentSensorData s) s = s.
Proof. destruct s. reflexivity. Qed.

Lemma set_flags_same (s : Service) :
  set_lightActive (lightActive s) (set_wateringActive (wateringActive s) s) = s.
Proof. destruct s. reflexivity. Qed.

(** The loop over the devices of [data.sensorData]: it caches the readings
    of the devices in turn, and ends at the first one whose value the
    normalizer throws on. *)
Lemma cache_loop (sensorData : JSValue) (now : Z) (keys : list string) :
  forall s : Service,
  exists cache r,
    forEach keys (fun deviceId =>
       when (ToBoolean (getProp sensorData deviceId))
         (s ← get;
          reading ← lift (validateSensorData (getProp sensorData deviceId) (VStr deviceId)
                            (plantType s) (toISOString now));
          modify (fun s => set_currentSensorData (<[deviceId := reading]> (currentSensorData s)) s)))
      s
    = (r, set_currentSensorData cache s, []) /\
    ((forall device,
        ToBoolean (getProp sensorData device) = true ->
        exists reading,
          validateSensorData (getProp sensorData device) (VStr device)
            (plantType s) (toISOString now) = Normal reading) ->
     r = Normal tt /\
     forall device,
       cache !! device =
         if existsb (String.eqb device) keys && ToBoolean (getProp sensorData device)
         then match validateSensorData (getProp sensorData device) (VStr device)
                      (plantType s) (toISOString now) with
              | Normal reading => Some reading
              | Throw _ => None
              end
         else currentSensorData s !! device) /\
    ((exists device e,
        In device keys /\
        ToBoolean (getProp sensorData device) = true /\
        validateSensorData (getProp sensorData device) (VStr device)
          (plantType s) (toISOString now) = Throw e) ->
     r = Throw cannot_convert).
Proof.
  match goal with |- context [forEach keys ?body] => set (f := body) end.
  induction keys as [|k rest IH]; intros s.
  - exists (currentSensorData s), (Normal tt).
    split; [cbn; now rewrite set_currentSensorData_same|]. split.
    + intros _. split; reflexivity.
    + intros (device & e & [] & _).
  - cbn [forEach]. rewrite bind_run.
    destruct (ToBoolean (getProp sensorData k)) eqn:Hk.
    + destruct (validateSensorData (getProp sensorData k) (VStr k) (plantType s)
                  (toISOString now)) as [reading|e] eqn:Hreading.
      * assert (Hbody : f k s =
                  (Normal tt,
                   set_currentSensorData (<[k := reading]> (currentSensorData s)) s, [])).
        { subst f. cbv beta zeta. rewrite Hk. cbn [when]. rewrite bind_run. cbn [get].
          rewrite bind_run, Hreading. reflexivity. }
        rewrite Hbody.
        destruct (IH (set_currentSensorData (<[k := reading]> (currentSensorData s)) s))
          as (cache & r & -> & Hgood & Hbad).
        exists cache, r. split; [reflexivity|]. split.
        -- intros Hall. destruct (Hgood Hall) as [-> Hcache]. split; [reflexivity|].
           intros device. rewrite Hcache. fields. cbn [existsb].
           destruct (String.eqb_spec device k) as [->|Hne].
           ++ rewrite Hk, Hreading. cbn [orb andb].
              rewrite lookup_insert_eq.
              destruct (existsb (String.eqb k) rest); reflexivity.
           ++ cbn [orb]. now rewrite lookup_insert_ne by congruence.
        -- intros (device & e & [<-|Hin] & Hd & He); [fields; congruence|].
           apply Hbad. exists device, e. auto.
      * assert (Hbody : f k s = (Throw e, s, [])).
        { subst f. cbv beta zeta. rewrite Hk. cbn [when]. rewrite bind_run. cbn [get].
          rewrite bind_run, Hreading. reflexivity. }
        rewrite Hbody. exists (currentSensorData s), (Throw e).
        split; [now rewrite set_currentSensorData_same|]. split.
        -- intros Hall. destruct (Hall k Hk) as [reading Hr]. congruence.
        -- intros _.
           pose proof (validateSensorData_outcome StringToNumber NumberToString
                         (getProp sensorData k) (VStr k) (plantType s) (toISOString now)
                         (truthy_not_nullish _ Hk)) as H.
           fold validateSensorData in H.
           rewrite Hreading in H. now destruct H as [-> _].
    + assert (Hbody : f k s = (Normal tt, s, []))
        by (subst f; cbv beta zeta; now rewrite Hk).
      rewrite Hbody. destruct (IH s) as (cache & r & -> & Hgood & Hbad).
      exists cache, r. split; [reflexivity|]. split.
      * intros Hall. destruct (Hgood Hall) as [-> Hcache]. split; [reflexivity|].
        intros device. rewrite Hcache. cbn [existsb].
        destruct (String.eqb_spec device k) as [->|Hne]; [|reflexivity].
        rewrite Hk. cbn [orb]. now rewrite !andb_false_r.
      * intros (device & e & [<-|Hin] & Hd & He); [congruence|].
        apply Hbad. exists device, e. auto.
Qed.

(** The loop over the devices of [data.deviceStates]. *)
Lemma flags_loop (deviceStates : JSValue) (keys : list string) :
  forall s : Service,
  exists watering light_,
    forEach keys (fun deviceId =>
       when (ToBoolean (getProp deviceStates deviceId))
         (when (String.eqb deviceId "esp32_1")
            (modify (set_wateringActive
                       (ToBoolean (getProp (getProp deviceStates deviceId) "waterPump")))) ;;
          s ← get;
          when (String.eqb deviceId
                  match plantType s with level1 => "esp32_1" | level2 => "esp32_2" end)
            (modify (set_lightActive
                       (ToBoolean (getProp (getProp deviceStates deviceId) "light"))))))
      s
    = (Normal tt, set_lightActive light_ (set_wateringActive watering s), []) /\
    watering =
      (if existsb (String.eqb "esp32_1") keys && ToBoolean (getProp deviceStates "esp32_1")
       then ToBoolean (getProp (getProp deviceStates "esp32_1") "waterPump")
       else wateringActive s) /\
    light_ =
      (if existsb (String.eqb (device_of (plantType s))) keys
          && ToBoolean (getProp deviceStates (device_of (plantType s)))
       then ToBoolean (getProp (getProp deviceStates (device_of (plantType s))) "light")
       else lightActive s).
Proof.
  match goal with |- context [forEach keys ?body] => set (f := body) end.
  induction keys as [|k rest IH]; intros s.
  - exists (wateringActive s), (lightActive s).
    split; [cbn; now rewrite set_flags_same|]. split; reflexivity.
  - cbn [forEach]. rewrite bind_run.
    set (water := ToBoolean (getProp (getProp deviceStates k) "waterPump")).
    set (lamp := ToBoolean (getProp (getProp deviceStates k) "light")).
    assert (Hbody : f k s =
              (Normal tt,
               if ToBoolean (getProp deviceStates k)
               then set_lightActive
                      (if String.eqb k (device_of (plantType s)) then lamp else lightActive s)
                      (set_wateringActive
                         (if String.eqb k "esp32_1" then water else wateringActive s) s)
               else s,
               [])).
    { subst f. cbv beta zeta. destruct (ToBoolean (getProp deviceStates k)); [|reflexivity].
      cbn [when]. rewrite bind_run. fold water lamp.
      destruct (String.eqb k "esp32_1"); cbn [when modify mret M_ret];
        rewrite bind_run; cbn [get]; fields; fold (device_of (plantType s));
        destruct (String.eqb k (device_of (plantType s))); cbn [when modify mret M_ret app];
        destruct s; reflexivity. }
    rewrite Hbody. clear Hbody.
    destruct (ToBoolean (getProp deviceStates k)) eqn:Hk.
    + match goal with |- context [forEach rest f ?s1] =>
        destruct (IH s1) as (w & l & -> & -> & ->) end.
      do 2 eexists. split; [reflexivity|]. fields. cbn [existsb]. split.
      * destruct (String.eqb_spec k "esp32_1") as [->|Hne].
        -- rewrite String.eqb_refl, Hk. cbn [orb andb]. subst water.
           destruct (existsb (String.eqb "esp32_1") rest); reflexivity.
        -- destruct (String.eqb_spec "esp32_1" k); [congruence|]. reflexivity.
      * destruct (String.eqb_spec k (device_of (plantType s))) as [->|Hne].
        -- rewrite String.eqb_refl, Hk. cbn [orb andb]. subst lamp.
           destruct (existsb (String.eqb (device_of (plantType s))) rest); reflexivity.
        -- destruct (String.eqb_spec (device_of (plantType s)) k); [congruence|]. reflexivity.
    + destruct (IH s) as (w & l & -> & -> & ->).
      do 2 eexists. split; [reflexivity|]. cbn [existsb]. split.
      * destruct (String.eqb_spec "esp32_1" k) as [<-|Hne]; [|reflexivity].
        rewrite Hk. cbn [orb]. now rewrite !andb_false_r.
      * destruct (String.eqb_spec (device_of (plantType s)) k) as [<-|Hne]; [|reflexivity].
        rewrite Hk. cbn [orb]. now rewrite !andb_false_r.
Qed.

Lemma emitCurrentPlantData_quiet (now : Z) (s : Service) :
  quiet s ->
  exists t,
    emitCurrentPlantData toISOString now s = (Normal tt, s, t) /\
    publications t =
      match combinedData (currentSensorData s !! "esp32_1") (currentSensorData s !! "esp32_2")
              (plantType s) (toISOString now) with
      | Some combined => [("data", PSensor combined)]
      | None => []
      end.
Proof.
  intros Hq. unfold emitCurrentPlantData. rewrite bind_run. cbn [get].
  destruct (combinedData _ _ _ _) as [combined|]; [|exists []; split; reflexivity].
  rewrite emit_quiet by exact Hq. eexists. split; [reflexivity|].
  unfold publications. cbn [omap list_omap]. f_equal.
  induction (subscribers s "data") as [|c rest IH]; [reflexivity|exact IH].
Qed.

Lemma publications_app (t1 t2 : list Effect) :
  publications (t1 ++ t2) = publications t1 ++ publications t2.
Proof. apply omap_append. Qed.

(** X23. What the snapshot of ['initData'] does, with subscribers that do
    not throw (a snapshot that is [null] or [undefined] apart).

    When the values that [data.sensorData] carries for its devices are
    readings the normalizer returns on, the handler returns. Each of
    esp32_1 and esp32_2 that [data.sensorData] carries with a truthy value
    gets that value, normalized, as its cached reading; the other keeps the
    reading it had. A truthy [data.reservoirLevels] replaces the reservoir
    levels, a falsy one leaves them. [wateringActive] is taken from the
    [waterPump] of esp32_1, and [lightActive] from the [light] of the
    device of the active plant, when [data.deviceStates] carries that
    device; the states of other devices are not looked at. The plant and
    the historical store stay. The handler publishes ['data'], when
    [sensorData] is truthy and a reading of esp32_1 or esp32_2 is cached
    by then, and after it ['reservoir'], when the levels were replaced.

    When the normalizer throws on the value of a device, the handler ends
    in that TypeError inside the loop over the devices: nothing is
    published, and the reservoir levels, the actuator flags, the plant and
    the store are as they were. *)
Theorem on_initData_snapshot (now : Z) (data : JSValue) (s : Service) :
  quiet s ->
  nullish data = false ->
  let outcome := on_initData now data s in
  let sensorData := getProp data "sensorData" in
  let reservoirLevels := getProp data "reservoirLevels" in
  let deviceStates := getProp data "deviceStates" in
  let carries (snapshot : JSValue) (device : string) :=
    ToBoolean snapshot && ToBoolean (getProp snapshot device) in
  let reading_of (device : string) :=
    validateSensorData (getProp sensorData device) (VStr device) (plantType s)
      (toISOString now) in
  let cache := currentSensorData (final outcome) in
  ((forall device, carries sensorData device = true ->
                   exists reading, reading_of device = Normal reading) ->
   completion outcome = Normal tt /\
   (forall device,
      In device ["esp32_1"; "esp32_2"] ->
      cache !! device =
        if carries sensorData device
        then match reading_of device with
             | Normal reading => Some reading
             | Throw _ => None
             end
        else currentSensorData s !! device) /\
   currentReservoirLevels (final outcome) =
     (if ToBoolean reservoirLevels then reservoirLevels else currentReservoirLevels s) /\
   wateringActive (final outcome) =
     (if carries deviceStates "esp32_1"
      then ToBoolean (getProp (getProp deviceStates "esp32_1") "waterPump")
      else wateringActive s) /\
   lightActive (final outcome) =
     (if carries deviceStates (device_of (plantType s))
      then ToBoolean (getProp (getProp deviceStates (device_of (plantType s))) "light")
      else lightActive s) /\
   plantType (final outcome) = plantType s /\
   historicalData (final outcome) = historicalData s /\
   publications (trace outcome) =
     (if ToBoolean sensorData
      then match combinedData (cache !! "esp32_1") (cache !! "esp32_2") (plantType s)
                   (toISOString now) with
           | Some combined => [("data", PSensor combined)]
           | None => []
           end
      else [])
     ++ (if ToBoolean reservoirLevels then [("reservoir", PJS reservoirLevels)] else [])) /\
  ((exists device e, carries sensorData device = true /\ reading_of device = Throw e) ->
   completion outcome = Throw cannot_convert /\
   trace outcome = [] /\
   currentReservoirLevels (final outcome) = currentReservoirLevels s /\
   wateringActive (final outcome) = wateringActive s /\
   lightActive (final outcome) = lightActive s /\
   plantType (final outcome) = plantType s /\
   historicalData (final outcome) = historicalData s).
Proof.
  intros Hq Hnull. cbv zeta.
  set (sensorData := getProp data "sensorData").
  set (reservoirLevels := getProp data "reservoirLevels").
  set (deviceStates := getProp data "deviceStates").
  split.
  2: { intros (device & e & Hcarries & He).
       apply andb_prop in Hcarries as [Hsd Hd].
       unfold ArduinoService.on_initData, read. rewrite bind_run, Hnull. cbn [mret M_ret].
       cbv zeta. fold sensorData reservoirLevels deviceStates.
       rewrite bind_run, Hsd. cbn [when]. rewrite bind_run.
       destruct (cache_loop sensorData now (Object_keys sensorData) s)
         as (cache & r & -> & _ & Hbad).
       rewrite Hbad.
       - unfold completion, final, trace. cbn [fst snd app]. repeat split.
       - exists device, e. split; [|auto].
         pose proof (getProp_truthy_key _ _ Hd) as Hk.
         apply existsb_exists in Hk as (k & Hin & Hk).
         apply String.eqb_eq in Hk. now subst k. }
  intros Hreadable.
  assert (A : exists cache t1,
             let s1 := set_currentSensorData cache s in
             when (ToBoolean sensorData)
               (forEach (Object_keys sensorData) (fun deviceId =>
                  when (ToBoolean (getProp sensorData deviceId))
                    (s ← get;
                     reading ← lift (validateSensorData (getProp sensorData deviceId)
                                       (VStr deviceId) (plantType s) (toISOString now));
                     modify (fun s => set_currentSensorData
                                        (<[deviceId := reading]> (currentSensorData s)) s))) ;;
                emitCurrentPlantData toISOString now) s
             = (Normal tt, s1, t1) /\
             (forall device,
                cache !! device =
                  if ToBoolean sensorData && ToBoolean (getProp sensorData device)
                  then match validateSensorData (getProp sensorData device) (VStr device)
                               (plantType s) (toISOString now) with
                       | Normal reading => Some reading
                       | Throw _ => None
                       end
                  else currentSensorData s !! device) /\
             publications t1 =
               (if ToBoolean sensorData
                then match combinedData (cache !! "esp32_1") (cache !! "esp32_2") (plantType s)
                             (toISOString now) with
                     | Some combined => [("data", PSensor combined)]
                     | None => []
                     end
                else [])).
  { destruct (ToBoolean sensorData) eqn:Hsd; cbn [when].
    - rewrite bind_run.
      destruct (cache_loop sensorData now (Object_keys sensorData) s)
        as (cache & r & -> & Hgood & _).
      destruct Hgood as [-> Hcache];
        [intros device Hd; apply Hreadable; cbn [andb]; exact Hd|].
      destruct (emitCurrentPlantData_quiet now (set_currentSensorData cache s)) as (t & -> & Ht);
        [eapply quiet_same; [reflexivity|exact Hq]|].
      exists cache, t. split; [reflexivity|]. split; [|exact Ht].
      intros device. rewrite Hcache. cbn [andb].
      destruct (ToBoolean (getProp sensorData device)) eqn:Hd;
        [rewrite (getProp_truthy_key _ _ Hd)|rewrite andb_false_r]; reflexivity.
    - exists (currentSensorData s), []. cbv zeta. rewrite set_currentSensorData_same.
      repeat split. }
  destruct A as (cache & t1 & A & Hcache & Ht1). cbv zeta in A.
  set (s1 := set_currentSensorData cache s) in *.
  assert (Hq1 : quiet s1) by (eapply quiet_same; [reflexivity|exact Hq]).
  assert (B : exists t2,
             let s2 := if ToBoolean reservoirLevels
                       then set_currentReservoirLevels reservoirLevels s1 else s1 in
             when (ToBoolean reservoirLevels)
               (modify (set_currentReservoirLevels reservoirLevels) ;;
                emit "reservoir" (PJS reservoirLevels)) s1
             = (Normal tt, s2, t2) /\
             publications t2 =
               (if ToBoolean reservoirLevels then [("reservoir", PJS reservoirLevels)]
                else [])).
  { destruct (ToBoolean reservoirLevels); cbn [when]; [|exists []; split; reflexivity].
    rewrite bind_run. cbn [modify]. rewrite emit_quiet
      by (eapply quiet_same; [reflexivity|exact Hq]).
    eexists. split; [reflexivity|]. unfold publications. cbn [omap list_omap app]. f_equal.
    match goal with |- context [deliveries _ _ ?l] =>
      induction l as [|c rest IH]; [reflexivity|exact IH] end. }
  destruct B as (t2 & B & Ht2). cbv zeta in B.
  set (s2 := if ToBoolean reservoirLevels
             then set_currentReservoirLevels reservoirLevels s1 else s1) in *.
  assert (C : exists watering light_,
             when (ToBoolean deviceStates)
               (forEach (Object_keys deviceStates) (fun deviceId =>
                  when (ToBoolean (getProp deviceStates deviceId))
                    (when (String.eqb deviceId "esp32_1")
                       (modify (set_wateringActive
                                  (ToBoolean (getProp (getProp deviceStates deviceId)
                                                "waterPump")))) ;;
                     s ← get;
                     when (String.eqb deviceId
                             match plantType s with
                             | level1 => "esp32_1" | level2 => "esp32_2" end)
                       (modify (set_lightActive
                                  (ToBoolean (getProp (getProp deviceStates deviceId)
                                                "light"))))))) s2
             = (Normal tt, set_lightActive light_ (set_wateringActive watering s2), []) /\
             watering =
               (if ToBoolean deviceStates && ToBoolean (getProp deviceStates "esp32_1")
                then ToBoolean (getProp (getProp deviceStates "esp32_1") "waterPump")
                else wateringActive s) /\
             light_ =
               (if ToBoolean deviceStates
                   && ToBoolean (getProp deviceStates (device_of (plantType s)))
                then ToBoolean (getProp (getProp deviceStates (device_of (plantType s))) "light")
                else lightActive s)).
  { assert (Hw : wateringActive s2 = wateringActive s)
      by (subst s2 s1; destruct (ToBoolean reservoirLevels); reflexivity).
    assert (Hl : lightActive s2 = lightActive s)
      by (subst s2 s1; destruct (ToBoolean reservoirLevels); reflexivity).
    assert (Hp : plantType s2 = plantType s)
      by (subst s2 s1; destruct (ToBoolean reservoirLevels); reflexivity).
    destruct (ToBoolean deviceStates); cbn [when andb].
    - destruct (flags_loop deviceStates (Object_keys deviceStates) s2)
        as (w & l & -> & -> & ->).
      do 2 eexists. split; [reflexivity|]. rewrite Hw, Hl, Hp. split.
      + destruct (ToBoolean (getProp deviceStates "esp32_1")) eqn:Hd;
          [rewrite (getProp_truthy_key _ _ Hd)|rewrite andb_false_r]; reflexivity.
      + destruct (ToBoolean (getProp deviceStates (device_of (plantType s)))) eqn:Hd;
          [rewrite (getProp_truthy_key _ _ Hd)|rewrite andb_false_r]; reflexivity.
    - exists (wateringActive s2), (lightActive s2). rewrite set_flags_same.
      split; [reflexivity|]. now rewrite Hw, Hl. }
  destruct C as (watering & light_ & C & Hwatering & Hlight).
  unfold ArduinoService.on_initData, read. rewrite bind_run, Hnull. cbn [mret M_ret].
  cbv zeta. fold sensorData reservoirLevels deviceStates.
  rewrite bind_run, A, bind_run, B, C.
  unfold completion, final, trace. cbn [fst snd app].
  assert (Hcache2 : currentSensorData s2 = cache)
    by (subst s2 s1; destruct (ToBoolean reservoirLevels); reflexivity).
  fields. rewrite Hcache2.
  split; [reflexivity|]. split; [intros device _; apply Hcache|].
  split; [subst s2 s1; destruct (ToBoolean reservoirLevels); reflexivity|].
  split; [exact Hwatering|]. split; [exact Hlight|].
  split; [subst s2 s1; destruct (ToBoolean reservoirLevels); reflexivity|].
  split; [subst s2 s1; destruct (ToBoolean reservoirLevels); reflexivity|].
  rewrite app_nil_r, publications_app, Ht1, Ht2. reflexivity.
Qed.

End SnapshotProperties.

(** A snapshot of esp32_1 on the fresh service, as an instance of
    [on_initData_snapshot]: the pump is on, the lamp is off, and ['data']
    and ['reservoir'] are published. *)
Lemma on_initData_snapshot_witness :
  ArduinoService.wateringActive
    (ArduinoService.final
       (ArduinoService.on_initData Reference.StringToNumber Reference.NumberToString
          IsoDate.toISOString 1000 Samples.snapshot (ArduinoService.initial "http://backend")))
  = true /\
  ArduinoService.completion
    (ArduinoService.on_initData Reference.StringToNumber Reference.NumberToString
       IsoDate.toISOString 1000 Samples.snapshot (ArduinoService.initial "http://backend"))
  = Normal tt.
Proof.
  pose proof (on_initData_snapshot Reference.StringToNumber Reference.NumberToString
                IsoDate.toISOString 1000 Samples.snapshot
                (ArduinoService.initial "http://backend")
                (quiet_initial "http://backend") eq_refl) as H.
  cbv zeta in H. destruct H as [H _].
  destruct H as (H1 & _ & _ & H4 & _); [|split; [exact H4|exact H1]].
  intros device Hd.
  change (getProp (getProp Samples.snapshot "sensorData") device)
    with (if String.eqb device "esp32_1" then VObj [("temperature", VNum 21)]
          else VUndefined) in *.
  destruct (String.eqb device "esp32_1"); [|discriminate Hd].
  eexists. reflexivity.
Defined.

(** ** The chart through its life *)

Section LiveUpdateProperties.

Import HistoricalChart.

Variable Date_getTime : JSValue -> option Z.
Variable toISOString : Z -> string.
Variable dataType : DataType.

Local Abbreviation averageDataPoints :=
  (HistoricalChart.averageDataPoints Date_getTime toISOString).
Local Abbreviation recompute := (HistoricalChart.recompute Date_getTime toISOString dataType).
Local Abbreviation advance := (HistoricalChart.advance Date_getTime toISOString dataType).
Local Abbreviation deliver := (HistoricalChart.deliver Date_getTime toISOString dataType).
Local Abbreviation fetchHistoricalData :=
  (HistoricalChart.fetchHistoricalData Date_getTime toISOString dataType).
Local Abbreviation step := (HistoricalChart.step Date_getTime toISOString dataType).
Local Abbreviation shown := (HistoricalChart.shown Date_getTime toISOString dataType).

(** When the timer fires, the clock is where time has passed to, and
    [updateTimeout] still holds the spent handle. *)
Lemma advance_fires_clock (now t : Z) (reading : SensorData) (c : Component) :
  armed t reading c ->
  (t + 30000 <= now)%Z ->
  clock (advance now c) = now /\ updateTimeout (advance now c) = updateTimeout c.
Proof.
  intros (handle & Hp & Hu & Hc) Hnow. unfold HistoricalChart.advance.
  rewrite Hp. cbn [List.filter due].
  destruct (Z.leb_spec (t + 30000) now) as [_|Hgt]; [|lia].
  cbn. split; [lia|reflexivity].
Qed.

(** One event, whether or not the timer before it has fired. *)
Lemma deliver_event (now t : Z) (reading r : SensorData) (c : Component) :
  armed t r c ->
  (t <= now)%Z ->
  let c' := handleDataUpdate reading (advance now c) in
  armed now reading c' /\
  data c' = (if (t + 30000 <=? now)%Z
             then averageDataPoints (updatedRawData dataType (data c) r) else data c) /\
  recomputed c' =
    recomputed c ++ (if (t + 30000 <=? now)%Z then [((t + 30000)%Z, r)] else []).
Proof.
  intros Harmed Hnow. cbv zeta.
  destruct (Z.leb_spec (t + 30000) now) as [Hdue|Hearly].
  - destruct (advance_fires Date_getTime toISOString dataType now t r c Harmed Hdue) as (Hp & Hrec & Hdata).
    destruct (advance_fires_clock now t r c Harmed Hdue) as (Hclock & _).
    destruct (handleDataUpdate_rearms reading (advance now c) (or_introl Hp))
      as [Hre [Hrec2 Hdata2]].
    rewrite Hclock in Hre. split; [exact Hre|]. now rewrite Hrec2, Hdata2, Hrec, Hdata.
  - destruct (advance_before_due Date_getTime toISOString dataType now t r c Harmed (conj Hnow Hearly))
      as (Hp & Hu & Hclock & Hrec & Hdata).
    destruct (handleDataUpdate_rearms reading (advance now c)) as [Hre [Hrec2 Hdata2]].
    { right. destruct Harmed as (handle & Hp0 & Hu0 & _).
      eexists. rewrite Hp, Hu, Hp0, Hu0. split; reflexivity. }
    rewrite Hclock in Hre. split; [exact Hre|].
    now rewrite Hrec2, Hdata2, Hrec, Hdata, app_nil_r.
Qed.

Lemma deliver_armed (events : list (Z * SensorData)) :
  forall (c : Component) (t : Z) (r : SensorData),
    armed t r c ->
    in_order t events ->
    let last := List.last events (t, r) in
    let c' := deliver events c in
    armed (fst last) (snd last) c' /\
    recomputed c' ++ [((fst last + 30000)%Z, snd last)]
    = recomputed c ++ settled ((t, r) :: events) /\
    averageDataPoints (updatedRawData dataType (data c') (snd last))
    = shown (data c) (settled ((t, r) :: events)).
Proof.
  induction events as [|[now reading] rest IH]; intros c t r Harmed Horder; cbv zeta.
  - cbn. auto.
  - destruct Horder as [Hnow Hrest]. cbn [HistoricalChart.deliver].
    destruct (deliver_event now t reading r c Harmed Hnow) as (Hre & Hdata & Hrec).
    destruct (IH _ now reading Hre Hrest) as (Hlast & Hsettled & Hshown).
    rewrite last_cons. split; [exact Hlast|].
    change (settled ((t, r) :: (now, reading) :: rest)) with
      (if (t + 30000 <=? now)%Z
       then ((t + 30000)%Z, r) :: settled ((now, reading) :: rest)
       else settled ((now, reading) :: rest)).
    split.
    + rewrite Hsettled, Hrec, <- app_assoc. f_equal. now destruct (t + 30000 <=? now)%Z.
    + rewrite Hshown, Hdata. now destruct (t + 30000 <=? now)%Z.
Qed.

(** From a component with no timer pending. *)
Lemma deliver_idle (events : list (Z * SensorData)) (c : Component) :
  pending c = [] ->
  in_order (clock c) events ->
  match events with
  | [] => deliver events c = c
  | first :: rest =>
      let last := List.last rest first in
      let c' := deliver events c in
      armed (fst last) (snd last) c' /\
      recomputed c' ++ [((fst last + 30000)%Z, snd last)] = recomputed c ++ settled events /\
      averageDataPoints (updatedRawData dataType (data c') (snd last))
      = shown (data c) (settled events)
  end.
Proof.
  intros Hp Horder. destruct events as [|[now reading] rest]; [reflexivity|].
  destruct Horder as [Hstart Hrest]. cbv zeta. cbn [HistoricalChart.deliver].
  destruct (advance_idle Date_getTime toISOString dataType now c Hp Hstart)
    as (Hp1 & Hc1 & Hrec1 & Hdata1).
  destruct (handleDataUpdate_rearms reading (advance now c) (or_introl Hp1))
    as [Hre [Hrec2 Hdata2]].
  rewrite Hc1 in Hre.
  destruct (deliver_armed rest _ now reading Hre Hrest) as (Hlast & Hsettled & Hshown).
  split; [exact Hlast|]. split.
  - now rewrite Hsettled, Hrec2, Hrec1.
  - now rewrite Hshown, Hdata2, Hdata1.
Qed.

Lemma last_In {A : Type} (l : list A) (x : A) : In (List.last l x) (x :: l).
Proof.
  revert x. induction l as [|y l IH]; intros x; [now left|].
  rewrite last_cons. right. apply IH.
Qed.

(** X24. The debounce, for any run of ['data'] events whose instants do
    not go back, on a chart with no timer pending. Once 30 s have passed
    after the last event, the recomputations that have run are exactly
    those of the events that no other event followed within 30 s, each at
    30 s after its event and for the reading of that event, in order; the
    points on display are what these recomputations make, one after the
    other, of the points that were displayed; and no timer is left. The
    reading of an event that another event follows within 30 s never
    reaches the chart. (A timer due at the instant of an event fires
    before the event is handled.) *)
Theorem debounce_recomputes_settled
    (c : Component) (events : list (Z * SensorData)) (finish : Z) :
  pending c = [] ->
  in_order (clock c) events ->
  Forall (fun event => (fst event + 30000 <= finish)%Z) events ->
  let done := advance finish (deliver events c) in
  recomputed done = recomputed c ++ settled events /\
  data done = shown (data c) (settled events) /\
  pending done = [] /\
  length (settled events) <= length events.
Proof.
  intros Hp Horder Hfinish. cbv zeta.
  assert (Hlen : length (settled events) <= length events).
  { clear. induction events as [|[now reading] rest IH]; [cbn; lia|].
    destruct rest as [|[next r] rest]; [cbn; lia|].
    change (settled ((now, reading) :: (next, r) :: rest)) with
      (if (now + 30000 <=? next)%Z
       then ((now + 30000)%Z, reading) :: settled ((next, r) :: rest)
       else settled ((next, r) :: rest)).
    destruct (now + 30000 <=? next)%Z; cbn [length] in *; lia. }
  pose proof (deliver_idle events c Hp Horder) as H.
  destruct events as [|first rest].
  - rewrite H. unfold HistoricalChart.advance. rewrite Hp. cbn. now rewrite app_nil_r.
  - destruct H as (Harmed & Hsettled & Hshown).
    assert (Hdue : (fst (List.last rest first) + 30000 <= finish)%Z).
    { rewrite List.Forall_forall in Hfinish. apply Hfinish, last_In. }
    destruct (advance_fires Date_getTime toISOString dataType finish _ _ _ Harmed Hdue)
      as (Hp' & Hrec' & Hdata').
    rewrite Hrec', Hsettled, Hdata', Hshown. auto.
Qed.

Lemma deliver_tracked (events : list (Z * SensorData)) (c : Component) :
  pending c = [] -> in_order (clock c) events -> tracked (deliver events c).
Proof.
  intros Hp Horder. pose proof (deliver_idle events c Hp Horder) as H.
  destruct events as [|first rest]; [rewrite H; now left|].
  destruct H as ((handle & Hpending & Hu & _) & _). right. eexists. split; [exact Hpending|exact Hu].
Qed.

Lemma cleanup_tracked (c : Component) :
  tracked c ->
  pending (cleanup c) = [] /\ isMounted (cleanup c) = false /\
  data (cleanup c) = data c /\ error (cleanup c) = error c /\
  recomputed (cleanup c) = recomputed c.
Proof.
  intros [Hp|(tm & Hp & Hu)]; unfold cleanup; cbn [updateTimeout].
  - destruct (updateTimeout c); cbn; rewrite Hp; auto.
  - rewrite Hu. cbn. rewrite Hp. cbn. rewrite Nat.eqb_refl. auto.
Qed.

(** X25. After the cleanup of the effect nothing updates the chart. The
    component is unmounted and its pending timer, if any, is cleared, so
    however much time passes no recomputation runs and the points and the
    error on display stay; and an answer to the first load that arrives
    after the cleanup is ignored. The reading of a timer cleared by the
    cleanup is never displayed. *)
Theorem cleanup_stops_updates
    (c : Component) (events : list (Z * SensorData)) (history : list SensorData)
    (later : Z) :
  pending c = [] ->
  in_order (clock c) events ->
  let last := deliver events c in
  let stopped := cleanup last in
  isMounted stopped = false /\
  pending stopped = [] /\
  recomputed (advance later stopped) = recomputed last /\
  data (advance later stopped) = data last /\
  error (advance later stopped) = error last /\
  fetchHistoricalData history stopped = stopped.
Proof.
  intros Hp Horder. cbv zeta.
  destruct (cleanup_tracked _ (deliver_tracked events c Hp Horder))
    as (Hpending & Hmounted & Hdata & Herror & Hrec).
  split; [exact Hmounted|]. split; [exact Hpending|].
  unfold HistoricalChart.advance. rewrite Hpending. cbn [List.filter fold_right fold_left
    recomputed data error].
  repeat split; auto.
  unfold HistoricalChart.fetchHistoricalData. now rewrite Hmounted.
Qed.

(** *** The number of points on display *)

Lemma length_averageDataPoints (rawData : list RawPoint.t) :
  length (averageDataPoints rawData) <= 60.
Proof. rewrite averageDataPoints_unfold. apply length_slice_last. Qed.

Lemma advance_data (now : Z) (c : Component) :
  length (data c) <= 60 -> length (data (advance now c)) <= 60.
Proof.
  intros H. unfold HistoricalChart.advance. cbn [data].
  match goal with |- context [fold_left ?f ?l ?c0] =>
    assert (Hc0 : length (data c0) <= 60) by exact H;
    generalize dependent c0; generalize l end.
  intros l. induction l as [|tm l IH]; intros c0 Hc0; [exact Hc0|].
  cbn [fold_left]. apply IH. cbn [HistoricalChart.recompute data].
  apply length_averageDataPoints.
Qed.

Lemma step_data (st : Step) (c : Component) :
  length (data c) <= 60 -> length (data (step c st)) <= 60.
Proof.
  intros H. destruct st as [history|now reading|now|]; cbn [HistoricalChart.step].
  - unfold HistoricalChart.fetchHistoricalData.
    destruct (negb (isMounted c)); [exact H|].
    destruct history; cbn [data length]; [lia|apply length_averageDataPoints].
  - unfold handleDataUpdate, setTimeout.
    destruct (updateTimeout (advance now c)); cbn [data clearTimeout];
      now apply advance_data.
  - now apply advance_data.
  - unfold cleanup. cbn [updateTimeout]. destruct (updateTimeout c); exact H.
Qed.

(** X26. The chart never shows more than 60 points: whatever the first
    load answers, whatever events arrive and whenever, the points on
    display are at most 60, from the mount on. *)
Theorem chart_shows_at_most_60 (now : Z) (steps : list Step) :
  length (data (fold_left step steps (mounted now))) <= 60.
Proof.
  assert (H : length (data (mounted now)) <= 60) by (cbn; lia).
  revert H. generalize (mounted now). induction steps as [|st rest IH]; intros c H;
    [exact H|].
  cbn [fold_left]. apply IH. now apply step_data.
Qed.

(** *** The first load *)

Lemma unparsed_buckets (rawData : list RawPoint.t) :
  Forall (fun point => Date_getTime (RawPoint.timestamp point) = None) rawData ->
  averageDataPoints rawData = [].
Proof.
  intros H. rewrite averageDataPoints_unfold, <- buckets_skip_unparsed.
  replace (List.filter (parses Date_getTime) rawData) with (@nil RawPoint.t); [reflexivity|].
  induction H as [|p l Hp _ IH]; [reflexivity|].
  cbn [List.filter]. unfold parses at 1. now rewrite Hp.
Qed.

(** X27. A first load that yields no point. On a mounted chart, the empty
    history gives no point and the error ['No data available from the
    server']; a history that is not empty but in which no timestamp
    parses gives no point either, and no error. *)
Theorem fetchHistoricalData_empty_chart (history : list SensorData) (c : Component) :
  isMounted c = true ->
  Forall (fun item => Date_getTime (Types.timestamp item) = None) history ->
  let loaded := fetchHistoricalData history c in
  data loaded = [] /\
  error loaded = match history with
                 | [] => Some "No data available from the server"
                 | _ :: _ => None
                 end.
Proof.
  intros Hm Hall. cbv zeta. unfold HistoricalChart.fetchHistoricalData. rewrite Hm.
  cbn [negb]. destruct history as [|item rest]; [split; reflexivity|].
  cbn [data error]. split; [|reflexivity].
  apply unparsed_buckets. apply Forall_map. exact Hall.
Qed.

End LiveUpdateProperties.

(** Two updates 10 s apart and a third 49 s later, as an instance of
    [debounce_recomputes_settled]: two recomputations, for the second and
    for the third. *)
Lemma debounce_recomputes_settled_witness :
  HistoricalChart.recomputed
    (HistoricalChart.advance IsoDate.Date_getTime IsoDate.toISOString
       HistoricalChart.temperature 90000
       (HistoricalChart.deliver IsoDate.Date_getTime IsoDate.toISOString
          HistoricalChart.temperature Samples.spaced_updates (HistoricalChart.mounted 0)))
  = [(41000%Z, Samples.warmer 22 "2024-01-01T00:00:11Z");
     (90000%Z, Samples.warmer 23 "2024-01-01T00:01:00Z")].
Proof.
  pose proof (debounce_recomputes_settled IsoDate.Date_getTime IsoDate.toISOString
                HistoricalChart.temperature (HistoricalChart.mounted 0)
                Samples.spaced_updates 90000%Z) as H.
  cbv zeta in H. destruct H as (H & _).
  - reflexivity.
  - cbn. lia.
  - repeat constructor; cbn; lia.
  - exact H.
Defined.

(** The same updates and a cleanup right after them, as an instance of
    [cleanup_stops_updates]. *)
Lemma cleanup_stops_updates_witness :
  HistoricalChart.pending
    (HistoricalChart.cleanup
       (HistoricalChart.deliver IsoDate.Date_getTime IsoDate.toISOString
          HistoricalChart.temperature Samples.spaced_updates (HistoricalChart.mounted 0)))
  = [].
Proof.
  pose proof (cleanup_stops_updates IsoDate.Date_getTime IsoDate.toISOString
                HistoricalChart.temperature (HistoricalChart.mounted 0)
                Samples.spaced_updates [] 90000%Z) as H.
  cbv zeta in H. destruct H as (_ & H & _).
  - reflexivity.
  - cbn. lia.
  - exact H.
Defined.

(** A history whose timestamp is no date, as an instance of
    [fetchHistoricalData_empty_chart]. *)
Lemma fetchHistoricalData_empty_chart_witness :
  HistoricalChart.data
    (HistoricalChart.fetchHistoricalData IsoDate.Date_getTime IsoDate.toISOString
       HistoricalChart.temperature Samples.undated (HistoricalChart.mounted 0)) = [] /\
  HistoricalChart.error
    (HistoricalChart.fetchHistoricalData IsoDate.Date_getTime IsoDate.toISOString
       HistoricalChart.temperature Samples.undated (HistoricalChart.mounted 0)) = None.
Proof.
  apply (fetchHistoricalData_empty_chart IsoDate.Date_getTime IsoDate.toISOString
           HistoricalChart.temperature Samples.undated (HistoricalChart.mounted 0)).
  - reflexivity.
  - repeat constructor.
Defined.

(** ** What a live update does to the counts *)

Section ReaverageProperties.

Import HistoricalChart.

Variable Date_getTime : JSValue -> option Z.
Variable toISOString : Z -> string.
Variable dataType : DataType.

Local Abbreviation in_bucket := (HistoricalChart.in_bucket Date_getTime).
Local Abbreviation points_of := (HistoricalChart.points_of Date_getTime).
Local Abbreviation bucket_of := (HistoricalChart.bucket_of Date_getTime toISOString).
Local Abbreviation time_of := (HistoricalChart.time_of Date_getTime).
Local Abbreviation sort := (HistoricalChart.sort Date_getTime).
Local Abbreviation averageDataPoints :=
  (HistoricalChart.averageDataPoints Date_getTime toISOString).
Local Abbreviation point_of_bucket :=
  (HistoricalChart.point_of_bucket Date_getTime toISOString).
Local Abbreviation has_points := (HistoricalChart.has_points Date_getTime).
Local Abbreviation buckets_of := (HistoricalChart.buckets_of Date_getTime toISOString).

(** The output, point by point: the points of the buckets of some keys in
    strictly ascending order. *)
Lemma averageDataPoints_points (rawData : list RawPoint.t) :
  (forall point time,
     In point rawData ->
     Date_getTime (RawPoint.timestamp point) = Some time ->
     Date_getTime (VStr (toISOString (bucketKey time))) = Some (bucketKey time)) ->
  exists keys : list Z,
    StronglySorted Z.lt keys /\
    Forall2 (fun k p => point_of_bucket rawData k p) keys (averageDataPoints rawData).
Proof.
  intros Hrt.
  assert (Hkey : forall k, has_points rawData k -> Date_getTime (VStr (toISOString k)) = Some k).
  { intros k (p & time & Hin & Hp & <-). eapply Hrt; eassumption. }
  set (B := buckets_of rawData).
  set (L := map (fun entry => averaged (snd entry)) B).
  assert (HB : forall k b, In (k, b) B ->
                 has_points rawData k /\ point_of_bucket rawData k (averaged b)).
  { intros k b Hin. apply bucket_entries in Hin as [Hne ->].
    apply has_points_iff in Hne. split; [exact Hne|].
    apply averaged_bucket; auto. }
  assert (Htimes : map time_of L = map Some (map fst B)).
  { unfold L. rewrite !map_map. apply map_ext_in. intros [k b] Hin.
    destruct (HB k b Hin) as [_ (_ & Ht & _)]. exact Ht. }
  destruct (sort_sorted Date_getTime toISOString L (map fst B) Htimes
              (buckets_NoDup Date_getTime toISOString rawData))
    as (all_keys & Hmap & Hsorted & Hin).
  assert (Hlen : length (sort L) = length all_keys).
  { apply (f_equal (@length _)) in Hmap. now rewrite !length_map in Hmap. }
  exists (slice_last 60 all_keys). split; [now apply StronglySorted_skipn|].
  rewrite averageDataPoints_unfold. fold B. fold L. apply points_by_key.
  - unfold slice_last. rewrite <- !skipn_map, Hmap, Hlen. reflexivity.
  - intros p Hp. apply In_skipn in Hp. apply (proj1 (In_sort _ _ _)) in Hp.
    apply in_map_iff in Hp as ([k b] & <- & Hp). exists k. apply (HB _ _ Hp).
Qed.

(** A displayed point as the raw point the recomputation makes of it. *)
Lemma displayed_in_bucket (rawData : list RawPoint.t) (k key : Z) (p : AveragedDataPoint.t) :
  point_of_bucket rawData k p ->
  in_bucket key {| RawPoint.timestamp := VStr (AveragedDataPoint.timestamp p);
                   RawPoint.value := AveragedDataPoint.value p |}
  = Z.eqb k key.
Proof.
  intros (_ & Ht & Hk & _). unfold HistoricalChart.in_bucket, HistoricalChart.time_of in *.
  cbn [RawPoint.timestamp]. now rewrite Ht, Hk.
Qed.

(** Of the displayed points at most one lies in a bucket. *)
Lemma displayed_points_of (rawData : list RawPoint.t) (key : Z) (keys : list Z)
    (displayed : list AveragedDataPoint.t) :
  StronglySorted Z.lt keys ->
  Forall2 (fun k p => point_of_bucket rawData k p) keys displayed ->
  let as_raw p := {| RawPoint.timestamp := VStr (AveragedDataPoint.timestamp p);
                     RawPoint.value := AveragedDataPoint.value p |} in
  points_of key (map as_raw displayed) = [] \/
  exists q, In q displayed /\ point_of_bucket rawData key q /\
            points_of key (map as_raw displayed) = [as_raw q].
Proof.
  intros Hsorted Hall. cbv zeta.
  induction Hall as [|k p keys displayed Hp Hall IH]; [now left|].
  apply StronglySorted_inv in Hsorted as [Hsorted Hlt].
  unfold HistoricalChart.points_of in *. cbn [map List.filter].
  rewrite (displayed_in_bucket _ _ _ _ Hp).
  destruct (Z.eqb_spec k key) as [->|Hne].
  - right. exists p. split; [now left|]. split; [exact Hp|]. f_equal.
    clear IH Hp. induction Hall as [|k' p' keys displayed Hp' Hall IH]; [reflexivity|].
    apply Forall_cons_iff in Hlt as [Hk' Hlt].
    apply StronglySorted_inv in Hsorted as [Hsorted _].
    cbn [map List.filter]. rewrite (displayed_in_bucket _ _ _ _ Hp').
    destruct (Z.eqb_spec k' key) as [->|_]; [lia|]. now apply IH.
  - destruct (IH Hsorted) as [Hnone|(q & Hin & Hq & Hone)]; [now left|].
    right. exists q. split; [now right|]. split; [exact Hq|exact Hone].
Qed.

(** X28. A live update forgets the counts. The recomputation averages the
    points on display, each as one raw point, with the new reading. So
    after it, on a chart loaded from [rawData], every point has the count
    1 or 2, however many readings its bucket held before; the count is 2
    only for the bucket the new reading falls in, and there the value is
    the mean of two numbers, the mean displayed before and the new value:
    the displayed mean weighs as one reading. (The instants of the bucket
    keys are taken to read back from their ISO strings, as for the
    aggregation itself.) *)
Theorem live_update_resets_counts (rawData : list RawPoint.t) (reading : SensorData) :
  (forall point time,
     In point rawData ->
     Date_getTime (RawPoint.timestamp point) = Some time ->
     Date_getTime (VStr (toISOString (bucketKey time))) = Some (bucketKey time)) ->
  (forall time,
     Date_getTime (Types.timestamp reading) = Some time ->
     Date_getTime (VStr (toISOString (bucketKey time))) = Some (bucketKey time)) ->
  let displayed := averageDataPoints rawData in
  let updated := averageDataPoints (updatedRawData dataType displayed reading) in
  Forall (fun p =>
            1 <= AveragedDataPoint.count p <= 2 /\
            (AveragedDataPoint.count p = 2 ->
             exists time q,
               Date_getTime (Types.timestamp reading) = Some time /\
               AveragedDataPoint.timestamp p = toISOString (bucketKey time) /\
               In q displayed /\
               AveragedDataPoint.timestamp q = AveragedDataPoint.timestamp p /\
               AveragedDataPoint.value p =
                 ((0 + AveragedDataPoint.value q + chartValue dataType reading) / 2)%float))
         updated.
Proof.
  intros Hrt Hnew. cbv zeta.
  destruct (averageDataPoints_points rawData Hrt) as (keys & Hsorted & Hdisplayed).
  set (displayed := averageDataPoints rawData) in *.
  set (raw := updatedRawData dataType displayed reading).
  assert (Hrt' : forall point time,
             In point raw ->
             Date_getTime (RawPoint.timestamp point) = Some time ->
             Date_getTime (VStr (toISOString (bucketKey time))) = Some (bucketKey time)).
  { intros point time Hin Ht. unfold raw, updatedRawData in Hin.
    apply in_app_or in Hin as [Hin|[<-|[]]]; [|now apply Hnew].
    apply in_map_iff in Hin as (p & <- & Hin). cbn [RawPoint.timestamp] in Ht.
    assert (Hk : exists k, point_of_bucket rawData k p).
    { clear -Hdisplayed Hin. induction Hdisplayed as [|k q ks ps Hq _ IH]; [destruct Hin|].
      destruct Hin as [->|Hin]; eauto. }
    destruct Hk as (k & Hts & Htime & Hkey & _).
    unfold HistoricalChart.time_of in Htime. rewrite Htime in Ht. injection Ht as <-.
    now rewrite Hkey, <- Hts. }
  destruct (averageDataPoints_points raw Hrt') as (keys' & _ & Hupdated).
  clear Hrt'. induction Hupdated as [|k p ks ps Hp _ IH]; constructor; [|exact IH].
  destruct Hp as (Hts & _ & _ & Hcount & Hpos & Hvalue).
  unfold raw, updatedRawData in Hcount, Hvalue.
  rewrite points_of_snoc in Hcount, Hvalue. rewrite length_app in Hcount.
  unfold HistoricalChart.in_bucket in Hcount, Hvalue.
  cbn [RawPoint.timestamp] in Hcount, Hvalue.
  destruct (displayed_points_of rawData k keys displayed Hsorted Hdisplayed)
    as [Hnone|(q & Hin & Hq & Hone)].
  - rewrite Hnone in Hcount. cbn [length] in Hcount.
    destruct (Date_getTime (Types.timestamp reading)) as [time|];
      [destruct (Z.eqb (bucketKey time) k)|]; cbn [length] in Hcount; split; lia.
  - rewrite Hone in Hcount, Hvalue. cbn [length] in Hcount.
    destruct (Date_getTime (Types.timestamp reading)) as [time|] eqn:Et.
    + destruct (Z.eqb_spec (bucketKey time) k) as [Hk|Hk]; cbn [length] in Hcount.
      * split; [lia|]. intros _. exists time, q. split; [reflexivity|].
        split; [now rewrite Hk|]. split; [exact Hin|].
        split; [destruct Hq as (Hq & _); now rewrite Hq, Hts|].
        rewrite Hvalue. reflexivity.
      * split; lia.
    + cbn [length] in Hcount. split; lia.
Qed.

End ReaverageProperties.

(** The two points of one bucket and a reading of the same bucket, as an
    instance of [live_update_resets_counts]. *)
Lemma live_update_resets_counts_witness :
  Forall (fun p => 1 <= HistoricalChart.AveragedDataPoint.count p <= 2)
    (HistoricalChart.averageDataPoints IsoDate.Date_getTime IsoDate.toISOString
       (HistoricalChart.updatedRawData HistoricalChart.temperature
          (HistoricalChart.averageDataPoints IsoDate.Date_getTime IsoDate.toISOString
             Samples.two_points)
          (Samples.warmer 23 "2024-01-01T00:00:26Z"))).
Proof.
  refine (List.Forall_impl _ (fun p Hp => proj1 Hp)
            (live_update_resets_counts IsoDate.Date_getTime IsoDate.toISOString
               HistoricalChart.temperature Samples.two_points
               (Samples.warmer 23 "2024-01-01T00:00:26Z") _ _)).
  - intros point time [<-|[<-|[]]] Ht; vm_compute in Ht;
      injection Ht as <-; vm_compute; reflexivity.
  - intros time Ht; vm_compute in Ht; injection Ht as <-; vm_compute; reflexivity.
Defined.

(** ** Retries *)

Section RetryProperties.

Import ArduinoService.

(** X29. Retries are not deduplicated. [handleConnectionError] keeps no
    handle of the timer it sets and clears none: two failure events of a
    quiet service below the limit schedule two retries, each with its own
    delay, and when both fire each [connect()] opens a socket of its own and
    closes none. *)
Theorem failures_schedule_independent_retries (e1 e2 : Exn) (s : Service) :
  quiet s ->
  (S (S (reconnectAttempts s)) < maxReconnectAttempts s)%nat ->
  let first := on_reconnect_error e1 s in
  let second := on_reconnect_error e2 (final first) in
  let retry1 := connect IoReturns (final second) in
  let retry2 := connect IoReturns (final retry1) in
  scheduled_retries (trace first ++ trace second)
  = [backoffDelay (retryDelay s) (S (reconnectAttempts s));
     backoffDelay (retryDelay s) (S (S (reconnectAttempts s)))] /\
  cleared (trace first ++ trace second) = [] /\
  completion retry1 = Normal Pending /\
  completion retry2 = Normal Pending /\
  length (sockets_opened (trace retry1 ++ trace retry2)) = 2%nat /\
  disconnected (trace retry1 ++ trace retry2) = [].
Proof.
  intros Hq Hlt. cbv zeta. unfold on_reconnect_error.
  assert (H : forall s0, quiet s0 ->
            (S (reconnectAttempts s0) < maxReconnectAttempts s0)%nat ->
            forall e, exists s1 t1,
              handleConnectionError e s0 = (Normal tt, s1, t1) /\
              same_config s0 s1 /\
              reconnectAttempts s1 = S (reconnectAttempts s0) /\
              scheduled_retries t1 = [backoffDelay (retryDelay s0) (S (reconnectAttempts s0))] /\
              cleared t1 = []).
  { intros s0 Hq0 Hlt0 e.
    assert (Hb : (S (reconnectAttempts s0) <? maxReconnectAttempts s0)%nat = true)
      by now apply Nat.ltb_lt.
    unfold handleConnectionError, same_config. meval. rewrite Hb. meval.
    do 2 eexists; (split; [reflexivity|]); fields; calls; repeat split. }
  assert (G : forall s0, (reconnectAttempts s0 < maxReconnectAttempts s0)%nat ->
            exists s1 t1 h,
              connect IoReturns s0 = (Normal Pending, s1, t1) /\
              maxReconnectAttempts s1 = maxReconnectAttempts s0 /\
              reconnectAttempts s1 = reconnectAttempts s0 /\
              sockets_opened t1 = [h] /\ disconnected t1 = []).
  { intros s0 Hlt0.
    assert (Hle : (maxReconnectAttempts s0 <=? reconnectAttempts s0)%nat = false)
      by (apply Nat.leb_gt; exact Hlt0).
    unfold connect. meval.
    destruct (connectionTimeout s0); meval; rewrite Hle; meval;
      do 3 eexists; (split; [reflexivity|]); fields; calls; repeat split. }
  unfold completion, final, trace.
  destruct (H s Hq ltac:(lia) e1) as (s1 & t1 & E1 & C1 & A1 & R1 & L1).
  rewrite E1. cbn [fst snd].
  assert (Hq1 : quiet s1) by (eapply quiet_same; [apply C1|exact Hq]).
  destruct C1 as (_ & M1 & D1 & _).
  destruct (H s1 Hq1 ltac:(lia) e2) as (s2 & t2 & E2 & C2 & A2 & R2 & L2).
  rewrite E2. cbn [fst snd].
  destruct C2 as (_ & M2 & _).
  destruct (G s2 ltac:(lia)) as (s3 & t3 & h3 & E3 & M3 & A3 & O3 & X3).
  rewrite E3. cbn [fst snd].
  destruct (G s3 ltac:(lia)) as (s4 & t4 & h4 & E4 & M4 & A4 & O4 & X4).
  rewrite E4. cbn [fst snd].
  unfold scheduled_retries, cleared, sockets_opened, disconnected in *.
  rewrite !omap_append, R1, R2, L1, L2, O3, O4, X3, X4, D1, A1. repeat split.
Qed.

(** X30. A subscriber of ['connection'] that throws stops the retry loop.
    [handleConnectionError] notifies before it counts the failure and sets
    the retry timer, and catches nothing: when a subscriber throws on the
    notice, the handler of ['connect_error'] ends with that exception after
    calling the subscribers up to it, the counter is not incremented and no
    retry is scheduled. *)
Theorem throwing_subscriber_stops_retries
    (error e : Exn) (before after : list Callback) (c : Callback) (s : Service) :
  let notice := PJS (VObj [("connected", VBool false)]) in
  subscribers s "connection" = before ++ c :: after ->
  Forall (fun c => cb_call c notice = None) before ->
  cb_call c notice = Some e ->
  let outcome := on_connect_error error s in
  completion outcome = Throw e /\
  connected (final outcome) = false /\
  reconnectAttempts (final outcome) = reconnectAttempts s /\
  scheduled_retries (trace outcome) = [] /\
  published (trace outcome) = ["connection"] /\
  delivered (trace outcome) = map cb_id (before ++ [c]).
Proof.
  cbv zeta. intros Hsub Hbefore Hc.
  unfold on_connect_error, handleConnectionError.
  assert (E : forall s0, subscribers s0 "connection" = before ++ c :: after ->
            emit "connection" (PJS (VObj [("connected", VBool false)])) s0
            = (Throw e, s0,
               Published "connection" (PJS (VObj [("connected", VBool false)]))
               :: deliveries "connection" (PJS (VObj [("connected", VBool false)]))
                    (before ++ [c]))).
  { intros s0 H0. rewrite emit_run, H0.
    now rewrite (call_each_throws _ _ _ _ _ _ _ Hbefore Hc). }
  rewrite bind_run. unfold clearConnectionTimeout. rewrite bind_run. cbn [get].
  destruct (connectionTimeout s) as [id|];
    repeat first [rewrite bind_run | progress cbn [tell modify mret M_ret]];
    rewrite E by exact Hsub;
    unfold completion, final, trace; cbn [fst snd app]; fields;
    unfold scheduled_retries, published, delivered;
    cbn [omap list_omap];
    fold scheduled_retries published delivered;
    rewrite scheduled_retries_deliveries, published_deliveries, delivered_deliveries;
    repeat split.
Qed.

End RetryProperties.

(** Two failures of the fresh service, as an instance of
    [failures_schedule_independent_retries]. *)
Lemma failures_schedule_independent_retries_witness :
  ArduinoService.scheduled_retries
    (ArduinoService.trace
       (ArduinoService.on_reconnect_error Samples.refused
          (ArduinoService.initial "http://backend")) ++
     ArduinoService.trace
       (ArduinoService.on_reconnect_error Samples.refused
          (ArduinoService.final
             (ArduinoService.on_reconnect_error Samples.refused
                (ArduinoService.initial "http://backend")))))
  = [ArduinoService.backoffDelay 5000 1; ArduinoService.backoffDelay 5000 2].
Proof.
  pose proof (failures_schedule_independent_retries Samples.refused Samples.refused
                (ArduinoService.initial "http://backend")
                (quiet_initial "http://backend")
                (le_S _ _ (le_S _ _ (le_n 3)))) as H.
  cbv zeta in H. exact (proj1 H).
Defined.

(** A refused connection of a service whose second subscriber of
    ['connection'] throws, as an instance of
    [throwing_subscriber_stops_retries]. *)
Lemma throwing_subscriber_stops_retries_witness :
  ArduinoService.completion
    (ArduinoService.on_connect_error Samples.refused
       Samples.failing_connection_subscriber) = Throw (JSError "boom") /\
  ArduinoService.scheduled_retries
    (ArduinoService.trace
       (ArduinoService.on_connect_error Samples.refused
          Samples.failing_connection_subscriber)) = [].
Proof.
  destruct (throwing_subscriber_stops_retries Samples.refused (JSError "boom")
              [Samples.quiet_subscriber 1] [] (Samples.throwing_subscriber 2)
              Samples.failing_connection_subscriber) as (H1 & _ & _ & H4 & _).
  - reflexivity.
  - repeat constructor.
  - reflexivity.
  - split; assumption.
Defined.
